(** * java.pyx: a reflective Python/JNI bridge

    Shallow embedding of [recipes/android/src/java.pyx]: the signature
    parser [parse_definition], the proxy class [JavaClass] (class and method
    resolution, constructor call, argument marshaling) and the bound method
    [JavaMethod] (invocation and result decoding).

    Python exceptions are values of [exn]; the foreign runtime (the JNI
    function table, [SDL_ANDROID_GetJNIEnv], libc's [malloc]) and Cython's
    implicit coercions are an oracle [Runtime]; every call that leaves the
    module is logged as an [event].  [JavaMethod] objects are class
    attributes, shared by all instances of a proxy class: they live in a
    heap and are updated in place.

    Reading conventions.  The module is read as the Cython of its time
    (before 3.0) compiles it.  A [raise] ends the function it is in.  It
    reaches the caller of a [def] function and of a [cdef] function that
    returns a Python object ([parse_definition], [resolve_method],
    [call_method], [call_staticmethod]).  It does not reach the caller of a
    [cdef] function declared [void] with no [except] clause
    ([call_constructor], [resolve_class], [resolve_methods],
    [populate_args]): the exception is written to stderr and dropped, and
    the function returns.  A call through a NULL [JNIEnv *], or a method
    call through a typed attribute that holds [None], is a [Fault]: it has
    no Python-level outcome.  [jni.pxi] is not part of the sources; the JNI
    types have their standard widths. *)

From Stdlib Require Import ZArith List String Ascii Bool Lia DecimalString.
From stdpp Require Import base list.
Import ListNotations.
Local Open Scope string_scope.
Local Open Scope list_scope.

(** ** Python strings *)

Module Py.

(** [s.split(sep)] for a one-character separator: never the empty list. *)
Fixpoint split (sep : ascii) (s : string) : list string :=
  match s with
  | EmptyString => [EmptyString]
  | String c s' =>
      if Ascii.eqb c sep then EmptyString :: split sep s'
      else match split sep s' with
           | [] => [String c EmptyString]
           | t :: ts => String c t :: ts
           end
  end.

(** [sep.join(l)] *)
Definition join (sep : string) (l : list string) : string := String.concat sep l.

(** [s[1:]] *)
Definition tail (s : string) : string :=
  match s with
  | EmptyString => EmptyString
  | String _ s' => s'
  end.

(** [l[-1]] of a list known to be non-empty, as [split] returns it. *)
Definition last (l : list string) : string := List.last l EmptyString.

(** [l.pop(-1)], the list that remains. *)
Definition pop_last (l : list string) : list string := List.removelast l.

(** [c in s] *)
Fixpoint contains (c : ascii) (s : string) : bool :=
  match s with
  | EmptyString => false
  | String d s' => Ascii.eqb d c || contains c s'
  end.

(** [s.count(c)] *)
Fixpoint count (c : ascii) (s : string) : nat :=
  match s with
  | EmptyString => 0
  | String d s' => (if Ascii.eqb d c then 1 else 0) + count c s'
  end.

(** [s.endswith(c)] *)
Fixpoint endswith (c : ascii) (s : string) : bool :=
  match s with
  | EmptyString => false
  | String d EmptyString => Ascii.eqb d c
  | String _ s' => endswith c s'
  end.

End Py.

(** ** Exceptions *)

Inductive exn : Type :=
| JavaException (msg : string)
| MemoryError (msg : string)
| NotImplementedError (msg : string)
| Exception (msg : string)
| ValueError (msg : string)
| TypeError (msg : string)
| IndexError (msg : string)
| OverflowError (msg : string)
| AttributeError (msg : string)
| AssertionError.

(** The wrapper's own error category: [class JavaException(Exception)]. *)
Definition is_JavaException (e : exn) : bool :=
  match e with JavaException _ => true | _ => false end.

(** The message an exception carries, if it carries one. *)
Definition message (e : exn) : option string :=
  match e with
  | JavaException m | MemoryError m | NotImplementedError m | Exception m
  | ValueError m | TypeError m | IndexError m | OverflowError m
  | AttributeError m => Some m
  | AssertionError => None
  end.

(** ** Signature parser *)

(** [args, ret = l]: unpacking a list into exactly two names. *)
Definition unpack2 (l : list string) : exn + (string * string) :=
  match l with
  | [a; b] => inr (a, b)
  | [] | [_] => inl (ValueError "need more than 1 value to unpack")
  | _ => inl (ValueError "too many values to unpack")
  end.

(** The [if args: ... else: args = []] block of [parse_definition]. *)
Definition split_args (args : string) : list string :=
  if negb (String.eqb args "") then
    let args := Py.split ";" args in
    if String.eqb (Py.last args) "" then Py.pop_last args else args
  else [].

Definition parse_definition (definition : string) : exn + (string * list string) :=
  match unpack2 (Py.split ")" (Py.tail definition)) with
  | inl e => inl e
  | inr (args, ret) => inr (ret, split_args args)
  end.

(** ** C and JNI data *)

Definition pointer := Z.
Definition NULL : pointer := 0%Z.
Definition jobject := pointer.
Definition jclass := pointer.
Definition jmethodID := pointer.
Definition JNIEnv_ptr := pointer.

Definition is_null (p : pointer) : bool := Z.eqb p NULL.

(** Two's-complement wrap-around of a C integer conversion. *)
Definition wrap_unsigned (bits z : Z) : Z := (z mod 2 ^ bits)%Z.
Definition wrap_signed (bits z : Z) : Z :=
  ((z + 2 ^ (bits - 1)) mod 2 ^ bits - 2 ^ (bits - 1))%Z.

(** Floating-point values are carried by their bit patterns: the module
    only moves them. *)
Inductive c_float : Type := float_bits (b : Z).
Inductive c_double : Type :=
| double_bits (b : Z)
| double_of_float (f : c_float).

(** The JNI result types, one per [Call<Type>MethodA] entry point. *)
Inductive jtype : Type :=
| TVoid | TBoolean | TByte | TChar | TShort | TInt | TLong
| TFloat | TDouble | TObject.

Definition jresult (t : jtype) : Type :=
  match t with
  | TVoid => unit
  | TBoolean | TByte | TChar | TShort | TInt | TLong => Z
  | TFloat => c_float
  | TDouble => c_double
  | TObject => jobject
  end.

(** A value as the JNI type holds it: [jboolean] is an unsigned 8-bit
    integer, [jbyte] signed 8-bit, [jchar] unsigned 16-bit, [jshort] signed
    16-bit, [jint] signed 32-bit, [jlong] signed 64-bit. *)
Definition as_jtype (t : jtype) : jresult t -> jresult t :=
  match t with
  | TBoolean => wrap_unsigned 8
  | TByte => wrap_signed 8
  | TChar => wrap_unsigned 16
  | TShort => wrap_signed 16
  | TInt => wrap_signed 32
  | TLong => wrap_signed 64
  | _ => fun v => v
  end.

(** The [jvalue] union, by the member last written; memory fresh from
    [malloc] is [cell_uninit]. *)
Inductive jvalue : Type :=
| cell_uninit
| cell_z (v : Z) | cell_b (v : Z) | cell_c (v : Z) | cell_s (v : Z)
| cell_i (v : Z) | cell_j (v : Z)
| cell_f (v : c_float) | cell_d (v : c_double)
| cell_l (v : jobject).

(** [jvalue *j_args]: the address and the cells behind it. *)
Record jbuffer : Type := { addr : pointer; cells : list jvalue }.

Definition NULL_buffer : jbuffer := {| addr := NULL; cells := [] |}.
Definition sizeof_jvalue : Z := 8%Z.

(** ** Python objects *)

Inductive object : Type :=
| PyNone
| PyBool (b : bool)
| PyInt (z : Z)
| PyFloat (d : c_double)
| PyStr (s : string)               (* a str; unicode objects are left out *)
| PyJavaObject (obj : jobject)     (* an instance of JavaObject *)
| PyOther (id : nat).              (* an instance of any class not above, not a basestring *)

(** ** Calls that leave the module *)

Module Ev.

Inductive jni_call : Type :=
| FindClass (name : string)
| GetMethodID (cls : jclass) (name sig : string)
| GetStaticMethodID (cls : jclass) (name sig : string)
| NewObjectA (cls : jclass) (ctor : jmethodID) (args : jbuffer)
| NewStringUTF (s : string)
| GetStringUTFChars (str : jobject)
| ReleaseStringUTFChars (str : jobject) (chars : string)
| CallMethodA (t : jtype) (self : jobject) (m : jmethodID) (args : jbuffer)
| CallStaticMethodA (t : jtype) (cls : jclass) (m : jmethodID) (args : jbuffer).

Inductive event : Type :=
| malloc (size : Z) (p : pointer)
| free (p : pointer)
| SDL_ANDROID_GetJNIEnv
| Jni (c : jni_call).

End Ev.

Abbreviation event := Ev.event.

(** The foreign runtime, libc and the C platform, and Cython's implicit
    coercion of a Python object assigned to a C variable. *)
Record Runtime : Type := {
  rt_malloc : Z -> pointer;
  rt_GetJNIEnv : JNIEnv_ptr;
  rt_FindClass : string -> jclass;
  rt_GetMethodID : jclass -> string -> string -> jmethodID;
  rt_GetStaticMethodID : jclass -> string -> string -> jmethodID;
  rt_NewObjectA : jclass -> jmethodID -> jbuffer -> jobject;
  rt_NewStringUTF : string -> jobject;
  rt_GetStringUTFChars : jobject -> string;
  rt_CallMethodA : forall t : jtype, jobject -> jmethodID -> jbuffer -> jresult t;
  rt_CallStaticMethodA : forall t : jtype, jclass -> jmethodID -> jbuffer -> jresult t;
  (* C: signedness of plain [char], width of [long] *)
  char_is_signed : bool;
  long_bits : Z;
  (* Cython: [cdef_var = py_obj] *)
  as_integer : jtype -> object -> exn + Z;
  as_float : object -> exn + c_float;
  as_double : object -> exn + c_double;
  (* what a variable holds when an entry point itself, not its result, is
     assigned to it *)
  entry_as_jbyte : Z;
  entry_as_jfloat : c_float
}.

(** ** The heap of Python objects the module mutates *)

Module JavaMethod.
Record t : Type := {
    j_method : jmethodID;
    jc : option nat;                 (* the JavaClass instance, or None *)
    j_env : JNIEnv_ptr;
    j_cls : jclass;
    j_self : jobject;
    definition : string;
    is_static : bool;
    definition_return : string;
    definition_args : list string
  }.
End JavaMethod.

(** A class attribute, as [resolve_methods] sees it through [dir] and
    [getattr]: a [JavaMethod] object (by address) or anything else. *)
Inductive attribute : Type :=
| attr_method (a : nat)
| attr_other.

(** A proxy type: a Python subclass of [JavaClass].  [members] is
    [dir(cls)] with the value of each name. *)
Record pyclass : Type := {
  __javaclass__ : option string;
  __javaconstructor__ : option string;
  members : list (string * attribute)
}.

Module JavaClass.
Record t : Type := {
    ob_type : pyclass;
    j_env : JNIEnv_ptr;
    j_cls : jclass;
    j_self : jobject;
    definition : option string
  }.
End JavaClass.

Record heap : Type := {
  methods : list JavaMethod.t;
  proxies : list JavaClass.t
}.

Definition empty_heap : heap := {| methods := []; proxies := [] |}.

(** ** The monad: heap state, a log of events, exceptions and faults *)

Inductive outcome (A : Type) : Type :=
| Return (a : A)
| Raise (e : exn)
| Fault.     (* NULL or None dereferenced: the process dies *)
Arguments Return {A} a.
Arguments Raise {A} e.
Arguments Fault {A}.

Definition M (A : Type) : Type := heap -> outcome A * heap * list event.

Definition ret {A} (a : A) : M A := fun h => (Return a, h, []).
Definition raise {A} (e : exn) : M A := fun h => (Raise e, h, []).
Definition fault {A} : M A := fun h => (Fault, h, []).
Definition emit (e : event) : M unit := fun h => (Return tt, h, [e]).

Definition bind {A B} (m : M A) (k : A -> M B) : M B :=
  fun h =>
    match m h with
    | (Return a, h1, t1) => let '(o, h2, t2) := k a h1 in (o, h2, t1 ++ t2)
    | (Raise e, h1, t1) => (Raise e, h1, t1)
    | (Fault, h1, t1) => (Fault, h1, t1)
    end.

(** [try: body finally: fin], for a [fin] that does not raise. *)
Definition try_finally {A} (body : M A) (fin : M unit) : M A :=
  fun h =>
    match body h with
    | (Fault, h1, t1) => (Fault, h1, t1)
    | (o, h1, t1) =>
        match fin h1 with
        | (Return _, h2, t2) => (o, h2, t1 ++ t2)
        | (Raise e, h2, t2) => (Raise e, h2, t1 ++ t2)
        | (Fault, h2, t2) => (Fault, h2, t1 ++ t2)
        end
    end.

Definition lift {A} (r : exn + A) : M A :=
  match r with inl e => raise e | inr a => ret a end.

(** [body], run in a function that cannot hand an exception to its caller:
    an exception that leaves [body] is written to stderr and dropped, and
    the caller goes on with [a]. *)
Definition dropping {A} (body : M A) (a : A) : M A :=
  fun h =>
    match body h with
    | (Raise _, h1, t1) => (Return a, h1, t1)
    | r => r
    end.

(** A [cdef void] function with no [except] clause. *)
Definition cdef_void (body : M unit) : M unit := dropping body tt.

Declare Scope py_scope.
Delimit Scope py_scope with py.
Notation "x <- c1 ;; c2" := (bind c1 (fun x => c2))
  (at level 100, c1 at next level, right associativity) : py_scope.
Notation "c1 ;; c2" := (bind c1 (fun _ => c2))
  (at level 100, right associativity) : py_scope.
Local Open Scope py_scope.

Definition outcome_of {A} (r : outcome A * heap * list event) : outcome A := fst (fst r).
Definition heap_of {A} (r : outcome A * heap * list event) : heap := snd (fst r).
Definition trace_of {A} (r : outcome A * heap * list event) : list event := snd r.

(** Heap accesses.  Reading through a dangling address does not happen in
    the code: addresses come from allocation only. *)
Definition load_method (a : nat) : M JavaMethod.t :=
  fun h => match methods h !! a with
           | Some jm => (Return jm, h, [])
           | None => (Fault, h, [])
           end.

Definition store_method (a : nat) (jm : JavaMethod.t) : M unit :=
  fun h => (Return tt, {| methods := <[a := jm]> (methods h); proxies := proxies h |}, []).

Definition alloc_method (jm : JavaMethod.t) : M nat :=
  fun h => (Return (length (methods h)),
            {| methods := methods h ++ [jm]; proxies := proxies h |}, []).

Definition load_proxy (a : nat) : M JavaClass.t :=
  fun h => match proxies h !! a with
           | Some o => (Return o, h, [])
           | None => (Fault, h, [])
           end.

Definition store_proxy (a : nat) (o : JavaClass.t) : M unit :=
  fun h => (Return tt, {| methods := methods h; proxies := <[a := o]> (proxies h) |}, []).

Definition alloc_proxy (o : JavaClass.t) : M nat :=
  fun h => (Return (length (proxies h)),
            {| methods := methods h; proxies := proxies h ++ [o] |}, []).

Definition update_proxy (a : nat) (f : JavaClass.t -> JavaClass.t) : M unit :=
  o <- load_proxy a ;; store_proxy a (f o).

Definition update_method (a : nat) (f : JavaMethod.t -> JavaMethod.t) : M unit :=
  jm <- load_method a ;; store_method a (f jm).

(** [s[0]] *)
Definition getitem0 (s : string) : M string :=
  match s with
  | EmptyString => raise (IndexError "string index out of range")
  | String c _ => ret (String c EmptyString)
  end.

(** [args[index]] *)
Definition getitem (args : list object) (index : nat) : M object :=
  match args !! index with
  | Some v => ret v
  | None => raise (IndexError "tuple index out of range")
  end.

(** ['{0}'.format(n)] *)
Definition format_nat (n : nat) : string := NilEmpty.string_of_uint (Nat.to_uint n).

(** [if len(args):] *)
Definition nonempty (args : list object) : bool := negb (Nat.eqb (length args) 0).

Section Program.

Variable rt : Runtime.

(** *** libc and the JNI function table *)

Definition malloc (size : Z) : M pointer :=
  let p := rt_malloc rt size in
  emit (Ev.malloc size p) ;; ret p.

Definition free (p : pointer) : M unit := emit (Ev.free p).

Definition SDL_ANDROID_GetJNIEnv : M JNIEnv_ptr :=
  emit Ev.SDL_ANDROID_GetJNIEnv ;; ret (rt_GetJNIEnv rt).

(** [env[0].f(env, ...)]: the call goes through the table behind [env]. *)
Definition jni {A} (env : JNIEnv_ptr) (c : Ev.jni_call) (r : A) : M A :=
  if is_null env then fault else (emit (Ev.Jni c) ;; ret r).

(** [env[0].f], the entry point read and not called. *)
Definition entry_point {A} (env : JNIEnv_ptr) (r : A) : M A :=
  if is_null env then fault else ret r.

Definition FindClass (env : JNIEnv_ptr) (name : string) : M jclass :=
  jni env (Ev.FindClass name) (rt_FindClass rt name).

Definition GetMethodID (env : JNIEnv_ptr) (cls : jclass) (name sig : string) : M jmethodID :=
  jni env (Ev.GetMethodID cls name sig) (rt_GetMethodID rt cls name sig).

Definition GetStaticMethodID (env : JNIEnv_ptr) (cls : jclass) (name sig : string) : M jmethodID :=
  jni env (Ev.GetStaticMethodID cls name sig) (rt_GetStaticMethodID rt cls name sig).

Definition NewObjectA (env : JNIEnv_ptr) (cls : jclass) (ctor : jmethodID) (args : jbuffer) : M jobject :=
  jni env (Ev.NewObjectA cls ctor args) (rt_NewObjectA rt cls ctor args).

Definition NewStringUTF (env : JNIEnv_ptr) (s : string) : M jobject :=
  jni env (Ev.NewStringUTF s) (rt_NewStringUTF rt s).

Definition GetStringUTFChars (env : JNIEnv_ptr) (str : jobject) : M string :=
  jni env (Ev.GetStringUTFChars str) (rt_GetStringUTFChars rt str).

Definition ReleaseStringUTFChars (env : JNIEnv_ptr) (str : jobject) (chars : string) : M unit :=
  jni env (Ev.ReleaseStringUTFChars str chars) tt.

(** [Call<Type>MethodA] and [CallStatic<Type>MethodA], one per [jtype]. *)
Definition CallTypeMethodA (t : jtype) (env : JNIEnv_ptr) (self : jobject)
    (m : jmethodID) (args : jbuffer) : M (jresult t) :=
  jni env (Ev.CallMethodA t self m args) (as_jtype t (rt_CallMethodA rt t self m args)).

Definition CallStaticTypeMethodA (t : jtype) (env : JNIEnv_ptr) (cls : jclass)
    (m : jmethodID) (args : jbuffer) : M (jresult t) :=
  jni env (Ev.CallStaticMethodA t cls m args) (as_jtype t (rt_CallStaticMethodA rt t cls m args)).

Definition CallVoidMethodA := CallTypeMethodA TVoid.
Definition CallBooleanMethodA := CallTypeMethodA TBoolean.
Definition CallByteMethodA := CallTypeMethodA TByte.
Definition CallCharMethodA := CallTypeMethodA TChar.
Definition CallShortMethodA := CallTypeMethodA TShort.
Definition CallIntMethodA := CallTypeMethodA TInt.
Definition CallLongMethodA := CallTypeMethodA TLong.
Definition CallFloatMethodA := CallTypeMethodA TFloat.
Definition CallDoubleMethodA := CallTypeMethodA TDouble.
Definition CallObjectMethodA := CallTypeMethodA TObject.

Definition CallStaticVoidMethodA := CallStaticTypeMethodA TVoid.
Definition CallStaticBooleanMethodA := CallStaticTypeMethodA TBoolean.
Definition CallStaticCharMethodA := CallStaticTypeMethodA TChar.
Definition CallStaticShortMethodA := CallStaticTypeMethodA TShort.
Definition CallStaticIntMethodA := CallStaticTypeMethodA TInt.
Definition CallStaticLongMethodA := CallStaticTypeMethodA TLong.
Definition CallStaticDoubleMethodA := CallStaticTypeMethodA TDouble.
Definition CallStaticObjectMethodA := CallStaticTypeMethodA TObject.

(** C casts [<char>], [<short>], [<int>], [<long>]. *)
Definition cast_char (z : Z) : Z :=
  if char_is_signed rt then wrap_signed 8 z else wrap_unsigned 8 z.
Definition cast_short (z : Z) : Z := wrap_signed 16 z.
Definition cast_int (z : Z) : Z := wrap_signed 32 z.
Definition cast_long (z : Z) : Z := wrap_signed (long_bits rt) z.

(** *** JavaClass *)

(** [j_args[index].<member> = v] *)
Definition store_cell (j_args : jbuffer) (index : nat) (v : jvalue) : jbuffer :=
  {| addr := addr j_args; cells := <[index := v]> (cells j_args) |}.

(** The body of the loop of [populate_args]. *)
Definition populate_arg (self : JavaClass.t) (index : nat) (argtype : string)
    (j_args : jbuffer) (args : list object) : M jbuffer :=
  py_arg <- getitem args index ;;
  if argtype =? "Z" then
    v <- lift (as_integer rt TBoolean py_arg) ;; ret (store_cell j_args index (cell_z v))
  else if argtype =? "B" then
    v <- lift (as_integer rt TByte py_arg) ;; ret (store_cell j_args index (cell_b v))
  else if argtype =? "C" then
    v <- lift (as_integer rt TChar py_arg) ;; ret (store_cell j_args index (cell_c v))
  else if argtype =? "S" then
    v <- lift (as_integer rt TShort py_arg) ;; ret (store_cell j_args index (cell_s v))
  else if argtype =? "I" then
    v <- lift (as_integer rt TInt py_arg) ;; ret (store_cell j_args index (cell_i v))
  else if argtype =? "J" then
    v <- lift (as_integer rt TLong py_arg) ;; ret (store_cell j_args index (cell_j v))
  else if argtype =? "F" then
    v <- lift (as_float rt py_arg) ;; ret (store_cell j_args index (cell_f v))
  else if argtype =? "D" then
    v <- lift (as_double rt py_arg) ;; ret (store_cell j_args index (cell_d v))
  else
    c <- getitem0 argtype ;;
    if c =? "L" then
      if argtype =? "Ljava/lang/String" then
        match py_arg with
        | PyStr s =>
            l <- NewStringUTF (JavaClass.j_env self) s ;;
            ret (store_cell j_args index (cell_l l))
        | PyNone => ret (store_cell j_args index (cell_l NULL))
        | _ => raise (JavaException
                 "Not a correct type of string, must be an instance of str or unicode")
        end
      else
        match py_arg with
        | PyJavaObject obj => ret (store_cell j_args index (cell_l obj))
        | _ => raise (JavaException ("JavaObject needed for argument " ++ format_nat index))
        end
    else if c =? "[" then
      (* [raise NotImplemented('...')]: [NotImplemented] is the constant, not
         the exception class [NotImplementedError]; calling it is the error *)
      raise (TypeError "'NotImplementedType' object is not callable")
    else ret j_args.

(** [for index, argtype in enumerate(definition_args)], from [index] on. *)
Fixpoint populate_args_from (self : JavaClass.t) (index : nat)
    (definition_args : list string) (j_args : jbuffer) (args : list object) : M jbuffer :=
  match definition_args with
  | [] => ret j_args
  | argtype :: rest =>
      j_args <- populate_arg self index argtype j_args args ;;
      populate_args_from self (S index) rest j_args args
  end.

(** The cells behind [j_args] when the loop is left, by running through or
    by an exception: what the iterations that completed have written. *)
Fixpoint written (self : JavaClass.t) (index : nat) (definition_args : list string)
    (j_args : jbuffer) (args : list object) (h : heap) : jbuffer :=
  match definition_args with
  | [] => j_args
  | argtype :: rest =>
      match populate_arg self index argtype j_args args h with
      | (Return b, h1, _) => written self (S index) rest b args h1
      | _ => j_args
      end
  end.

(** The run of [populate_args] from [index] on: the loop, in a [cdef void]
    function.  An exception raised in the loop is dropped, and the caller
    goes on with the cells as the loop left them. *)
Definition populate_args_rest (self : JavaClass.t) (index : nat)
    (definition_args : list string) (j_args : jbuffer) (args : list object) : M jbuffer :=
  fun h =>
    dropping (populate_args_from self index definition_args j_args args)
             (written self index definition_args j_args args h) h.

(** [JavaClass.populate_args] *)
Definition populate_args (self : JavaClass.t) (definition_args : list string)
    (j_args : jbuffer) (args : list object) : M jbuffer :=
  populate_args_rest self 0 definition_args j_args args.

(** The buffer [malloc] returned at [p] for [n] cells. *)
Definition fresh_buffer (p : pointer) (n : nat) : jbuffer :=
  {| addr := p; cells := replicate n cell_uninit |}.

Definition set_definition (d : string) (o : JavaClass.t) : JavaClass.t :=
  {| JavaClass.ob_type := JavaClass.ob_type o; JavaClass.j_env := JavaClass.j_env o;
     JavaClass.j_cls := JavaClass.j_cls o; JavaClass.j_self := JavaClass.j_self o;
     JavaClass.definition := Some d |}.

Definition set_j_env (env : JNIEnv_ptr) (o : JavaClass.t) : JavaClass.t :=
  {| JavaClass.ob_type := JavaClass.ob_type o; JavaClass.j_env := env;
     JavaClass.j_cls := JavaClass.j_cls o; JavaClass.j_self := JavaClass.j_self o;
     JavaClass.definition := JavaClass.definition o |}.

Definition set_j_cls (cls : jclass) (o : JavaClass.t) : JavaClass.t :=
  {| JavaClass.ob_type := JavaClass.ob_type o; JavaClass.j_env := JavaClass.j_env o;
     JavaClass.j_cls := cls; JavaClass.j_self := JavaClass.j_self o;
     JavaClass.definition := JavaClass.definition o |}.

Definition set_j_self (obj : jobject) (o : JavaClass.t) : JavaClass.t :=
  {| JavaClass.ob_type := JavaClass.ob_type o; JavaClass.j_env := JavaClass.j_env o;
     JavaClass.j_cls := JavaClass.j_cls o; JavaClass.j_self := obj;
     JavaClass.definition := JavaClass.definition o |}.

(** [definition = '()V'], unless the class has a [__javaconstructor__]. *)
Definition constructor_definition (cls : pyclass) : string :=
  match __javaconstructor__ cls with
  | Some d => d
  | None => "()V"
  end.

(** [JavaClass.call_constructor], a [cdef void] function.  The assignment
    [j_args = malloc(...)] is the one statement of the [try] block that
    cannot raise; it is bound first, so that the [finally] clause reads the
    pointer it assigned. *)
Definition call_constructor (self : nat) (args : list object) : M unit :=
  cdef_void
    (o <- load_proxy self ;;
     let definition := constructor_definition (JavaClass.ob_type o) in
     update_proxy self (set_definition definition) ;;
     parsed <- lift (parse_definition definition) ;;
     let d_args := snd parsed in
     if negb (Nat.eqb (length args) (length d_args)) then
       raise (JavaException "Invalid call, number of argument mismatch for constructor")
     else
       p <- (if nonempty args then malloc (sizeof_jvalue * Z.of_nat (length d_args))
             else ret NULL) ;;
       try_finally
         (j_args <- (if nonempty args then
                       if is_null p then
                         raise (MemoryError "Unable to allocate memory for java args")
                       else populate_args o d_args (fresh_buffer p (length d_args)) args
                     else ret NULL_buffer) ;;
          constructor <- GetMethodID (JavaClass.j_env o) (JavaClass.j_cls o) "<init>"
                           definition ;;
          if is_null constructor then
            match __javaclass__ (JavaClass.ob_type o) with
            | Some c => raise (JavaException ("Unable to found the constructor for " ++ c))
            | None => raise (AttributeError "__javaclass__")
            end
          else
            obj <- NewObjectA (JavaClass.j_env o) (JavaClass.j_cls o) constructor j_args ;;
            update_proxy self (set_j_self obj))
         (if negb (is_null p) then free p else ret tt)).

(** [JavaClass.resolve_class], a [cdef void] function. *)
Definition resolve_class (self : nat) : M unit :=
  cdef_void
    (o <- load_proxy self ;;
     match __javaclass__ (JavaClass.ob_type o) with
     | None => raise (JavaException "__javaclass__ definition missing")
     | Some name =>
         env <- SDL_ANDROID_GetJNIEnv ;;
         update_proxy self (set_j_env env) ;;
         if is_null env then
           raise (JavaException "Unable to get the Android JNI Environment")
         else
           cls <- FindClass env name ;;
           update_proxy self (set_j_cls cls) ;;
           if is_null cls then raise (JavaException ("Unable to found the class " ++ name))
           else ret tt
     end).

(** *** JavaMethod *)

(** [JavaMethod(definition, static=...)]: [__cinit__], then [__init__];
    [JavaStaticMethod(definition)] passes [static=True].  The object exists
    for the program once [__init__] has returned. *)
Definition JavaMethod_new (definition : string) (static : bool) : M nat :=
  parsed <- lift (parse_definition definition) ;;
  alloc_method
    {| JavaMethod.j_method := NULL; JavaMethod.jc := None;
       JavaMethod.j_env := NULL; JavaMethod.j_cls := NULL; JavaMethod.j_self := NULL;
       JavaMethod.definition := definition; JavaMethod.is_static := static;
       JavaMethod.definition_return := fst parsed;
       JavaMethod.definition_args := snd parsed |}.

(** The four assignments that open [resolve_method]. *)
Definition bind_to (jc : nat) (c : JavaClass.t) (m : JavaMethod.t) : JavaMethod.t :=
  {| JavaMethod.j_method := JavaMethod.j_method m; JavaMethod.jc := Some jc;
     JavaMethod.j_env := JavaClass.j_env c; JavaMethod.j_cls := JavaClass.j_cls c;
     JavaMethod.j_self := JavaClass.j_self c;
     JavaMethod.definition := JavaMethod.definition m;
     JavaMethod.is_static := JavaMethod.is_static m;
     JavaMethod.definition_return := JavaMethod.definition_return m;
     JavaMethod.definition_args := JavaMethod.definition_args m |}.

Definition set_j_method (id : jmethodID) (m : JavaMethod.t) : JavaMethod.t :=
  {| JavaMethod.j_method := id; JavaMethod.jc := JavaMethod.jc m;
     JavaMethod.j_env := JavaMethod.j_env m; JavaMethod.j_cls := JavaMethod.j_cls m;
     JavaMethod.j_self := JavaMethod.j_self m;
     JavaMethod.definition := JavaMethod.definition m;
     JavaMethod.is_static := JavaMethod.is_static m;
     JavaMethod.definition_return := JavaMethod.definition_return m;
     JavaMethod.definition_args := JavaMethod.definition_args m |}.

(** [JavaMethod.resolve_method], a [cdef] function that returns an object:
    its AssertionError reaches the caller. *)
Definition resolve_method (self : nat) (jc : nat) (name : string) : M unit :=
  c <- load_proxy jc ;;
  update_method self (bind_to jc c) ;;
  m <- load_method self ;;
  j_method <- (if JavaMethod.is_static m then
                 GetStaticMethodID (JavaMethod.j_env m) (JavaMethod.j_cls m)
                   name (JavaMethod.definition m)
               else
                 GetMethodID (JavaMethod.j_env m) (JavaMethod.j_cls m)
                   name (JavaMethod.definition m)) ;;
  update_method self (set_j_method j_method) ;;
  (* assert(self.j_method != NULL) *)
  if is_null j_method then raise AssertionError else ret tt.

(** [JavaMethod.call_method], a [cdef] function that returns an object. *)
Definition call_method (self : JavaMethod.t) (j_args : jbuffer) : M object :=
  let j_env := JavaMethod.j_env self in
  let j_self := JavaMethod.j_self self in
  let j_method := JavaMethod.j_method self in
  r <- getitem0 (JavaMethod.definition_return self) ;;
  if r =? "V" then
    CallVoidMethodA j_env j_self j_method j_args ;;
    ret PyNone
  else if r =? "Z" then
    j_boolean <- CallBooleanMethodA j_env j_self j_method j_args ;;
    ret (PyBool (negb (Z.eqb j_boolean 0)))
  else if r =? "B" then
    j_byte <- CallByteMethodA j_env j_self j_method j_args ;;
    ret (PyInt (cast_char j_byte))
  else if r =? "C" then
    j_char <- CallCharMethodA j_env j_self j_method j_args ;;
    ret (PyInt (cast_char j_char))
  else if r =? "S" then
    j_short <- CallShortMethodA j_env j_self j_method j_args ;;
    ret (PyInt (cast_short j_short))
  else if r =? "I" then
    j_int <- CallIntMethodA j_env j_self j_method j_args ;;
    ret (PyInt (cast_int j_int))
  else if r =? "J" then
    j_long <- CallLongMethodA j_env j_self j_method j_args ;;
    ret (PyInt (cast_long j_long))
  else if r =? "F" then
    j_float <- CallFloatMethodA j_env j_self j_method j_args ;;
    ret (PyFloat (double_of_float j_float))
  else if r =? "D" then
    j_double <- CallDoubleMethodA j_env j_self j_method j_args ;;
    ret (PyFloat j_double)
  else if r =? "L" then
    j_object <- CallObjectMethodA j_env j_self j_method j_args ;;
    if r =? "Ljava/lang/String;" then
      c_str <- GetStringUTFChars j_env j_object ;;
      let py_str := c_str in
      ReleaseStringUTFChars j_env j_object c_str ;;
      ret (PyStr py_str)
    else
      ret (PyJavaObject j_object)
  else if r =? "[" then
    raise (NotImplementedError "Array arguments not implemented")
  else
    raise (Exception "Invalid return definition?").

(** In the branches for ['B'] and ['F'] the source breaks the line before
    the argument list: the assignment reads the entry point and calls
    nothing, and the next line is a parenthesised expression statement. *)
Definition call_staticmethod (self : JavaMethod.t) (j_args : jbuffer) : M object :=
  let j_env := JavaMethod.j_env self in
  let j_cls := JavaMethod.j_cls self in
  let j_method := JavaMethod.j_method self in
  r <- getitem0 (JavaMethod.definition_return self) ;;
  if r =? "V" then
    CallStaticVoidMethodA j_env j_cls j_method j_args ;;
    ret PyNone
  else if r =? "Z" then
    j_boolean <- CallStaticBooleanMethodA j_env j_cls j_method j_args ;;
    ret (PyBool (negb (Z.eqb j_boolean 0)))
  else if r =? "B" then
    j_byte <- entry_point j_env (as_jtype TByte (entry_as_jbyte rt)) ;;
    ret (PyInt (cast_char j_byte))
  else if r =? "C" then
    j_char <- CallStaticCharMethodA j_env j_cls j_method j_args ;;
    ret (PyInt (cast_char j_char))
  else if r =? "S" then
    j_short <- CallStaticShortMethodA j_env j_cls j_method j_args ;;
    ret (PyInt (cast_short j_short))
  else if r =? "I" then
    j_int <- CallStaticIntMethodA j_env j_cls j_method j_args ;;
    ret (PyInt (cast_int j_int))
  else if r =? "J" then
    j_long <- CallStaticLongMethodA j_env j_cls j_method j_args ;;
    ret (PyInt (cast_long j_long))
  else if r =? "F" then
    j_float <- entry_point j_env (entry_as_jfloat rt) ;;
    ret (PyFloat (double_of_float j_float))
  else if r =? "D" then
    j_double <- CallStaticDoubleMethodA j_env j_cls j_method j_args ;;
    ret (PyFloat j_double)
  else if r =? "L" then
    j_object <- CallStaticObjectMethodA j_env j_cls j_method j_args ;;
    if r =? "Ljava/lang/String;" then
      c_str <- GetStringUTFChars j_env j_object ;;
      let py_str := c_str in
      ReleaseStringUTFChars j_env j_object c_str ;;
      ret (PyStr py_str)
    else
      ret (PyJavaObject j_object)
  else if r =? "[" then
    raise (NotImplementedError "Array arguments not implemented")
  else
    raise (Exception "Invalid return definition?").

(** [JavaMethod.__call__], a [def] function; [malloc] is bound first as in
    [call_constructor].  [self.jc] is [None] until the method is resolved,
    and [self.jc.populate_args] then has no object to go through. *)
Definition __call__ (self : nat) (args : list object) : M object :=
  jm <- load_method self ;;
  let d_args := JavaMethod.definition_args jm in
  if negb (Nat.eqb (length args) (length d_args)) then
    raise (JavaException "Invalid call, number of argument mismatch")
  else
    p <- (if nonempty args then malloc (sizeof_jvalue * Z.of_nat (length d_args))
          else ret NULL) ;;
    try_finally
      (j_args <- (if nonempty args then
                    if is_null p then
                      raise (MemoryError "Unable to allocate memory for java args")
                    else
                      match JavaMethod.jc jm with
                      | None => fault
                      | Some jc =>
                          o <- load_proxy jc ;;
                          populate_args o (JavaMethod.definition_args jm)
                            (fresh_buffer p (length d_args)) args
                      end
                  else ret NULL_buffer) ;;
       if JavaMethod.is_static jm then call_staticmethod jm j_args
       else call_method jm j_args)
      (if negb (is_null p) then free p else ret tt).

(** *** JavaClass, continued *)

(** The loop of [resolve_methods] over [dir(self.__class__)]. *)
Fixpoint resolve_members (self : nat) (l : list (string * attribute)) : M unit :=
  match l with
  | [] => ret tt
  | (name, value) :: rest =>
      match value with
      | attr_other => resolve_members self rest
      | attr_method jm => resolve_method jm self name ;; resolve_members self rest
      end
  end.

(** [JavaClass.resolve_methods], a [cdef void] function: the exception of
    a [resolve_method] ends the loop and is dropped. *)
Definition resolve_methods (self : nat) : M unit :=
  cdef_void
    (o <- load_proxy self ;;
     resolve_members self (members (JavaClass.ob_type o))).

(** [JavaClass.__init__], a [def] function. *)
Definition __init__ (self : nat) (args : list object) : M unit :=
  resolve_class self ;;
  resolve_methods self ;;
  call_constructor self args.

(** Instantiation [cls(args...)]: [__cinit__] on a new object, then [__init__]. *)
Definition JavaClass_new (cls : pyclass) (args : list object) : M nat :=
  self <- alloc_proxy
    {| JavaClass.ob_type := cls; JavaClass.j_env := NULL; JavaClass.j_cls := NULL;
       JavaClass.j_self := NULL; JavaClass.definition := None |} ;;
  __init__ self args ;;
  ret self.

(** *** Client programs *)

(** What Python code does with the module: declare a method, instantiate a
    proxy class, invoke a method object. *)
Inductive stmt : Type :=
| DeclareMethod (definition : string) (static : bool)
| Instantiate (cls : pyclass) (args : list object)
| Invoke (jm : nat) (args : list object).

Definition exec (s : stmt) : M unit :=
  match s with
  | DeclareMethod d static => JavaMethod_new d static ;; ret tt
  | Instantiate cls args => JavaClass_new cls args ;; ret tt
  | Invoke jm args => __call__ jm args ;; ret tt
  end.

(** A program runs its statements in order; an exception ends a statement
    (the client catches it), a fault ends the run. *)
Fixpoint run (prog : list stmt) (h : heap) : option heap :=
  match prog with
  | [] => Some h
  | s :: rest =>
      match exec s h with
      | (Fault, _, _) => None
      | (_, h', _) => run rest h'
      end
  end.

End Program.

(** [t] happened, then the run [r]. *)
Definition after {A} (t : list event) (r : outcome A * heap * list event)
  : outcome A * heap * list event :=
  (outcome_of r, heap_of r, t ++ trace_of r).

(** The entry point the return tag selects: the table of the ten
    [Call<Type>MethodA] names. *)
Definition entry_type (tag : string) : option jtype :=
  if tag =? "V" then Some TVoid
  else if tag =? "Z" then Some TBoolean
  else if tag =? "B" then Some TByte
  else if tag =? "C" then Some TChar
  else if tag =? "S" then Some TShort
  else if tag =? "I" then Some TInt
  else if tag =? "J" then Some TLong
  else if tag =? "F" then Some TFloat
  else if tag =? "D" then Some TDouble
  else if tag =? "L" then Some TObject
  else None.

(** ** Traces and buffers *)

(** Buffers obtained (a [malloc] that did not return NULL) and buffers
    given back, in order. *)
Fixpoint allocated (t : list event) : list pointer :=
  match t with
  | [] => []
  | Ev.malloc _ p :: t' => if is_null p then allocated t' else p :: allocated t'
  | _ :: t' => allocated t'
  end.

Fixpoint freed (t : list event) : list pointer :=
  match t with
  | [] => []
  | Ev.free p :: t' => p :: freed t'
  | _ :: t' => freed t'
  end.

Definition is_jni (e : event) : Prop :=
  match e with Ev.Jni _ => True | _ => False end.

(** The trace of an operation that leaves no buffer behind: it never
    allocated, or [malloc] failed, or it allocated first, freed last and
    touched the allocator nowhere in between. *)
Inductive released : list event -> Prop :=
| released_none t : Forall is_jni t -> released t
| released_failed n : released [Ev.malloc n NULL]
| released_once n p t :
    p <> NULL -> Forall is_jni t -> released (Ev.malloc n p :: t ++ [Ev.free p]).

(** A computation that only talks to the JNI: the heap is as it was and
    every event is a call through the function table. *)
Definition external {A} (m : M A) : Prop :=
  forall h, heap_of (m h) = h /\ Forall is_jni (trace_of (m h)).

(** A computation whose every event is a call through the function table. *)
Definition jni_only {A} (m : M A) : Prop :=
  forall h, Forall is_jni (trace_of (m h)).

(** A computation that logs nothing. *)
Definition silent {A} (m : M A) : Prop :=
  forall h, trace_of (m h) = [].

(** A computation that dereferences nothing null. *)
Definition safe {A} (m : M A) : Prop :=
  forall h, outcome_of (m h) <> Fault.

(** A computation that leaves every [JavaMethod] object as it was. *)
Definition keeps_methods {A} (m : M A) : Prop :=
  forall h, methods (heap_of (m h)) = methods h.

(** From a heap with [P] the computation leaves a heap with [Q], however
    it ends. *)
Definition establishes {A} (P : heap -> Prop) (m : M A) (Q : heap -> Prop) : Prop :=
  forall h, P h -> Q (heap_of (m h)).

(** ** The instance handle and its copies *)

(** Every [JavaMethod] object holds NULL as its copy of the instance
    handle. *)
Definition self_handles_null (h : heap) : Prop :=
  Forall (fun jm => JavaMethod.j_self jm = NULL) (methods h).

(** The method object at [a] is bound to the proxy at [self], with NULL as
    its copy of the instance handle. *)
Definition bound_with_null_self (self : nat) (h : heap) (a : nat) : Prop :=
  exists jm, methods h !! a = Some jm
             /\ JavaMethod.jc jm = Some self
             /\ JavaMethod.j_self jm = NULL.

(** Every method object of [h'] is as it was in [h], or is bound to the
    proxy at [self] with NULL as its copy of the instance handle. *)
Definition rebound_with_null_self (self : nat) (h h' : heap) : Prop :=
  forall a, methods h' !! a = methods h !! a \/ bound_with_null_self self h' a.

(** The method object at [a] is bound to the proxy at [self] and holds
    copies of the three handles of the proxy record [o]. *)
Definition bound_to_proxy (self : nat) (o : JavaClass.t) (h : heap) (a : nat) : Prop :=
  exists jm, methods h !! a = Some jm
             /\ JavaMethod.jc jm = Some self
             /\ JavaMethod.j_env jm = JavaClass.j_env o
             /\ JavaMethod.j_cls jm = JavaClass.j_cls o
             /\ JavaMethod.j_self jm = JavaClass.j_self o.

(** The proxy at [self], of type [cls], has no instance handle yet. *)
Definition unconstructed (self : nat) (cls : pyclass) (h : heap) : Prop :=
  exists o, proxies h !! self = Some o
            /\ JavaClass.j_self o = NULL
            /\ JavaClass.ob_type o = cls.

(** The proxy at [self] holds the handle [NewObjectA] returned for it. *)
Definition constructed (rt : Runtime) (self : nat) (h : heap) : Prop :=
  exists o ctor buf, proxies h !! self = Some o
                     /\ JavaClass.j_self o = rt_NewObjectA rt (JavaClass.j_cls o) ctor buf.

(** ** A sample runtime and the proxy class of the module's docstring *)

Definition sample_result (t : jtype) : jresult t :=
  match t with
  | TVoid => tt
  | TBoolean => 1%Z
  | TByte => 7%Z
  | TChar => 321%Z
  | TShort => 300%Z
  | TInt => 160%Z
  | TLong => 5000000000%Z
  | TFloat => float_bits 1065353216
  | TDouble => double_bits 0
  | TObject => 2048%Z
  end.

Definition sample_runtime : Runtime := {|
  rt_malloc := fun _ => 4096%Z;
  rt_GetJNIEnv := 64%Z;
  rt_FindClass := fun _ => 128%Z;
  rt_GetMethodID := fun _ _ _ => 256%Z;
  rt_GetStaticMethodID := fun _ _ _ => 257%Z;
  rt_NewObjectA := fun _ _ _ => 512%Z;
  rt_NewStringUTF := fun _ => 1024%Z;
  rt_GetStringUTFChars := fun _ => "hi";
  rt_CallMethodA := fun t _ _ _ => sample_result t;
  rt_CallStaticMethodA := fun t _ _ _ => sample_result t;
  char_is_signed := false;
  long_bits := 32%Z;
  as_integer := fun _ o =>
    match o with
    | PyInt z => inr z
    | PyBool b => inr (if b then 1%Z else 0%Z)
    | _ => inl (TypeError "an integer is required")
    end;
  as_float := fun o =>
    match o with
    | PyFloat (double_of_float f) => inr f
    | _ => inl (TypeError "a float is required")
    end;
  as_double := fun o =>
    match o with
    | PyFloat d => inr d
    | _ => inl (TypeError "a float is required")
    end;
  entry_as_jbyte := 64%Z;
  entry_as_jfloat := float_bits 0
|}.

(** The same runtime, where no method is ever found. *)
Definition sample_runtime_no_method : Runtime := {|
  rt_malloc := rt_malloc sample_runtime;
  rt_GetJNIEnv := rt_GetJNIEnv sample_runtime;
  rt_FindClass := rt_FindClass sample_runtime;
  rt_GetMethodID := fun _ _ _ => NULL;
  rt_GetStaticMethodID := fun _ _ _ => NULL;
  rt_NewObjectA := rt_NewObjectA sample_runtime;
  rt_NewStringUTF := rt_NewStringUTF sample_runtime;
  rt_GetStringUTFChars := rt_GetStringUTFChars sample_runtime;
  rt_CallMethodA := rt_CallMethodA sample_runtime;
  rt_CallStaticMethodA := rt_CallStaticMethodA sample_runtime;
  char_is_signed := char_is_signed sample_runtime;
  long_bits := long_bits sample_runtime;
  as_integer := as_integer sample_runtime;
  as_float := as_float sample_runtime;
  as_double := as_double sample_runtime;
  entry_as_jbyte := entry_as_jbyte sample_runtime;
  entry_as_jfloat := entry_as_jfloat sample_runtime
|}.

(** [class Hardware(JavaClass)] with [getDPI = JavaStaticMethod('()I')],
    the method object at address 0. *)
Definition Hardware : pyclass := {|
  __javaclass__ := Some "org/test/Hardware";
  __javaconstructor__ := None;
  members := [("__javaclass__", attr_other); ("getDPI", attr_method 0)]
|}.

(** [getDPI] as [JavaStaticMethod('()I')] leaves it, and the heap that
    holds it before any [Hardware] is instantiated. *)
Definition getDPI : JavaMethod.t := {|
  JavaMethod.j_method := NULL; JavaMethod.jc := None;
  JavaMethod.j_env := NULL; JavaMethod.j_cls := NULL; JavaMethod.j_self := NULL;
  JavaMethod.definition := "()I";
  JavaMethod.is_static := true;
  JavaMethod.definition_return := "I";
  JavaMethod.definition_args := []
|}.

Definition Hardware_heap : heap := {| methods := [getDPI]; proxies := [] |}.

(** The method-lookup entry point that matches a static flag. *)
Definition lookup_call (static : bool) (cls : jclass) (name sig : string) : Ev.jni_call :=
  if static then Ev.GetStaticMethodID cls name sig else Ev.GetMethodID cls name sig.

Definition lookup_result (rt : Runtime) (static : bool) (cls : jclass) (name sig : string)
  : jmethodID :=
  if static then rt_GetStaticMethodID rt cls name sig else rt_GetMethodID rt cls name sig.

(** A resolved method object with the given signature parts. *)
Definition sample_method (static : bool) (ret : string) (args : list string)
  : JavaMethod.t := {|
  JavaMethod.j_method := 256%Z; JavaMethod.jc := Some 0;
  JavaMethod.j_env := 64%Z; JavaMethod.j_cls := 128%Z; JavaMethod.j_self := NULL;
  JavaMethod.definition := "";
  JavaMethod.is_static := static;
  JavaMethod.definition_return := ret;
  JavaMethod.definition_args := args
|}.

(** A heap with one resolved instance method, two arguments, and its proxy. *)
Definition sample_heap : heap := {|
  methods := [sample_method false "Ljava/lang/String;" ["Ljava/lang/String"; "I"]];
  proxies := [{| JavaClass.ob_type := Hardware; JavaClass.j_env := 64%Z;
                 JavaClass.j_cls := 128%Z; JavaClass.j_self := 512%Z;
                 JavaClass.definition := Some "()V" |}]
|}.

(** The heap after [Hardware()] on [Hardware_heap], in [sample_runtime]. *)
Definition Hardware_constructed : heap := {|
  methods := [{| JavaMethod.j_method := 257%Z; JavaMethod.jc := Some 0;
                 JavaMethod.j_env := 64%Z; JavaMethod.j_cls := 128%Z;
                 JavaMethod.j_self := NULL;
                 JavaMethod.definition := "()I";
                 JavaMethod.is_static := true;
                 JavaMethod.definition_return := "I";
                 JavaMethod.definition_args := [] |}];
  proxies := [{| JavaClass.ob_type := Hardware; JavaClass.j_env := 64%Z;
                 JavaClass.j_cls := 128%Z; JavaClass.j_self := 512%Z;
                 JavaClass.definition := Some "()V" |}]
|}.

(** A proxy object of type [cls] past [resolve_class]. *)
Definition sample_proxy (cls : pyclass) : JavaClass.t := {|
  JavaClass.ob_type := cls; JavaClass.j_env := 64%Z; JavaClass.j_cls := 128%Z;
  JavaClass.j_self := NULL; JavaClass.definition := None
|}.

(** ** Signatures written from tokens *)

(** The argument portion that spells [toks], each followed by the
    delimiter, as JNI writes object descriptors. *)
Fixpoint descriptors (toks : list string) : string :=
  match toks with
  | [] => ""
  | t :: rest => t ++ ";" ++ descriptors rest
  end.

(** [toks] are the descriptor tokens of the argument portion [args]: no
    token holds the delimiter, and [args] spells them in order, each
    followed by the delimiter, which only a last token that is not empty
    may lack. *)
Definition tokens_of (args : string) (toks : list string) : Prop :=
  Forall (fun t => Py.contains ";" t = false) toks
  /\ (descriptors toks = args
      \/ (descriptors toks = (args ++ ";")%string /\ List.last toks "" <> "")).

(** A token a signature can carry: no delimiter, no closing parenthesis. *)
Definition plain_token (t : string) : Prop :=
  Py.contains ";" t = false /\ Py.contains ")" t = false.

(** The number of arguments an argument portion declares: one per
    delimiter, and one more for a last token that no delimiter ends. *)
Definition declared_arity (args : string) : nat :=
  Py.count ";" args
  + (if String.eqb args "" || Py.endswith ";" args then 0 else 1).

(** ** What resolution and marshaling are expected to log *)

(** The method lookups [resolve_methods] makes over [dir(cls)], for method
    objects [ms] and class handle [cls]: one per method member, in order,
    up to the first that is not found. *)
Fixpoint lookups (rt : Runtime) (ms : list JavaMethod.t) (cls : jclass)
    (l : list (string * attribute)) : list event :=
  match l with
  | [] => []
  | (_, attr_other) :: rest => lookups rt ms cls rest
  | (name, attr_method a) :: rest =>
      match ms !! a with
      | None => []
      | Some m =>
          let static := JavaMethod.is_static m in
          let sig := JavaMethod.definition m in
          Ev.Jni (lookup_call static cls name sig)
          :: (if is_null (lookup_result rt static cls name sig) then []
              else lookups rt ms cls rest)
      end
  end.

(** Every method member is a method object the runtime finds. *)
Fixpoint all_found (rt : Runtime) (ms : list JavaMethod.t) (cls : jclass)
    (l : list (string * attribute)) : bool :=
  match l with
  | [] => true
  | (_, attr_other) :: rest => all_found rt ms cls rest
  | (name, attr_method a) :: rest =>
      match ms !! a with
      | None => false
      | Some m =>
          negb (is_null (lookup_result rt (JavaMethod.is_static m) cls name
                           (JavaMethod.definition m)))
          && all_found rt ms cls rest
      end
  end.

(** Every method member is a method object. *)
Definition members_declared (ms : list JavaMethod.t) (l : list (string * attribute)) : Prop :=
  forall name a, In (name, attr_method a) l -> a < length ms.

(** The text values passed for string descriptors, in argument order. *)
Fixpoint text_arguments (ds : list string) (args : list object) : list string :=
  match ds, args with
  | d :: ds', a :: args' =>
      match a with
      | PyStr s => if d =? "Ljava/lang/String" then s :: text_arguments ds' args'
                   else text_arguments ds' args'
      | _ => text_arguments ds' args'
      end
  | _, _ => []
  end.

(** The one-letter descriptors of the primitive types. *)
Definition is_primitive_tag (d : string) : bool :=
  (d =? "Z") || (d =? "B") || (d =? "C") || (d =? "S")
  || (d =? "I") || (d =? "J") || (d =? "F") || (d =? "D").

(** A computation that leaves the whole heap as it was. *)
Definition keeps_heap {A} (m : M A) : Prop :=
  forall h, heap_of (m h) = h.

(** A computation that never hands a value back. *)
Definition never_returns {A} (m : M A) : Prop :=
  forall h a, outcome_of (m h) <> Return a.

(** A proxy type that declares no class path. *)
Definition Undeclared : pyclass := {|
  __javaclass__ := None;
  __javaconstructor__ := None;
  members := [("getDPI", attr_method 0)]
|}.

(** What a method object is declared with: its static flag and signature. *)
Definition declaration (m : JavaMethod.t) : bool * string :=
  (JavaMethod.is_static m, JavaMethod.definition m).

(** A proxy type with two method members, its method objects as declared
    and a proxy of it past class resolution. *)
Definition Vibrator : pyclass := {|
  __javaclass__ := Some "org/test/Vibrator";
  __javaconstructor__ := Some "(Ljava/lang/String;)V";
  members := [("cancel", attr_method 0); ("name", attr_other); ("vibrate", attr_method 1)]
|}.

Definition cancel : JavaMethod.t := {|
  JavaMethod.j_method := NULL; JavaMethod.jc := None;
  JavaMethod.j_env := NULL; JavaMethod.j_cls := NULL; JavaMethod.j_self := NULL;
  JavaMethod.definition := "()V";
  JavaMethod.is_static := false;
  JavaMethod.definition_return := "V";
  JavaMethod.definition_args := []
|}.

Definition vibrate : JavaMethod.t := {|
  JavaMethod.j_method := NULL; JavaMethod.jc := None;
  JavaMethod.j_env := NULL; JavaMethod.j_cls := NULL; JavaMethod.j_self := NULL;
  JavaMethod.definition := "(J;)V";
  JavaMethod.is_static := false;
  JavaMethod.definition_return := "V";
  JavaMethod.definition_args := ["J"]
|}.

Definition Vibrator_heap : heap := {|
  methods := [cancel; vibrate];
  proxies := [{| JavaClass.ob_type := Vibrator; JavaClass.j_env := 64%Z;
                 JavaClass.j_cls := 128%Z; JavaClass.j_self := NULL;
                 JavaClass.definition := None |}]
|}.

(** The sample runtime out of memory. *)
Definition sample_runtime_no_memory : Runtime := {|
  rt_malloc := fun _ => NULL;
  rt_GetJNIEnv := rt_GetJNIEnv sample_runtime;
  rt_FindClass := rt_FindClass sample_runtime;
  rt_GetMethodID := rt_GetMethodID sample_runtime;
  rt_GetStaticMethodID := rt_GetStaticMethodID sample_runtime;
  rt_NewObjectA := rt_NewObjectA sample_runtime;
  rt_NewStringUTF := rt_NewStringUTF sample_runtime;
  rt_GetStringUTFChars := rt_GetStringUTFChars sample_runtime;
  rt_CallMethodA := rt_CallMethodA sample_runtime;
  rt_CallStaticMethodA := rt_CallStaticMethodA sample_runtime;
  char_is_signed := char_is_signed sample_runtime;
  long_bits := long_bits sample_runtime;
  as_integer := as_integer sample_runtime;
  as_float := as_float sample_runtime;
  as_double := as_double sample_runtime;
  entry_as_jbyte := entry_as_jbyte sample_runtime;
  entry_as_jfloat := entry_as_jfloat sample_runtime
|}.

(** The sample runtime, where no class is found. *)
Definition sample_runtime_no_class : Runtime := {|
  rt_malloc := rt_malloc sample_runtime;
  rt_GetJNIEnv := rt_GetJNIEnv sample_runtime;
  rt_FindClass := fun _ => NULL;
  rt_GetMethodID := rt_GetMethodID sample_runtime;
  rt_GetStaticMethodID := rt_GetStaticMethodID sample_runtime;
  rt_NewObjectA := rt_NewObjectA sample_runtime;
  rt_NewStringUTF := rt_NewStringUTF sample_runtime;
  rt_GetStringUTFChars := rt_GetStringUTFChars sample_runtime;
  rt_CallMethodA := rt_CallMethodA sample_runtime;
  rt_CallStaticMethodA := rt_CallStaticMethodA sample_runtime;
  char_is_signed := char_is_signed sample_runtime;
  long_bits := long_bits sample_runtime;
  as_integer := as_integer sample_runtime;
  as_float := as_float sample_runtime;
  as_double := as_double sample_runtime;
  entry_as_jbyte := entry_as_jbyte sample_runtime;
  entry_as_jfloat := entry_as_jfloat sample_runtime
|}.

(** The sample runtime without JNI environment. *)
Definition sample_runtime_no_environment : Runtime := {|
  rt_malloc := rt_malloc sample_runtime;
  rt_GetJNIEnv := NULL;
  rt_FindClass := rt_FindClass sample_runtime;
  rt_GetMethodID := rt_GetMethodID sample_runtime;
  rt_GetStaticMethodID := rt_GetStaticMethodID sample_runtime;
  rt_NewObjectA := rt_NewObjectA sample_runtime;
  rt_NewStringUTF := rt_NewStringUTF sample_runtime;
  rt_GetStringUTFChars := rt_GetStringUTFChars sample_runtime;
  rt_CallMethodA := rt_CallMethodA sample_runtime;
  rt_CallStaticMethodA := rt_CallStaticMethodA sample_runtime;
  char_is_signed := char_is_signed sample_runtime;
  long_bits := long_bits sample_runtime;
  as_integer := as_integer sample_runtime;
  as_float := as_float sample_runtime;
  as_double := as_double sample_runtime;
  entry_as_jbyte := entry_as_jbyte sample_runtime;
  entry_as_jfloat := entry_as_jfloat sample_runtime
|}.

(** The heap after [Vibrator("hi")] on [Vibrator_heap], in [sample_runtime]. *)
Definition Vibrator_constructed : heap := {|
  methods := [cancel; vibrate];
  proxies := [{| JavaClass.ob_type := Vibrator; JavaClass.j_env := 64%Z;
                 JavaClass.j_cls := 128%Z; JavaClass.j_self := 512%Z;
                 JavaClass.definition := Some "(Ljava/lang/String;)V" |}]
|}.

(** The method objects of [Vibrator] as declared, before any instantiation. *)
Definition Vibrator_declared : heap := {| methods := [cancel; vibrate]; proxies := [] |}.

(** A method object of [Vibrator] as an instantiation leaves it in
    [sample_runtime], with [j_self] as its copy of the instance handle. *)
Definition resolved (m : JavaMethod.t) (j_self : jobject) : JavaMethod.t := {|
  JavaMethod.j_method := 256%Z; JavaMethod.jc := Some 0;
  JavaMethod.j_env := 64%Z; JavaMethod.j_cls := 128%Z; JavaMethod.j_self := j_self;
  JavaMethod.definition := JavaMethod.definition m;
  JavaMethod.is_static := JavaMethod.is_static m;
  JavaMethod.definition_return := JavaMethod.definition_return m;
  JavaMethod.definition_args := JavaMethod.definition_args m
|}.

(** The heap after [Vibrator("hi")] on [Vibrator_declared], and the heap
    after [__init__("hi")] is then called again on that proxy. *)
Definition Vibrator_instantiated : heap := {|
  methods := [resolved cancel NULL; resolved vibrate NULL];
  proxies := proxies Vibrator_constructed
|}.

Definition Vibrator_reinitialised : heap := {|
  methods := [resolved cancel 512%Z; resolved vibrate 512%Z];
  proxies := proxies Vibrator_constructed
|}.

(** A heap with one resolved instance method that takes an int and an int
    array, and its proxy. *)
Definition array_heap : heap := {|
  methods := [sample_method false "V" ["I"; "[I"]];
  proxies := [sample_proxy Hardware]
|}.

(** The [NewStringUTF] calls for a list of text values. *)
Definition string_constructions (texts : list string) : list event :=
  map (fun s => Ev.Jni (Ev.NewStringUTF s)) texts.

(** The method object at [a] refers to the proxy at [self] and holds the
    environment and class handles of the proxy record [o]. *)
Definition carries_handles (self : nat) (o : JavaClass.t) (ms : list JavaMethod.t)
    (a : nat) : Prop :=
  exists jm, ms !! a = Some jm
             /\ JavaMethod.jc jm = Some self
             /\ JavaMethod.j_env jm = JavaClass.j_env o
             /\ JavaMethod.j_cls jm = JavaClass.j_cls o.

(** * Properties *)

(** ** Python strings *)

Lemma split_not_nil sep s : Py.split sep s <> [].
Proof.
  destruct s as [|c s]; simpl; [discriminate|].
  destruct (Ascii.eqb c sep); [discriminate|].
  destruct (Py.split sep s); discriminate.
Qed.

(** Joining what [split] returned gives the string back. *)
Lemma join_split sep s : Py.join (String sep "") (Py.split sep s) = s.
Proof.
  unfold Py.join. induction s as [|c s IH]; simpl; [reflexivity|].
  destruct (Ascii.eqb_spec c sep) as [->|Hne].
  - pose proof (split_not_nil sep s) as Hnil.
    destruct (Py.split sep s) as [|t ts]; [contradiction|].
    cbn [String.concat]. cbn [String.concat] in IH. rewrite IH. reflexivity.
  - destruct (Py.split sep s) as [|t ts] eqn:E.
    + exfalso. eapply split_not_nil; eauto.
    + cbn [String.concat] in *. destruct ts as [|u us].
      * now subst.
      * rewrite <- IH. reflexivity.
Qed.

Lemma split_without sep s : Py.contains sep s = false -> Py.split sep s = [s].
Proof.
  induction s as [|c s IH]; simpl; [reflexivity|].
  intros H. apply orb_false_iff in H as [Hc Hs].
  rewrite Hc, (IH Hs). reflexivity.
Qed.

Lemma split_at_first sep a r :
  Py.contains sep a = false ->
  Py.split sep (a ++ String sep r) = a :: Py.split sep r.
Proof.
  induction a as [|c a IH]; simpl; intros H.
  - now rewrite Ascii.eqb_refl.
  - apply orb_false_iff in H as [Hc Ha]. rewrite Hc, (IH Ha). reflexivity.
Qed.

Lemma endswith_snoc c s : Py.endswith c (s ++ String c "") = true.
Proof.
  induction s as [|d s IH]; simpl.
  - apply Ascii.eqb_refl.
  - destruct (s ++ String c "")%string eqn:E; [destruct s; discriminate|exact IH].
Qed.

Lemma endswith_last_split c s :
  Py.endswith c s = true -> List.last (Py.split c s) "" = "".
Proof.
  induction s as [|d s IH]; [discriminate|].
  intros H. cbn [Py.split].
  pose proof (split_not_nil c s) as Hnil.
  destruct (Ascii.eqb_spec d c) as [->|Hne].
  - destruct s as [|e s]; [reflexivity|].
    destruct (Py.split c (String e s)) as [|t ts]; [contradiction|].
    change (List.last (t :: ts) "" = ""). apply IH. exact H.
  - destruct s as [|e s].
    + simpl in H. apply Ascii.eqb_eq in H. contradiction.
    + destruct (Py.split c (String e s)) as [|t ts] eqn:E; [contradiction|].
      specialize (IH H). destruct ts as [|u us]; [|exact IH].
      simpl in IH. subst t.
      pose proof (join_split c (String e s)) as J. rewrite E in J. discriminate.
Qed.

Lemma append_nil_r (s : string) : (s ++ "")%string = s.
Proof. induction s as [|c s IH]; simpl; congruence. Qed.

Lemma append_assoc (a b c : string) : ((a ++ b) ++ c)%string = (a ++ b ++ c)%string.
Proof. induction a as [|x a IH]; simpl; congruence. Qed.

Lemma join_cons sep x y (l : list string) :
  Py.join sep (x :: y :: l) = (x ++ sep ++ Py.join sep (y :: l))%string.
Proof. reflexivity. Qed.

Lemma join_snoc_empty sep l :
  l <> [] -> Py.join sep (l ++ [""]) = (Py.join sep l ++ sep)%string.
Proof.
  induction l as [|x l IH]; [contradiction|]. intros _.
  destruct l as [|y l].
  - cbn. now rewrite append_nil_r.
  - rewrite <- !app_comm_cons in *. rewrite !join_cons.
    rewrite IH by discriminate. now rewrite !append_assoc.
Qed.

(** What [split_args] keeps of the argument portion: all of it, or all but
    the one delimiter that ends it. *)
Lemma join_split_args args :
  if Py.endswith ";" args
  then (Py.join ";" (split_args args) ++ ";")%string = args
  else Py.join ";" (split_args args) = args.
Proof.
  unfold split_args. destruct (String.eqb_spec args "") as [->|Hne]; [reflexivity|].
  cbn [negb]. unfold Py.last, Py.pop_last.
  pose proof (join_split ";" args) as J.
  pose proof (split_not_nil ";" args) as Hnil.
  destruct (String.eqb_spec (List.last (Py.split ";" args) "") "") as [Hl|Hl].
  - pose proof (app_removelast_last "" Hnil) as D. rewrite Hl in D.
    assert (Hrl : removelast (Py.split ";" args) <> []).
    { intros E. rewrite E in D. simpl in D. rewrite D in J. simpl in J. congruence. }
    rewrite D in J. rewrite join_snoc_empty in J by exact Hrl.
    assert (E : Py.endswith ";" args = true).
    { rewrite <- J. apply endswith_snoc. }
    rewrite E. exact J.
  - destruct (Py.endswith ";" args) eqn:E; [|exact J].
    apply endswith_last_split in E. contradiction.
Qed.


Lemma length_split sep s : length (Py.split sep s) = S (Py.count sep s).
Proof.
  induction s as [|c s IH]; simpl; [reflexivity|].
  destruct (Ascii.eqb c sep); simpl; [now rewrite IH|].
  destruct (Py.split sep s); simpl in *; [discriminate|exact IH].
Qed.

Lemma parse_definition_parts definition args ret :
  Py.split ")" (Py.tail definition) = [args; ret] ->
  parse_definition definition = inr (ret, split_args args).
Proof. unfold parse_definition. now intros ->. Qed.

Lemma parse_definition_wellformed a r :
  Py.contains ")" a = false -> Py.contains ")" r = false ->
  parse_definition ("(" ++ a ++ ")" ++ r) = inr (r, split_args a).
Proof.
  intros Ha Hr. apply parse_definition_parts.
  change (Py.tail ("(" ++ a ++ ")" ++ r)) with (a ++ String ")" r)%string.
  now rewrite split_at_first, split_without.
Qed.

(** *** Tokens and the text that spells them *)

Lemma contains_app c (a b : string) :
  Py.contains c (a ++ b) = Py.contains c a || Py.contains c b.
Proof. induction a as [|d a IH]; cbn; [reflexivity|]. now rewrite IH, orb_assoc. Qed.

Lemma contains_descriptors c toks :
  c <> ";"%char -> Forall (fun t => Py.contains c t = false) toks ->
  Py.contains c (descriptors toks) = false.
Proof.
  intros Hc. induction 1 as [|t toks Ht _ IH]; [reflexivity|].
  cbn [descriptors]. rewrite contains_app, Ht.
  change (";" ++ descriptors toks)%string with (String ";" (descriptors toks)).
  cbn [Py.contains orb].
  destruct (Ascii.eqb_spec ";" c) as [E|_]; [now subst c|exact IH].
Qed.

Lemma split_descriptors toks :
  Forall (fun t => Py.contains ";" t = false) toks ->
  Py.split ";" (descriptors toks) = toks ++ [""].
Proof.
  induction 1 as [|t toks Ht _ IH]; [reflexivity|].
  cbn [descriptors]. change (t ++ ";" ++ descriptors toks)%string
    with (t ++ String ";" (descriptors toks))%string.
  now rewrite split_at_first, IH.
Qed.

Lemma split_args_descriptors toks :
  Forall (fun t => Py.contains ";" t = false) toks ->
  split_args (descriptors toks) = toks.
Proof.
  intros H. unfold split_args. destruct toks as [|t toks]; [reflexivity|].
  assert (Hne : descriptors (t :: toks) <> "").
  { cbn. destruct t; discriminate. }
  destruct (String.eqb_spec (descriptors (t :: toks)) ""); [contradiction|].
  cbn [negb]. rewrite split_descriptors by exact H.
  unfold Py.last, Py.pop_last. rewrite last_last, removelast_last. reflexivity.
Qed.

Lemma split_without_char c sep s :
  Py.contains c s = false -> Forall (fun t => Py.contains c t = false) (Py.split sep s).
Proof.
  induction s as [|d s IH]; cbn; intros H; [repeat constructor|].
  apply orb_false_iff in H as [Hd Hs]. specialize (IH Hs).
  destruct (Ascii.eqb d sep); [constructor; auto|].
  destruct (Py.split sep s) as [|t ts]; [repeat constructor; cbn; now rewrite Hd|].
  inversion IH; subst. constructor; [cbn; now rewrite Hd|assumption].
Qed.

Lemma split_tokens_no_sep sep s :
  Forall (fun t => Py.contains sep t = false) (Py.split sep s).
Proof.
  induction s as [|d s IH]; cbn; [repeat constructor|].
  destruct (Ascii.eqb_spec d sep) as [->|Hne]; [constructor; auto|].
  assert (Hd : Ascii.eqb d sep = false) by now apply Ascii.eqb_neq.
  destruct (Py.split sep s) as [|t ts]; [repeat constructor; cbn; now rewrite Hd|].
  inversion IH; subst. constructor; [cbn; now rewrite Hd|assumption].
Qed.

Lemma Forall_removelast {A} (P : A -> Prop) (l : list A) :
  Forall P l -> Forall P (removelast l).
Proof.
  induction 1 as [|x l Hx Hl IH]; [constructor|].
  cbn. destruct l; [constructor|]. constructor; assumption.
Qed.

Lemma Forall_split_args (P : string -> Prop) args :
  Forall P (Py.split ";" args) -> Forall P (split_args args).
Proof.
  intros H. unfold split_args. destruct (negb _); [|constructor].
  destruct (String.eqb _ _); [now apply Forall_removelast|exact H].
Qed.

Lemma parse_definition_inr definition ret toks :
  parse_definition definition = inr (ret, toks) ->
  exists args, Py.split ")" (Py.tail definition) = [args; ret]
               /\ toks = split_args args.
Proof.
  unfold parse_definition.
  destruct (Py.split ")" (Py.tail definition)) as [|a [|b [|c l]]]; try discriminate.
  cbn. intros [= <- <-]. eauto.
Qed.

Lemma last_split_endswith c s :
  s <> "" -> List.last (Py.split c s) "" = "" -> Py.endswith c s = true.
Proof.
  intros Hne Hl.
  pose proof (join_split c s) as J.
  pose proof (split_not_nil c s) as Hnil.
  pose proof (app_removelast_last "" Hnil) as D. rewrite Hl in D.
  assert (Hrl : removelast (Py.split c s) <> []).
  { intros E. rewrite E in D. cbn in D. rewrite D in J. cbn in J. congruence. }
  rewrite D in J. rewrite join_snoc_empty in J by exact Hrl.
  rewrite <- J. apply endswith_snoc.
Qed.

Lemma length_split_args args : length (split_args args) = declared_arity args.
Proof.
  unfold split_args, declared_arity.
  destruct (String.eqb_spec args "") as [->|Hne]; [reflexivity|]. cbn [negb orb].
  pose proof (length_split ";" args) as L.
  pose proof (split_not_nil ";" args) as Hnil.
  unfold Py.last, Py.pop_last.
  destruct (String.eqb_spec (List.last (Py.split ";" args) "") "") as [Hl|Hl].
  - rewrite (last_split_endswith _ _ Hne Hl).
    pose proof (app_removelast_last "" Hnil) as D.
    rewrite D, length_app in L. cbn in L. lia.
  - destruct (Py.endswith ";" args) eqn:E.
    + apply endswith_last_split in E. contradiction.
    + lia.
Qed.






(** ** The signature parser *)

(** C5, as stated, fails: a terminal delimiter in the argument portion is
    dropped by the parser and re-joining the tokens does not bring it back.
    The JNI signature of a method taking one string is such an input. *)
Lemma parse_join_not_lossless :
  ~ (forall a r : string,
       Py.contains ")" a = false -> Py.contains ")" r = false ->
       exists toks, parse_definition ("(" ++ a ++ ")" ++ r) = inr (r, toks)
                    /\ Py.join ";" toks = a).
Proof.
  intros H.
  destruct (H "Ljava/lang/String;" "V" eq_refl eq_refl) as (toks & Hp & Hj).
  vm_compute in Hp. injection Hp as <-. discriminate Hj.
Qed.

(** C5, amended: for every signature [(a)r] (no closing parenthesis inside
    [a] or [r]) the parser returns [r] and a token list whose join with the
    delimiter is [a] itself when [a] does not end with the delimiter, and
    [a] without its final delimiter when it does. *)
Theorem parse_join_up_to_final_delimiter (a r : string) :
  Py.contains ")" a = false -> Py.contains ")" r = false ->
  exists toks, parse_definition ("(" ++ a ++ ")" ++ r) = inr (r, toks)
    /\ if Py.endswith ";" a
       then (Py.join ";" toks ++ ";")%string = a
       else Py.join ";" toks = a.
Proof.
  intros Ha Hr. exists (split_args a). split.
  - now apply parse_definition_wellformed.
  - apply join_split_args.
Qed.

Lemma parse_join_up_to_final_delimiter_witness :
  Py.contains ")" "I;Ljava/lang/String;" = false /\ Py.contains ")" "Z" = false /\
  exists toks, parse_definition "(I;Ljava/lang/String;)Z" = inr ("Z", toks)
    /\ (Py.join ";" toks ++ ";")%string = "I;Ljava/lang/String;".
Proof.
  split; [reflexivity|]. split; [reflexivity|].
  apply (parse_join_up_to_final_delimiter "I;Ljava/lang/String;" "Z"); reflexivity.
Defined.


(** The tokens of [(I;Z)I] are [I] and [Z], and no other list. *)
Example parse_definition_ordered :
  parse_definition "(I;Z)I" = inr ("I", ["I"; "Z"])
  /\ tokens_of "I;Z" ["I"; "Z"]
  /\ ~ tokens_of "I;Z" ["I;Z"].
Proof.
  split; [reflexivity|]. split.
  - split; [repeat constructor|]. right. split; [reflexivity|discriminate].
  - intros [H _]. inversion H as [|? ? Hc _]. discriminate Hc.
Qed.

(** ** Running the monad *)

Lemma is_null_false (p : pointer) : p <> NULL -> is_null p = false.
Proof. intros H. now apply Z.eqb_neq. Qed.

Lemma is_null_true (p : pointer) : is_null p = true -> p = NULL.
Proof. intros H. now apply Z.eqb_eq. Qed.

Ltac unfold_jni :=
  unfold CallVoidMethodA, CallBooleanMethodA, CallByteMethodA, CallCharMethodA,
    CallShortMethodA, CallIntMethodA, CallLongMethodA, CallFloatMethodA,
    CallDoubleMethodA, CallObjectMethodA, CallStaticVoidMethodA,
    CallStaticBooleanMethodA, CallStaticCharMethodA, CallStaticShortMethodA,
    CallStaticIntMethodA, CallStaticLongMethodA, CallStaticDoubleMethodA,
    CallStaticObjectMethodA, CallTypeMethodA, CallStaticTypeMethodA,
    FindClass, GetMethodID, GetStaticMethodID, NewObjectA, NewStringUTF,
    GetStringUTFChars, ReleaseStringUTFChars, jni, entry_point in *.

Ltac unfold_monad :=
  unfold bind, ret, raise, fault, emit, lift, getitem0, getitem in *.

Lemma bind_assoc {A B C} (m : M A) (f : A -> M B) (g : B -> M C) h :
  bind (bind m f) g h = bind m (fun a => bind (f a) g) h.
Proof.
  unfold bind. destruct (m h) as [[[a| |] h1] t1]; try reflexivity.
  destruct (f a h1) as [[[b| |] h2] t2]; try reflexivity.
  destruct (g b h2) as [[o h3] t3]. now rewrite app_assoc.
Qed.

Lemma bind_ext {A B} (m : M A) (f g : A -> M B) h :
  (forall a h', f a h' = g a h') -> bind m f h = bind m g h.
Proof.
  intros E. unfold bind. destruct (m h) as [[[a| |] h1] t1]; try reflexivity.
  now rewrite E.
Qed.

Lemma bind_Raise_eq {A B} (m : M A) (k : A -> M B) h e h1 t1 :
  m h = (Raise e, h1, t1) -> bind m k h = (Raise e, h1, t1).
Proof. intros E. unfold bind. now rewrite E. Qed.

Lemma bind_Return_eq {A B} (m : M A) (k : A -> M B) h a h1 t1 :
  m h = (Return a, h1, t1) -> bind m k h = after t1 (k a h1).
Proof.
  intros E. unfold bind, after, outcome_of, heap_of, trace_of. rewrite E.
  now destruct (k a h1) as [[o h2] t2].
Qed.

Lemma after_nil {A} (r : outcome A * heap * list event) : after [] r = r.
Proof. now destruct r as [[o h] t]. Qed.

Lemma heap_of_after {A} t (r : outcome A * heap * list event) :
  heap_of (after t r) = heap_of r.
Proof. reflexivity. Qed.

Lemma after_after {A} t1 t2 (r : outcome A * heap * list event) :
  after t1 (after t2 r) = after (t1 ++ t2) r.
Proof. destruct r as [[o h] t]. unfold after. cbn. now rewrite app_assoc. Qed.

Lemma try_finally_eq {A} (body : M A) (fin : M unit) h o h1 t1 h2 t2 :
  body h = (o, h1, t1) -> o <> Fault -> fin h1 = (Return tt, h2, t2) ->
  try_finally body fin h = (o, h2, t1 ++ t2).
Proof.
  intros Hb Ho Hf. unfold try_finally. rewrite Hb, Hf.
  destruct o; [reflexivity|reflexivity|contradiction].
Qed.

Lemma try_finally_ret {A} (body : M A) h : try_finally body (ret tt) h = body h.
Proof.
  unfold try_finally, ret. destruct (body h) as [[[a| |] h1] t1];
    now rewrite ?app_nil_r.
Qed.

Lemma nonempty_true (args : list object) : args <> [] -> nonempty args = true.
Proof. destruct args; [contradiction|reflexivity]. Qed.

Lemma length_eqb_refl (args : list object) (ds : list string) :
  length args = length ds -> negb (Nat.eqb (length args) (length ds)) = false.
Proof. intros ->. now rewrite Nat.eqb_refl. Qed.

(** What the heap is after a [bind], however it ends. *)
Lemma heap_of_bind {A B} (m : M A) (k : A -> M B) h :
  heap_of (bind m k h) = match m h with
                         | (Return a, h1, _) => heap_of (k a h1)
                         | (_, h1, _) => h1
                         end.
Proof.
  unfold bind. destruct (m h) as [[[a| |] h1] t1]; try reflexivity.
  now destruct (k a h1) as [[o h2] t2].
Qed.

Lemma heap_of_then_ret {A B} (m : M A) (b : B) h :
  heap_of (bind m (fun _ => ret b) h) = heap_of (m h).
Proof. rewrite heap_of_bind. now destruct (m h) as [[[a| |] h1] t1]. Qed.

(** Dropping an exception changes neither the heap nor the trace of the
    body, and turns no run into a fault. *)
Lemma dropping_heap {A} (body : M A) a h :
  heap_of (dropping body a h) = heap_of (body h).
Proof. unfold dropping. now destruct (body h) as [[[b| |] h1] t1]. Qed.

Lemma dropping_trace {A} (body : M A) a h :
  trace_of (dropping body a h) = trace_of (body h).
Proof. unfold dropping. now destruct (body h) as [[[b| |] h1] t1]. Qed.

Lemma dropping_outcome {A} (body : M A) a h :
  outcome_of (dropping body a h)
  = match outcome_of (body h) with Raise _ => Return a | o => o end.
Proof. unfold dropping. now destruct (body h) as [[[b| |] h1] t1]. Qed.

Lemma dropping_no_fault {A} (body : M A) a h :
  outcome_of (body h) <> Fault -> outcome_of (dropping body a h) <> Fault.
Proof. rewrite dropping_outcome. now destruct (outcome_of (body h)). Qed.

Lemma dropping_faults {A} (body : M A) a h :
  outcome_of (dropping body a h) <> Fault -> outcome_of (body h) <> Fault.
Proof. rewrite dropping_outcome. now destruct (outcome_of (body h)). Qed.

(** Nothing raised in the body gets past the function's boundary. *)
Lemma dropping_never_raises {A} (body : M A) a h e :
  outcome_of (dropping body a h) <> Raise e.
Proof. rewrite dropping_outcome. now destruct (outcome_of (body h)). Qed.

Section Decoding.

Variable rt : Runtime.

(** An object-typed return, the string descriptor included, comes back as
    a [JavaObject] around the raw reference: one call, no string read, no
    release. *)
Lemma call_method_object self j_args rest h :
  JavaMethod.definition_return self = String "L" rest ->
  JavaMethod.j_env self <> NULL ->
  call_method rt self j_args h =
    (Return (PyJavaObject (rt_CallMethodA rt TObject (JavaMethod.j_self self)
                             (JavaMethod.j_method self) j_args)),
     h,
     [Ev.Jni (Ev.CallMethodA TObject (JavaMethod.j_self self)
                (JavaMethod.j_method self) j_args)]).
Proof.
  intros Hr Henv. unfold call_method. rewrite Hr.
  unfold_jni. unfold_monad. rewrite (is_null_false _ Henv). reflexivity.
Qed.

Lemma call_staticmethod_object self j_args rest h :
  JavaMethod.definition_return self = String "L" rest ->
  JavaMethod.j_env self <> NULL ->
  call_staticmethod rt self j_args h =
    (Return (PyJavaObject (rt_CallStaticMethodA rt TObject (JavaMethod.j_cls self)
                             (JavaMethod.j_method self) j_args)),
     h,
     [Ev.Jni (Ev.CallStaticMethodA TObject (JavaMethod.j_cls self)
                (JavaMethod.j_method self) j_args)]).
Proof.
  intros Hr Henv. unfold call_staticmethod. rewrite Hr.
  unfold_jni. unfold_monad. rewrite (is_null_false _ Henv). reflexivity.
Qed.

End Decoding.

(** ** Marshaling *)

Section Marshaling.

Variable rt : Runtime.

(** The loop visits the descriptors in order, each at its own index. *)
Lemma populate_args_from_app self i ds1 ds2 buf args h :
  populate_args_from rt self i (ds1 ++ ds2) buf args h =
  bind (populate_args_from rt self i ds1 buf args)
       (fun b => populate_args_from rt self (i + length ds1) ds2 b args) h.
Proof.
  revert i buf h. induction ds1 as [|d ds1 IH]; intros i buf h.
  - cbn. rewrite Nat.add_0_r.
    destruct (populate_args_from rt self i ds2 buf args h) as [[o h'] t]. reflexivity.
  - cbn [app populate_args_from length]. rewrite bind_assoc.
    apply bind_ext. intros b h1. rewrite IH.
    now replace (i + S (length ds1)) with (S i + length ds1) by lia.
Qed.

(** Once the descriptors before position [length ds1] have marshaled, the
    loop goes on with its body at that position. *)
Lemma populate_args_at self ds1 d ds2 buf args h b1 h1 t1 :
  populate_args_from rt self 0 ds1 buf args h = (Return b1, h1, t1) ->
  populate_args_from rt self 0 (ds1 ++ d :: ds2) buf args h =
  after t1 (bind (populate_arg rt self (length ds1) d b1 args)
                 (fun b => populate_args_from rt self (S (length ds1)) ds2 b args) h1).
Proof.
  intros H. rewrite populate_args_from_app.
  unfold bind at 1. rewrite H. cbn [populate_args_from Nat.add].
  destruct (bind _ _ h1) as [[o h2] t2]. reflexivity.
Qed.

Lemma written_app self i ds1 ds2 buf args h b1 h1 t1 :
  populate_args_from rt self i ds1 buf args h = (Return b1, h1, t1) ->
  written rt self i (ds1 ++ ds2) buf args h
  = written rt self (i + length ds1) ds2 b1 args h1.
Proof.
  revert i buf h t1. induction ds1 as [|d ds1 IH]; intros i buf h t1; cbn.
  - intros [= <- <- _]. now rewrite Nat.add_0_r.
  - unfold bind. destruct (populate_arg rt self i d buf args h) as [[[b0| |] h0] t0];
      try discriminate.
    destruct (populate_args_from rt self (S i) ds1 b0 args h0) as [[o h2] t2] eqn:E.
    intros [= -> -> _]. rewrite (IH _ _ _ _ E).
    now replace (i + S (length ds1)) with (S i + length ds1) by lia.
Qed.

(** One turn of the loop, seen from the caller of the function. *)
Lemma populate_args_rest_step self i d ds buf args h :
  populate_args_rest rt self i (d :: ds) buf args h =
  match populate_arg rt self i d buf args h with
  | (Return b, h1, t1) => after t1 (populate_args_rest rt self (S i) ds b args h1)
  | (Raise _, h1, t1) => (Return buf, h1, t1)
  | (Fault, h1, t1) => (Fault, h1, t1)
  end.
Proof.
  unfold populate_args_rest, dropping. cbn [populate_args_from written]. unfold bind.
  destruct (populate_arg rt self i d buf args h) as [[[b| |] h1] t1]; try reflexivity.
  destruct (populate_args_from rt self (S i) ds b args h1) as [[[b'| |] h2] t2];
    reflexivity.
Qed.

(** Once the descriptors before position [i + length ds1] have marshaled,
    the function goes on from that position. *)
Lemma populate_args_rest_app self i ds1 ds2 buf args h b1 h1 t1 :
  populate_args_from rt self i ds1 buf args h = (Return b1, h1, t1) ->
  populate_args_rest rt self i (ds1 ++ ds2) buf args h =
  after t1 (populate_args_rest rt self (i + length ds1) ds2 b1 args h1).
Proof.
  intros H. unfold populate_args_rest, dropping.
  rewrite populate_args_from_app, (written_app _ _ _ _ _ _ _ _ _ _ H).
  unfold bind. rewrite H.
  destruct (populate_args_from rt self (i + length ds1) ds2 b1 args h1)
    as [[[b'| |] h2] t2]; reflexivity.
Qed.

(** An exception raised at position [length ds1] leaves the loop and is
    dropped: the function returns, with the cells as the positions before
    it have filled them. *)
Lemma populate_args_dropped self ds1 d ds2 buf args h b1 h1 t1 e h2 t2 :
  populate_args_from rt self 0 ds1 buf args h = (Return b1, h1, t1) ->
  populate_arg rt self (length ds1) d b1 args h1 = (Raise e, h2, t2) ->
  populate_args_from rt self 0 (ds1 ++ d :: ds2) buf args h = (Raise e, h2, t1 ++ t2)
  /\ populate_args rt self (ds1 ++ d :: ds2) buf args h = (Return b1, h2, t1 ++ t2).
Proof.
  intros H E. split.
  - rewrite (populate_args_at _ _ _ _ _ _ _ _ _ _ H). unfold bind. now rewrite E.
  - unfold populate_args. rewrite (populate_args_rest_app _ _ _ _ _ _ _ _ _ _ H).
    cbn [Nat.add]. rewrite populate_args_rest_step, E. reflexivity.
Qed.

Lemma populate_arg_string self index j_args args py_arg h :
  args !! index = Some py_arg ->
  populate_arg rt self index "Ljava/lang/String" j_args args h =
  match py_arg with
  | PyNone => (Return (store_cell j_args index (cell_l NULL)), h, [])
  | PyStr s =>
      if is_null (JavaClass.j_env self) then (Fault, h, [])
      else (Return (store_cell j_args index (cell_l (rt_NewStringUTF rt s))), h,
            [Ev.Jni (Ev.NewStringUTF s)])
  | _ => (Raise (JavaException
            "Not a correct type of string, must be an instance of str or unicode"),
          h, [])
  end.
Proof.
  intros Hv. unfold populate_arg. unfold_jni. unfold_monad. rewrite Hv. cbn.
  destruct py_arg; try reflexivity.
  destruct (is_null (JavaClass.j_env self)); reflexivity.
Qed.

Lemma populate_arg_array self index rest j_args args py_arg h :
  args !! index = Some py_arg ->
  populate_arg rt self index (String "[" rest) j_args args h =
  (Raise (TypeError "'NotImplementedType' object is not callable"), h, []).
Proof.
  intros Hv. unfold populate_arg. unfold_monad. rewrite Hv. reflexivity.
Qed.

Lemma call_method_array self j_args rest h :
  JavaMethod.definition_return self = String "[" rest ->
  call_method rt self j_args h =
  (Raise (NotImplementedError "Array arguments not implemented"), h, []).
Proof. intros Hr. unfold call_method. rewrite Hr. reflexivity. Qed.

Lemma call_staticmethod_array self j_args rest h :
  JavaMethod.definition_return self = String "[" rest ->
  call_staticmethod rt self j_args h =
  (Raise (NotImplementedError "Array arguments not implemented"), h, []).
Proof. intros Hr. unfold call_staticmethod. rewrite Hr. reflexivity. Qed.

End Marshaling.

(** C9, on the code: at a string-typed argument descriptor, once the
    arguments before it have marshaled, [None] puts a null reference in the
    cell and calls nothing, and a text value puts there what [NewStringUTF]
    returned, after that one call.  Any other value makes the loop raise the
    JavaException for a wrong string argument, which [populate_args] cannot
    hand to its caller: the exception is dropped and the function returns,
    with this cell and the cells after it as they were. *)
Theorem populate_args_string (rt : Runtime) self ds1 ds2 buf args py_arg h b1 h1 t1 :
  JavaClass.j_env self <> NULL ->
  args !! length ds1 = Some py_arg ->
  populate_args_from rt self 0 ds1 buf args h = (Return b1, h1, t1) ->
  let k := length ds1 in
  let ds := ds1 ++ "Ljava/lang/String" :: ds2 in
  let rest b := populate_args_rest rt self (S k) ds2 b args h1 in
  match py_arg with
  | PyNone =>
      populate_args rt self ds buf args h
      = after t1 (rest (store_cell b1 k (cell_l NULL)))
  | PyStr s =>
      populate_args rt self ds buf args h
      = after (t1 ++ [Ev.Jni (Ev.NewStringUTF s)])
              (rest (store_cell b1 k (cell_l (rt_NewStringUTF rt s))))
  | _ =>
      populate_args_from rt self 0 ds buf args h
      = (Raise (JavaException
           "Not a correct type of string, must be an instance of str or unicode"),
         h1, t1)
      /\ populate_args rt self ds buf args h = (Return b1, h1, t1)
  end.
Proof.
  intros Henv Hv Hpre k ds rest.
  pose proof (populate_arg_string rt self k b1 args py_arg h1 Hv) as E.
  rewrite (is_null_false _ Henv) in E.
  assert (D : forall e, populate_arg rt self k "Ljava/lang/String" b1 args h1
                        = (Raise e, h1, []) ->
              populate_args_from rt self 0 ds buf args h = (Raise e, h1, t1)
              /\ populate_args rt self ds buf args h = (Return b1, h1, t1)).
  { intros e He. rewrite <- (app_nil_r t1).
    exact (populate_args_dropped rt self ds1 _ ds2 buf args h b1 h1 t1 e h1 [] Hpre He). }
  assert (R : forall b t, populate_arg rt self k "Ljava/lang/String" b1 args h1
                          = (Return b, h1, t) ->
              populate_args rt self ds buf args h = after (t1 ++ t) (rest b)).
  { intros b t Hb. subst ds rest. unfold populate_args.
    rewrite (populate_args_rest_app _ _ _ _ _ _ _ _ _ _ _ Hpre). cbn [Nat.add].
    rewrite populate_args_rest_step. fold k. rewrite Hb.
    unfold after, outcome_of, heap_of, trace_of. cbn.
    destruct (populate_args_rest rt self (S k) ds2 b args h1) as [[o h2] t2]. cbn.
    now rewrite app_assoc. }
  destruct py_arg; try (apply D; exact E).
  - rewrite <- (app_nil_r t1). apply R. exact E.
  - apply R. exact E.
Qed.

Lemma populate_args_string_witness :
  JavaClass.j_env (sample_proxy Hardware) <> NULL
  /\ populate_args_from sample_runtime (sample_proxy Hardware) 0
       (["I"] ++ "Ljava/lang/String" :: ["I"])
       (fresh_buffer 4096%Z 3) [PyInt 3; PyInt 5; PyInt 7] empty_heap
     = (Raise (JavaException
          "Not a correct type of string, must be an instance of str or unicode"),
        empty_heap, [])
  /\ populate_args sample_runtime (sample_proxy Hardware)
       (["I"] ++ "Ljava/lang/String" :: ["I"])
       (fresh_buffer 4096%Z 3) [PyInt 3; PyInt 5; PyInt 7] empty_heap
     = (Return {| addr := 4096%Z; cells := [cell_i 3; cell_uninit; cell_uninit] |},
        empty_heap, []).
Proof.
  split; [discriminate|].
  exact (populate_args_string sample_runtime (sample_proxy Hardware) ["I"] ["I"]
           (fresh_buffer 4096%Z 3) [PyInt 3; PyInt 5; PyInt 7] (PyInt 5) empty_heap
           _ _ _ ltac:(discriminate) eq_refl eq_refl).
Defined.

(** ** Result decoding *)

Section Dispatch.

Variable rt : Runtime.

Ltac by_tag c :=
  repeat match goal with
         | H : context [Ascii.eqb c ?x] |- _ =>
             destruct (Ascii.eqb_spec c x);
             [subst c; cbn in H; injection H as <-; reflexivity|]
         end.

(** An instance call goes to the one [Call<Type>MethodA] of its tag, on
    the method's copy of the instance handle. *)
Lemma call_method_dispatch self j_args c rest t h :
  JavaMethod.definition_return self = String c rest ->
  entry_type (String c "") = Some t ->
  JavaMethod.j_env self <> NULL ->
  trace_of (call_method rt self j_args h) =
  [Ev.Jni (Ev.CallMethodA t (JavaMethod.j_self self) (JavaMethod.j_method self) j_args)].
Proof.
  intros Hr Ht Henv. unfold call_method. rewrite Hr.
  unfold_jni. unfold_monad. rewrite (is_null_false _ Henv).
  unfold entry_type in Ht. cbn in Ht |- *. by_tag c. discriminate.
Qed.

(** A static call goes to the one [CallStatic<Type>MethodA] of its tag, on
    the class handle, for every tag but [B] and [F]. *)
Lemma call_staticmethod_dispatch self j_args c rest t h :
  JavaMethod.definition_return self = String c rest ->
  entry_type (String c "") = Some t ->
  t <> TByte -> t <> TFloat ->
  JavaMethod.j_env self <> NULL ->
  trace_of (call_staticmethod rt self j_args h) =
  [Ev.Jni (Ev.CallStaticMethodA t (JavaMethod.j_cls self) (JavaMethod.j_method self) j_args)].
Proof.
  intros Hr Ht HB HF Henv. unfold call_staticmethod. rewrite Hr.
  unfold_jni. unfold_monad. rewrite (is_null_false _ Henv).
  unfold entry_type in Ht. cbn in Ht |- *.
  repeat match goal with
         | H : context [Ascii.eqb c ?x] |- _ =>
             destruct (Ascii.eqb_spec c x);
             [subst c; cbn in H; injection H as <-; (reflexivity || contradiction)|]
         end.
  discriminate.
Qed.

Lemma call_staticmethod_byte self j_args rest h :
  JavaMethod.definition_return self = String "B" rest ->
  JavaMethod.j_env self <> NULL ->
  call_staticmethod rt self j_args h =
  (Return (PyInt (cast_char rt (wrap_signed 8 (entry_as_jbyte rt)))), h, []).
Proof.
  intros Hr Henv. unfold call_staticmethod. rewrite Hr.
  unfold_jni. unfold_monad. rewrite (is_null_false _ Henv). reflexivity.
Qed.

Lemma call_staticmethod_float self j_args rest h :
  JavaMethod.definition_return self = String "F" rest ->
  JavaMethod.j_env self <> NULL ->
  call_staticmethod rt self j_args h =
  (Return (PyFloat (double_of_float (entry_as_jfloat rt))), h, []).
Proof.
  intros Hr Henv. unfold call_staticmethod. rewrite Hr.
  unfold_jni. unfold_monad. rewrite (is_null_false _ Henv). reflexivity.
Qed.

End Dispatch.

(** C1, on the code: with the return descriptor [Ljava/lang/String;] both
    call paths make the one object call and hand back the raw reference in
    a [JavaObject].  The tag compared with the string descriptor is the
    descriptor's first character, so the branch that reads and releases the
    string contents is never taken: the trace holds no GetStringUTFChars
    and no ReleaseStringUTFChars. *)
Theorem string_return_is_wrapped (rt : Runtime) self j_args h :
  JavaMethod.definition_return self = "Ljava/lang/String;" ->
  JavaMethod.j_env self <> NULL ->
  call_method rt self j_args h =
    (Return (PyJavaObject (rt_CallMethodA rt TObject (JavaMethod.j_self self)
                             (JavaMethod.j_method self) j_args)),
     h,
     [Ev.Jni (Ev.CallMethodA TObject (JavaMethod.j_self self)
                (JavaMethod.j_method self) j_args)])
  /\ call_staticmethod rt self j_args h =
    (Return (PyJavaObject (rt_CallStaticMethodA rt TObject (JavaMethod.j_cls self)
                             (JavaMethod.j_method self) j_args)),
     h,
     [Ev.Jni (Ev.CallStaticMethodA TObject (JavaMethod.j_cls self)
                (JavaMethod.j_method self) j_args)]).
Proof.
  intros Hr Henv. split.
  - eapply call_method_object; eauto.
  - eapply call_staticmethod_object; eauto.
Qed.

Lemma string_return_is_wrapped_witness :
  call_method sample_runtime (sample_method false "Ljava/lang/String;" [])
    NULL_buffer empty_heap
  = (Return (PyJavaObject 2048%Z), empty_heap,
     [Ev.Jni (Ev.CallMethodA TObject NULL 256%Z NULL_buffer)])
  /\ call_staticmethod sample_runtime (sample_method true "Ljava/lang/String;" [])
       NULL_buffer empty_heap
  = (Return (PyJavaObject 2048%Z), empty_heap,
     [Ev.Jni (Ev.CallStaticMethodA TObject 128%Z 256%Z NULL_buffer)]).
Proof.
  split.
  - apply (string_return_is_wrapped sample_runtime
             (sample_method false "Ljava/lang/String;" [])); [reflexivity|discriminate].
  - apply (string_return_is_wrapped sample_runtime
             (sample_method true "Ljava/lang/String;" [])); [reflexivity|discriminate].
Defined.

(** C2, on the code: a static call whose return tag is [B] or [F] performs
    no foreign call at all, and what it returns is not the result of one.
    (Every instance call, and the static calls of the other nine tags, go
    to the one entry point of their tag: [call_method_dispatch],
    [call_staticmethod_dispatch].) *)
Theorem static_byte_float_call_nothing (rt : Runtime) self j_args rest h :
  JavaMethod.j_env self <> NULL ->
  (JavaMethod.definition_return self = String "B" rest ->
   call_staticmethod rt self j_args h =
   (Return (PyInt (cast_char rt (wrap_signed 8 (entry_as_jbyte rt)))), h, []))
  /\ (JavaMethod.definition_return self = String "F" rest ->
      call_staticmethod rt self j_args h =
      (Return (PyFloat (double_of_float (entry_as_jfloat rt))), h, [])).
Proof.
  intros Henv. split; intros Hr.
  - eapply call_staticmethod_byte; eauto.
  - eapply call_staticmethod_float; eauto.
Qed.

Lemma static_byte_float_call_nothing_witness :
  call_staticmethod sample_runtime (sample_method true "B" []) NULL_buffer empty_heap
  = (Return (PyInt 64), empty_heap, [])
  /\ rt_CallStaticMethodA sample_runtime TByte 128%Z 256%Z NULL_buffer = 7%Z.
Proof.
  split; [|reflexivity].
  apply (static_byte_float_call_nothing sample_runtime (sample_method true "B" [])
           NULL_buffer "" empty_heap); [discriminate|reflexivity].
Defined.

(** ** Computations that only talk to the JNI *)

Lemma external_ret {A} (a : A) : external (ret a).
Proof. intros h. split; [reflexivity|constructor]. Qed.

Lemma external_raise {A} e : external (@raise A e).
Proof. intros h. split; [reflexivity|constructor]. Qed.

Lemma external_fault {A} : external (@fault A).
Proof. intros h. split; [reflexivity|constructor]. Qed.

Lemma external_lift {A} (r : exn + A) : external (lift r).
Proof. destruct r; [apply external_raise|apply external_ret]. Qed.

Lemma external_bind {A B} (m : M A) (k : A -> M B) :
  external m -> (forall a, external (k a)) -> external (bind m k).
Proof.
  intros Hm Hk h. unfold bind. destruct (Hm h) as [H1 H2].
  destruct (m h) as [[[a| |] h1] t1]; cbn in *; subst h1; auto.
  destruct (Hk a h) as [H3 H4]. destruct (k a h) as [[o h2] t2]; cbn in *.
  split; [assumption|]. apply Forall_app; auto.
Qed.

Lemma external_emit c : external (emit (Ev.Jni c)).
Proof. intros h. split; [reflexivity|]. cbn. repeat constructor. Qed.

Lemma external_jni {A} env c (r : A) : external (jni env c r).
Proof.
  unfold jni. destruct (is_null env); [apply external_fault|].
  intros h. split; [reflexivity|]. cbn. repeat constructor.
Qed.

Lemma external_entry_point {A} env (r : A) : external (entry_point env r).
Proof. unfold entry_point. destruct (is_null env); [apply external_fault|apply external_ret]. Qed.

Lemma external_getitem0 s : external (getitem0 s).
Proof. destruct s; [apply external_raise|apply external_ret]. Qed.

Lemma external_getitem args i : external (getitem args i).
Proof. unfold getitem. destruct (args !! i); [apply external_ret|apply external_raise]. Qed.

Lemma external_load_proxy a : external (load_proxy a).
Proof.
  intros h. unfold load_proxy. destruct (proxies h !! a); split; (reflexivity || constructor).
Qed.

Create HintDb external.
#[local] Hint Resolve external_ret external_raise external_fault external_lift
  external_emit external_jni external_entry_point external_getitem0 external_getitem
  external_load_proxy : external.

Ltac external_step :=
  match goal with
  | |- external (bind _ _) => apply external_bind; [|intros ?]
  | |- external (if ?b then _ else _) => destruct b
  | |- external (match ?x with _ => _ end) => destruct x
  | |- external _ => solve [auto with external]
  end.

Section External.

Variable rt : Runtime.

Lemma external_populate_arg self index argtype j_args args :
  external (populate_arg rt self index argtype j_args args).
Proof. unfold populate_arg. unfold_jni. repeat external_step. Qed.

Lemma external_populate_args_from self index ds j_args args :
  external (populate_args_from rt self index ds j_args args).
Proof.
  revert index j_args. induction ds as [|d ds IH]; intros index j_args; cbn.
  - apply external_ret.
  - apply external_bind; [apply external_populate_arg|intros b; apply IH].
Qed.

Lemma external_populate_args_rest self index ds j_args args :
  external (populate_args_rest rt self index ds j_args args).
Proof.
  intros h. unfold populate_args_rest. rewrite dropping_heap, dropping_trace.
  apply external_populate_args_from.
Qed.

Lemma external_populate_args self ds j_args args :
  external (populate_args rt self ds j_args args).
Proof. apply external_populate_args_rest. Qed.

Lemma external_call_method self j_args : external (call_method rt self j_args).
Proof. unfold call_method. unfold_jni. repeat external_step. Qed.

Lemma external_call_staticmethod self j_args : external (call_staticmethod rt self j_args).
Proof. unfold call_staticmethod. unfold_jni. repeat external_step. Qed.

End External.

(** ** Computations that cannot fault *)

Lemma safe_ret {A} (a : A) : safe (ret a).
Proof. intros h. discriminate. Qed.

Lemma safe_raise {A} e : safe (@raise A e).
Proof. intros h. discriminate. Qed.

Lemma safe_lift {A} (r : exn + A) : safe (lift r).
Proof. destruct r; [apply safe_raise|apply safe_ret]. Qed.

Lemma safe_emit e : safe (emit e).
Proof. intros h. discriminate. Qed.

Lemma safe_bind {A B} (m : M A) (k : A -> M B) :
  safe m -> (forall a, safe (k a)) -> safe (bind m k).
Proof.
  intros Hm Hk h. unfold bind. specialize (Hm h).
  destruct (m h) as [[[a| |] h1] t1]; cbn in *; try discriminate; try contradiction.
  specialize (Hk a h1). destruct (k a h1) as [[o h2] t2]. exact Hk.
Qed.

Lemma safe_jni {A} env c (r : A) : env <> NULL -> safe (jni env c r).
Proof.
  intros H. unfold jni. rewrite (is_null_false _ H).
  apply safe_bind; [apply safe_emit|intros; apply safe_ret].
Qed.

Lemma safe_entry_point {A} env (r : A) : env <> NULL -> safe (entry_point env r).
Proof. intros H. unfold entry_point. rewrite (is_null_false _ H). apply safe_ret. Qed.

Lemma safe_getitem0 s : safe (getitem0 s).
Proof. destruct s; [apply safe_raise|apply safe_ret]. Qed.

Lemma safe_getitem args i : safe (getitem args i).
Proof. unfold getitem. destruct (args !! i); [apply safe_ret|apply safe_raise]. Qed.

Create HintDb safe.
#[local] Hint Resolve safe_ret safe_raise safe_lift safe_emit safe_jni
  safe_entry_point safe_getitem0 safe_getitem : safe.

Ltac safe_step :=
  match goal with
  | |- safe (bind _ _) => apply safe_bind; [|intros ?]
  | |- safe (if ?b then _ else _) => destruct b
  | |- safe (match ?x with _ => _ end) => destruct x
  | |- safe _ => solve [auto with safe]
  end.

Section Safe.

Variable rt : Runtime.

Lemma safe_populate_arg self index argtype j_args args :
  JavaClass.j_env self <> NULL ->
  safe (populate_arg rt self index argtype j_args args).
Proof.
  intros H. unfold populate_arg, NewStringUTF. repeat safe_step.
Qed.

Lemma safe_populate_args_from self index ds j_args args :
  JavaClass.j_env self <> NULL ->
  safe (populate_args_from rt self index ds j_args args).
Proof.
  intros H. revert index j_args. induction ds as [|d ds IH]; intros index j_args; cbn.
  - apply safe_ret.
  - apply safe_bind; [now apply safe_populate_arg|intros b; apply IH].
Qed.

Lemma safe_populate_args self ds j_args args :
  JavaClass.j_env self <> NULL ->
  safe (populate_args rt self ds j_args args).
Proof.
  intros H h. unfold populate_args, populate_args_rest.
  apply dropping_no_fault. now apply safe_populate_args_from.
Qed.

Lemma safe_call_method self j_args :
  JavaMethod.j_env self <> NULL -> safe (call_method rt self j_args).
Proof.
  intros H. unfold call_method.
  unfold CallVoidMethodA, CallBooleanMethodA, CallByteMethodA, CallCharMethodA,
    CallShortMethodA, CallIntMethodA, CallLongMethodA, CallFloatMethodA,
    CallDoubleMethodA, CallObjectMethodA, CallTypeMethodA,
    GetStringUTFChars, ReleaseStringUTFChars.
  repeat safe_step.
Qed.

Lemma safe_call_staticmethod self j_args :
  JavaMethod.j_env self <> NULL -> safe (call_staticmethod rt self j_args).
Proof.
  intros H. unfold call_staticmethod.
  unfold CallStaticVoidMethodA, CallStaticBooleanMethodA, CallStaticCharMethodA,
    CallStaticShortMethodA, CallStaticIntMethodA, CallStaticLongMethodA,
    CallStaticDoubleMethodA, CallStaticObjectMethodA, CallStaticTypeMethodA,
    GetStringUTFChars, ReleaseStringUTFChars.
  repeat safe_step.
Qed.

End Safe.

(** ** The argument buffer *)

Lemma jni_trace_no_buffer t : Forall is_jni t -> allocated t = [] /\ freed t = [].
Proof.
  induction 1 as [|e t He _ [IH1 IH2]]; [split; reflexivity|].
  destruct e; cbn in *; try contradiction. now split.
Qed.

Lemma allocated_app t1 t2 : allocated (t1 ++ t2) = allocated t1 ++ allocated t2.
Proof.
  induction t1 as [|e t1 IH]; [reflexivity|].
  destruct e; cbn; rewrite ?IH; try reflexivity. destruct (is_null p); now rewrite ?IH.
Qed.

Lemma freed_app t1 t2 : freed (t1 ++ t2) = freed t1 ++ freed t2.
Proof.
  induction t1 as [|e t1 IH]; [reflexivity|].
  destruct e; cbn; now rewrite ?IH.
Qed.

(** A released trace gave back exactly the buffer it obtained, if any. *)
Lemma released_balanced t :
  released t -> freed t = allocated t /\ length (allocated t) <= 1.
Proof.
  destruct 1 as [t Ht|n|n p t Hp Ht].
  - destruct (jni_trace_no_buffer t Ht) as [-> ->]. split; [reflexivity|cbn; lia].
  - cbn. split; [reflexivity|lia].
  - destruct (jni_trace_no_buffer t Ht) as [Ha Hf].
    cbn. rewrite (is_null_false _ Hp), allocated_app, freed_app, Ha, Hf. cbn.
    split; [reflexivity|lia].
Qed.

(** The shape shared by [call_constructor] and [__call__]: allocate when
    there are arguments, run the body under [try], free in [finally]. *)
Lemma scoped_buffer_released {A} (rt : Runtime) (b : bool) size (body : pointer -> M A) h :
  (forall p h', b = true -> is_null p = true -> trace_of (body p h') = []) ->
  (forall p h', b = false \/ is_null p = false -> Forall is_jni (trace_of (body p h'))) ->
  let m := bind (if b then malloc rt size else ret NULL)
                (fun p => try_finally (body p)
                            (if negb (is_null p) then free p else ret tt)) in
  outcome_of (m h) <> Fault -> released (trace_of (m h)).
Proof.
  intros Hfail Hjni m. subst m. destruct b.
  - unfold bind, malloc, emit, ret, try_finally, free. cbn.
    set (p := rt_malloc rt size). destruct (is_null p) eqn:E.
    + specialize (Hfail p h eq_refl E). apply is_null_true in E.
      destruct (body p h) as [[[a|e|] h1] t1]; cbn in *; subst t1; rewrite E;
        intros _; apply released_failed.
    + assert (Hp : p <> NULL) by (intros ->; discriminate).
      specialize (Hjni p h (or_intror E)).
      destruct (body p h) as [[[a|e|] h1] t1]; cbn in *; intros Hf;
        try contradiction; now apply released_once.
  - unfold bind, ret, try_finally. cbn.
    specialize (Hjni NULL h (or_introl eq_refl)).
    destruct (body NULL h) as [[[a|e|] h1] t1]; cbn in *; intros Hf;
      try contradiction; rewrite app_nil_r; now apply released_none.
Qed.

Lemma silent_load_proxy a : silent (load_proxy a).
Proof. intros h. unfold load_proxy. now destruct (proxies h !! a). Qed.

Lemma silent_load_method a : silent (load_method a).
Proof. intros h. unfold load_method. now destruct (methods h !! a). Qed.

Lemma silent_update_proxy a f : silent (update_proxy a f).
Proof.
  intros h. unfold update_proxy, bind, load_proxy, store_proxy.
  now destruct (proxies h !! a).
Qed.

Lemma silent_lift {A} (r : exn + A) : silent (lift r).
Proof. intros h. now destruct r. Qed.

Lemma jni_only_external {A} (m : M A) : external m -> jni_only m.
Proof. intros H h. apply H. Qed.

Lemma jni_only_silent {A} (m : M A) : silent m -> jni_only m.
Proof. intros H h. rewrite H. constructor. Qed.

Lemma jni_only_bind {A B} (m : M A) (k : A -> M B) :
  jni_only m -> (forall a, jni_only (k a)) -> jni_only (bind m k).
Proof.
  intros Hm Hk h. unfold bind. specialize (Hm h).
  destruct (m h) as [[[a| |] h1] t1]; cbn in *; auto.
  specialize (Hk a h1). destruct (k a h1) as [[o h2] t2]; cbn in *.
  apply Forall_app; auto.
Qed.

Lemma released_after_silent {A B} (m : M A) (k : A -> M B) h :
  silent m ->
  (forall a h1, outcome_of (k a h1) <> Fault -> released (trace_of (k a h1))) ->
  outcome_of (bind m k h) <> Fault -> released (trace_of (bind m k h)).
Proof.
  intros Hm Hk. unfold bind. specialize (Hm h).
  destruct (m h) as [[[a| |] h1] t1]; cbn in *; subst t1.
  - specialize (Hk a h1). destruct (k a h1) as [[o h2] t2]. exact Hk.
  - intros _. apply released_none. constructor.
  - contradiction.
Qed.

Section Buffer.

Variable rt : Runtime.

Lemma call_released self args h :
  outcome_of (__call__ rt self args h) <> Fault ->
  released (trace_of (__call__ rt self args h)).
Proof.
  unfold __call__. apply released_after_silent; [apply silent_load_method|].
  intros jm h1. destruct (negb _).
  - intros _. apply released_none. constructor.
  - apply scoped_buffer_released.
    + intros p h' Hb Hp. rewrite Hb, Hp. reflexivity.
    + intros p h' _. apply jni_only_external.
      repeat external_step;
        auto using external_populate_args, external_call_method,
          external_call_staticmethod.
Qed.

Lemma call_constructor_released self args h :
  outcome_of (call_constructor rt self args h) <> Fault ->
  released (trace_of (call_constructor rt self args h)).
Proof.
  unfold call_constructor, cdef_void. rewrite dropping_trace.
  intros Hf. apply dropping_faults in Hf. revert Hf.
  apply released_after_silent; [apply silent_load_proxy|].
  intros o h1. apply released_after_silent; [apply silent_update_proxy|].
  intros _ h2. apply released_after_silent; [apply silent_lift|].
  intros parsed h3. destruct (negb _).
  - intros _. apply released_none. constructor.
  - apply scoped_buffer_released.
    + intros p h' Hb Hp. rewrite Hb, Hp. reflexivity.
    + intros p h' _. apply jni_only_bind.
      * apply jni_only_external. repeat external_step;
          auto using external_populate_args.
      * intros j_args. apply jni_only_bind;
          [apply jni_only_external, external_jni|].
        intros ctor. destruct (is_null ctor).
        -- apply jni_only_external. repeat external_step.
        -- apply jni_only_bind; [apply jni_only_external, external_jni|].
           intros obj. apply jni_only_silent, silent_update_proxy.
Qed.

End Buffer.

(** C4: whenever constructor invocation or bound-method invocation comes
    back, by returning or by raising, its trace is [released]: nothing was
    allocated, or the buffer allocated first was freed last and the
    allocator was not touched in between; the buffers freed are exactly the
    buffers obtained, at most one.  (On resolved objects both operations do
    come back: [call_no_fault], [call_constructor_no_fault].) *)
Theorem buffer_released_on_exit (rt : Runtime) self args h t :
  (t = trace_of (call_constructor rt self args h)
   /\ outcome_of (call_constructor rt self args h) <> Fault)
  \/ (t = trace_of (__call__ rt self args h)
      /\ outcome_of (__call__ rt self args h) <> Fault) ->
  released t /\ freed t = allocated t /\ length (allocated t) <= 1.
Proof.
  intros H.
  assert (R : released t).
  { destruct H as [[-> H]|[-> H]].
    - now apply call_constructor_released.
    - now apply call_released. }
  split; [exact R|]. now apply released_balanced.
Qed.

Lemma buffer_released_on_exit_witness :
  outcome_of (__call__ sample_runtime 0 [PyInt 5; PyInt 3] sample_heap)
    = Return (PyJavaObject 2048%Z)
  /\ trace_of (__call__ sample_runtime 0 [PyInt 5; PyInt 3] sample_heap)
    = [Ev.malloc 16 4096%Z;
       Ev.Jni (Ev.CallMethodA TObject NULL 256%Z (fresh_buffer 4096%Z 2));
       Ev.free 4096%Z]
  /\ released [Ev.malloc 16 4096%Z;
               Ev.Jni (Ev.CallMethodA TObject NULL 256%Z (fresh_buffer 4096%Z 2));
               Ev.free 4096%Z]
  /\ freed [Ev.malloc 16 4096%Z;
            Ev.Jni (Ev.CallMethodA TObject NULL 256%Z (fresh_buffer 4096%Z 2));
            Ev.free 4096%Z]
     = allocated [Ev.malloc 16 4096%Z;
                  Ev.Jni (Ev.CallMethodA TObject NULL 256%Z (fresh_buffer 4096%Z 2));
                  Ev.free 4096%Z].
Proof.
  split; [reflexivity|]. split; [reflexivity|].
  pose proof (buffer_released_on_exit sample_runtime 0 [PyInt 5; PyInt 3] sample_heap
                [Ev.malloc 16 4096%Z;
                 Ev.Jni (Ev.CallMethodA TObject NULL 256%Z (fresh_buffer 4096%Z 2));
                 Ev.free 4096%Z]) as H.
  destruct H as (R & F & _).
  - right. split; [reflexivity|discriminate].
  - split; [exact R|exact F].
Defined.

(** ** Arity *)





(** ** Method resolution *)

(** [resolve_method] asks the lookup entry point that matches the static
    flag, keeps the answer, and fails the assertion when the answer is
    NULL. *)
Lemma resolve_method_run (rt : Runtime) self jc name h m c :
  methods h !! self = Some m ->
  proxies h !! jc = Some c ->
  JavaClass.j_env c <> NULL ->
  let static := JavaMethod.is_static m in
  let sig := JavaMethod.definition m in
  let id := lookup_result rt static (JavaClass.j_cls c) name sig in
  resolve_method rt self jc name h =
  (if is_null id then Raise AssertionError else Return tt,
   {| methods := <[self := set_j_method id (bind_to jc c m)]> (methods h);
      proxies := proxies h |},
   [Ev.Jni (lookup_call static (JavaClass.j_cls c) name sig)]).
Proof.
  intros Hm Hc Henv static sig id. subst static sig id.
  assert (Hlt : self < length (methods h)) by (eapply lookup_lt_Some; eauto).
  unfold resolve_method, update_method, bind, load_proxy, load_method, store_method.
  rewrite Hc, Hm. cbn. rewrite list_lookup_insert_eq by exact Hlt. cbn.
  unfold lookup_result, lookup_call, GetStaticMethodID, GetMethodID, jni, bind, emit, ret.
  rewrite (is_null_false _ Henv).
  destruct (JavaMethod.is_static m); cbn;
    rewrite list_lookup_insert_eq by exact Hlt; cbn;
    rewrite list_insert_insert_eq;
    match goal with |- context [is_null ?x] => destruct (is_null x) end; reflexivity.
Qed.

(** C8, on the code: the identifier is requested through the entry point
    that matches the static flag; when the runtime returns none, what the
    caller gets is the AssertionError of a failed [assert]: not a
    JavaException, and without a message. *)
Theorem method_not_found_is_assertion (rt : Runtime) self jc name h m c :
  methods h !! self = Some m ->
  proxies h !! jc = Some c ->
  JavaClass.j_env c <> NULL ->
  lookup_result rt (JavaMethod.is_static m) (JavaClass.j_cls c) name
    (JavaMethod.definition m) = NULL ->
  outcome_of (resolve_method rt self jc name h) = Raise AssertionError
  /\ trace_of (resolve_method rt self jc name h)
     = [Ev.Jni (lookup_call (JavaMethod.is_static m) (JavaClass.j_cls c) name
                  (JavaMethod.definition m))]
  /\ is_JavaException AssertionError = false
  /\ message AssertionError = None.
Proof.
  intros Hm Hc Henv Hnull.
  rewrite (resolve_method_run rt self jc name h m c Hm Hc Henv).
  cbn zeta. rewrite Hnull. repeat split.
Qed.

Lemma method_not_found_is_assertion_witness :
  outcome_of (resolve_method sample_runtime_no_method 0 0 "getDPI"
                {| methods := [getDPI]; proxies := [sample_proxy Hardware] |})
  = Raise AssertionError
  /\ trace_of (resolve_method sample_runtime_no_method 0 0 "getDPI"
                 {| methods := [getDPI]; proxies := [sample_proxy Hardware] |})
  = [Ev.Jni (Ev.GetStaticMethodID 128%Z "getDPI" "()I")].
Proof.
  destruct (method_not_found_is_assertion sample_runtime_no_method 0 0 "getDPI"
              {| methods := [getDPI]; proxies := [sample_proxy Hardware] |}
              getDPI (sample_proxy Hardware) eq_refl eq_refl)
    as (O & T & _); [discriminate|reflexivity|].
  split; [exact O|exact T].
Defined.

(** The client that instantiates the proxy does not see the failure:
    [resolve_methods] drops the AssertionError, and so does
    [call_constructor] the JavaException for the constructor it does not
    find. *)
Example construction_method_not_found :
  outcome_of (JavaClass_new sample_runtime_no_method Hardware [] Hardware_heap)
  = Return 0
  /\ trace_of (JavaClass_new sample_runtime_no_method Hardware [] Hardware_heap)
     = [Ev.SDL_ANDROID_GetJNIEnv;
        Ev.Jni (Ev.FindClass "org/test/Hardware");
        Ev.Jni (Ev.GetStaticMethodID 128%Z "getDPI" "()I");
        Ev.Jni (Ev.GetMethodID 128%Z "<init>" "()V")].
Proof. split; reflexivity. Qed.

(** ** Heap reasoning *)

Lemma bind_Return {A B} (m : M A) (k : A -> M B) h b h' t :
  bind m k h = (Return b, h', t) ->
  exists a h1 t1 t2, m h = (Return a, h1, t1) /\ k a h1 = (Return b, h', t2)
                     /\ t = t1 ++ t2.
Proof.
  unfold bind. destruct (m h) as [[[a| |] h1] t1]; try discriminate.
  destruct (k a h1) as [[o h2] t2] eqn:E. intros [= -> -> <-].
  exists a, h1, t1, t2. auto.
Qed.

Lemma try_finally_Return {A} (body : M A) (fin : M unit) h a h' t :
  try_finally body fin h = (Return a, h', t) ->
  exists h1 t1 t2, body h = (Return a, h1, t1) /\ fin h1 = (Return tt, h', t2).
Proof.
  unfold try_finally. destruct (body h) as [[[b| |] h1] t1]; try discriminate.
  - destruct (fin h1) as [[[[]| |] h2] t2] eqn:E; try discriminate.
    intros [= -> -> <-]. eauto.
  - destruct (fin h1) as [[[[]| |] h2] t2]; discriminate.
Qed.

Lemma external_Return {A} (m : M A) h a h' t :
  external m -> m h = (Return a, h', t) -> h' = h.
Proof. intros H E. destruct (H h) as [Hh _]. rewrite E in Hh. exact Hh. Qed.

Lemma jni_Return {A} env c (r : A) h a h' t :
  jni env c r h = (Return a, h', t) -> a = r /\ h' = h.
Proof.
  unfold jni. destruct (is_null env); [discriminate|].
  unfold bind, emit, ret. cbn. intros [= <- <- _]. auto.
Qed.

Lemma update_proxy_Return self f h u h' t :
  update_proxy self f h = (Return u, h', t) ->
  exists o, proxies h !! self = Some o
            /\ h' = {| methods := methods h; proxies := <[self := f o]> (proxies h) |}.
Proof.
  unfold update_proxy, bind, load_proxy, store_proxy.
  destruct (proxies h !! self) as [o|]; [|discriminate].
  cbn. intros [= _ <- _]. eauto.
Qed.

Lemma load_proxy_Return a h o h' t :
  load_proxy a h = (Return o, h', t) -> proxies h !! a = Some o /\ h' = h.
Proof.
  unfold load_proxy. destruct (proxies h !! a); [|discriminate].
  intros [= -> <- _]. auto.
Qed.

Lemma buffer_Return rt (b : bool) size h p h' t :
  (if b then malloc rt size else ret NULL) h = (Return p, h', t) -> h' = h.
Proof. destruct b; now intros [= _ <- _]. Qed.

Lemma lift_Return {A} (r : exn + A) h a h' t : lift r h = (Return a, h', t) -> h' = h.
Proof. destruct r; [discriminate|]. now intros [= _ <- _]. Qed.

Lemma insert_last {A} (l : list A) (x y : A) : <[length l := y]> (l ++ [x]) = l ++ [y].
Proof.
  rewrite insert_app_r_alt by lia. now rewrite Nat.sub_diag.
Qed.

Lemma update_proxy_run self f h o :
  proxies h !! self = Some o ->
  update_proxy self f h
  = (Return tt, {| methods := methods h; proxies := <[self := f o]> (proxies h) |}, []).
Proof.
  intros Ho. unfold update_proxy, bind, load_proxy, store_proxy. now rewrite Ho.
Qed.

Lemma load_proxy_run self h o :
  proxies h !! self = Some o -> load_proxy self h = (Return o, h, []).
Proof. intros Ho. unfold load_proxy. now rewrite Ho. Qed.

Lemma load_method_run self h m :
  methods h !! self = Some m -> load_method self h = (Return m, h, []).
Proof. intros Hm. unfold load_method. now rewrite Hm. Qed.

Lemma establishes_bind {A B} P Q R (m : M A) (k : A -> M B) :
  establishes P m Q -> (forall a, establishes Q (k a) R) -> (forall h, Q h -> R h) ->
  establishes P (bind m k) R.
Proof.
  intros Hm Hk HQR h HP. rewrite heap_of_bind. specialize (Hm h HP).
  destruct (m h) as [[[a| |] h1] t1]; cbn in Hm; auto. now apply Hk.
Qed.

Lemma establishes_dropping {A} P Q (body : M A) a :
  establishes P body Q -> establishes P (dropping body a) Q.
Proof. intros H h HP. rewrite dropping_heap. now apply H. Qed.

Lemma establishes_load_proxy P a : establishes P (load_proxy a) P.
Proof. intros h HP. unfold load_proxy. now destruct (proxies h !! a). Qed.

(** *** Computations that leave the method objects alone *)

Lemma keeps_methods_ret {A} (a : A) : keeps_methods (ret a).
Proof. intros h. reflexivity. Qed.

Lemma keeps_methods_raise {A} e : keeps_methods (@raise A e).
Proof. intros h. reflexivity. Qed.

Lemma keeps_methods_fault {A} : keeps_methods (@fault A).
Proof. intros h. reflexivity. Qed.

Lemma keeps_methods_lift {A} (r : exn + A) : keeps_methods (lift r).
Proof. intros h. now destruct r. Qed.

Lemma keeps_methods_external {A} (m : M A) : external m -> keeps_methods m.
Proof. intros H h. destruct (H h) as [-> _]. reflexivity. Qed.

Lemma keeps_methods_bind {A B} (m : M A) (k : A -> M B) :
  keeps_methods m -> (forall a, keeps_methods (k a)) -> keeps_methods (bind m k).
Proof.
  intros Hm Hk h. unfold bind. specialize (Hm h).
  destruct (m h) as [[[a| |] h1] t1]; cbn in *; auto.
  specialize (Hk a h1). destruct (k a h1) as [[o h2] t2]; cbn in *. congruence.
Qed.

Lemma keeps_methods_try_finally {A} (body : M A) (fin : M unit) :
  keeps_methods body -> keeps_methods fin -> keeps_methods (try_finally body fin).
Proof.
  intros Hb Hf h. unfold try_finally. specialize (Hb h).
  destruct (body h) as [[[a| |] h1] t1]; cbn in *; auto;
    specialize (Hf h1); destruct (fin h1) as [[[[]| |] h2] t2]; cbn in *; congruence.
Qed.

Lemma keeps_methods_cdef_void (body : M unit) :
  keeps_methods body -> keeps_methods (cdef_void body).
Proof. intros H h. unfold cdef_void. rewrite dropping_heap. apply H. Qed.

Lemma keeps_methods_load_proxy a : keeps_methods (load_proxy a).
Proof. apply keeps_methods_external, external_load_proxy. Qed.

Lemma keeps_methods_load_method a : keeps_methods (load_method a).
Proof. intros h. unfold load_method. now destruct (methods h !! a). Qed.

Lemma keeps_methods_update_proxy a f : keeps_methods (update_proxy a f).
Proof.
  intros h. unfold update_proxy, bind, load_proxy, store_proxy.
  now destruct (proxies h !! a).
Qed.

Lemma keeps_methods_alloc_proxy o : keeps_methods (alloc_proxy o).
Proof. intros h. reflexivity. Qed.

Lemma keeps_methods_malloc rt size : keeps_methods (malloc rt size).
Proof. intros h. reflexivity. Qed.

Lemma keeps_methods_free p : keeps_methods (free p).
Proof. intros h. reflexivity. Qed.

Lemma keeps_methods_GetJNIEnv rt : keeps_methods (SDL_ANDROID_GetJNIEnv rt).
Proof. intros h. reflexivity. Qed.

Lemma keeps_methods_jni {A} env c (r : A) : keeps_methods (jni env c r).
Proof. apply keeps_methods_external, external_jni. Qed.

Create HintDb keeps.
#[local] Hint Resolve keeps_methods_ret keeps_methods_raise keeps_methods_fault
  keeps_methods_lift
  keeps_methods_load_proxy keeps_methods_load_method keeps_methods_update_proxy
  keeps_methods_alloc_proxy keeps_methods_malloc keeps_methods_free
  keeps_methods_GetJNIEnv keeps_methods_jni : keeps.

Ltac keeps_step :=
  match goal with
  | |- keeps_methods (bind _ _) => apply keeps_methods_bind; [|intros ?]
  | |- keeps_methods (try_finally _ _) => apply keeps_methods_try_finally
  | |- keeps_methods (cdef_void _) => apply keeps_methods_cdef_void
  | |- keeps_methods (if ?b then _ else _) => destruct b
  | |- keeps_methods (match ?x with _ => _ end) => destruct x
  | |- keeps_methods _ => solve [auto with keeps]
  end.

Section KeepsMethods.

Variable rt : Runtime.

Lemma keeps_methods_populate_args self ds j_args args :
  keeps_methods (populate_args rt self ds j_args args).
Proof. apply keeps_methods_external, external_populate_args. Qed.

Lemma keeps_methods_call_method self j_args : keeps_methods (call_method rt self j_args).
Proof. apply keeps_methods_external, external_call_method. Qed.

Lemma keeps_methods_call_staticmethod self j_args :
  keeps_methods (call_staticmethod rt self j_args).
Proof. apply keeps_methods_external, external_call_staticmethod. Qed.

#[local] Hint Resolve keeps_methods_populate_args keeps_methods_call_method
  keeps_methods_call_staticmethod : keeps.

Lemma keeps_methods_call self args : keeps_methods (__call__ rt self args).
Proof. unfold __call__. repeat keeps_step. Qed.

Lemma keeps_methods_call_constructor self args :
  keeps_methods (call_constructor rt self args).
Proof. unfold call_constructor, GetMethodID, NewObjectA. repeat keeps_step. Qed.

Lemma keeps_methods_resolve_class self : keeps_methods (resolve_class rt self).
Proof. unfold resolve_class, FindClass. repeat keeps_step. Qed.

End KeepsMethods.

(** *** Resolution *)

Lemma self_handles_null_methods h h' :
  methods h' = methods h -> self_handles_null h -> self_handles_null h'.
Proof. unfold self_handles_null. now intros ->. Qed.

Lemma self_handles_null_insert self h a (m m' : JavaMethod.t) ps :
  self_handles_null h -> methods h !! a = Some m ->
  JavaMethod.jc m' = Some self -> JavaMethod.j_self m' = NULL ->
  self_handles_null {| methods := <[a := m']> (methods h); proxies := ps |}.
Proof.
  intros H _ _ Hm. unfold self_handles_null in *. cbn. now apply Forall_insert.
Qed.

Lemma rebound_methods self h0 h h' :
  methods h' = methods h ->
  rebound_with_null_self self h0 h -> rebound_with_null_self self h0 h'.
Proof.
  unfold rebound_with_null_self, bound_with_null_self. intros E H a. rewrite E. apply H.
Qed.

Lemma rebound_insert self h0 h a (m m' : JavaMethod.t) ps :
  rebound_with_null_self self h0 h -> methods h !! a = Some m ->
  JavaMethod.jc m' = Some self -> JavaMethod.j_self m' = NULL ->
  rebound_with_null_self self h0
    {| methods := <[a := m']> (methods h); proxies := ps |}.
Proof.
  intros H Hm Hjc Hnull b. unfold bound_with_null_self. cbn.
  assert (Hlt : a < length (methods h)) by (eapply lookup_lt_Some; eauto).
  destruct (decide (b = a)) as [->|Hne].
  - right. exists m'. now rewrite list_lookup_insert_eq.
  - rewrite list_lookup_insert_ne by auto. apply H.
Qed.

Lemma unconstructed_update self cls ms ps ms' a f o' :
  (forall o, JavaClass.j_self (f o) = JavaClass.j_self o
             /\ JavaClass.ob_type (f o) = JavaClass.ob_type o) ->
  unconstructed self cls {| methods := ms; proxies := ps |} ->
  ps !! a = Some o' ->
  unconstructed self cls {| methods := ms'; proxies := <[a := f o']> ps |}.
Proof.
  intros Hf (o & Ho & Hnull & Hty) Ho'. unfold unconstructed. cbn in *.
  destruct (decide (a = self)) as [->|Hne].
  - exists (f o'). rewrite list_lookup_insert_eq by (eapply lookup_lt_Some; eauto).
    assert (o' = o) by congruence. subst o'. destruct (Hf o) as [-> ->]. auto.
  - exists o. rewrite list_lookup_insert_ne by auto. auto.
Qed.

(** What [resolve_method] does to the heap, however it ends: the method
    object is bound to the proxy and holds the three handles as the proxy
    holds them at that moment, and no other object changes. *)
Lemma resolve_method_bound (rt : Runtime) a jc name h m c :
  methods h !! a = Some m -> proxies h !! jc = Some c ->
  exists m',
    heap_of (resolve_method rt a jc name h)
    = {| methods := <[a := m']> (methods h); proxies := proxies h |}
    /\ JavaMethod.jc m' = Some jc
    /\ JavaMethod.j_env m' = JavaClass.j_env c
    /\ JavaMethod.j_cls m' = JavaClass.j_cls c
    /\ JavaMethod.j_self m' = JavaClass.j_self c.
Proof.
  intros Hm Hc.
  unfold resolve_method, update_method, bind, load_proxy, load_method, store_method.
  rewrite Hc. cbn. rewrite Hm. cbn.
  assert (Hlt : a < length (methods h)) by (eapply lookup_lt_Some; eauto).
  rewrite list_lookup_insert_eq by exact Hlt. cbn.
  unfold GetStaticMethodID, GetMethodID, jni, bind, emit, ret.
  destruct (JavaMethod.is_static m); cbn;
    (destruct (is_null (JavaClass.j_env c)); cbn;
     [exists (bind_to jc c m); repeat split; reflexivity|]);
    rewrite list_lookup_insert_eq by exact Hlt; cbn;
    rewrite list_insert_insert_eq;
    match goal with |- context [is_null ?x] => destruct (is_null x) end; cbn;
    eexists; repeat split; reflexivity.
Qed.

(** When the method object or the proxy is not there, nothing changes. *)
Lemma resolve_method_heap (rt : Runtime) a jc name h :
  heap_of (resolve_method rt a jc name h) = h
  \/ exists m c m',
       methods h !! a = Some m /\ proxies h !! jc = Some c
       /\ heap_of (resolve_method rt a jc name h)
          = {| methods := <[a := m']> (methods h); proxies := proxies h |}
       /\ JavaMethod.jc m' = Some jc
       /\ JavaMethod.j_env m' = JavaClass.j_env c
       /\ JavaMethod.j_cls m' = JavaClass.j_cls c
       /\ JavaMethod.j_self m' = JavaClass.j_self c.
Proof.
  destruct (proxies h !! jc) as [c|] eqn:Hc.
  - destruct (methods h !! a) as [m|] eqn:Hm.
    + right. destruct (resolve_method_bound rt a jc name h m c Hm Hc) as (m' & H).
      exists m, c, m'. auto.
    + left. unfold resolve_method, update_method, bind, load_proxy, load_method.
      rewrite Hc. cbn. now rewrite Hm.
  - left. unfold resolve_method, bind, load_proxy. now rewrite Hc.
Qed.

Section NullCopies.

Variable rt : Runtime.
Variable self : nat.
Variable cls : pyclass.

(** A property of the method objects, kept when a method object is bound
    to the proxy at [self] with a NULL copy of the instance handle. *)
Variable F : heap -> Prop.
Hypothesis F_methods : forall h h', methods h' = methods h -> F h -> F h'.
Hypothesis F_insert : forall h a (m m' : JavaMethod.t) ps,
  F h -> methods h !! a = Some m ->
  JavaMethod.jc m' = Some self -> JavaMethod.j_self m' = NULL ->
  F {| methods := <[a := m']> (methods h); proxies := ps |}.

(** Class resolution leaves the proxy without instance handle. *)
Lemma resolve_class_unconstructed h :
  unconstructed self cls h -> unconstructed self cls (heap_of (resolve_class rt self h)).
Proof.
  intros HU. unfold resolve_class, cdef_void. rewrite dropping_heap.
  unfold bind, load_proxy.
  destruct (proxies h !! self) as [o|] eqn:Ho; [|exact HU].
  destruct (__javaclass__ (JavaClass.ob_type o)) as [name|]; [|exact HU].
  unfold SDL_ANDROID_GetJNIEnv, update_proxy, bind, emit, ret, load_proxy, store_proxy.
  cbn. rewrite Ho. cbn.
  assert (HU1 : unconstructed self cls
            {| methods := methods h;
               proxies := <[self := set_j_env (rt_GetJNIEnv rt) o]> (proxies h) |}).
  { apply (unconstructed_update self cls (methods h) (proxies h)); auto. }
  destruct (is_null (rt_GetJNIEnv rt)) eqn:Henv; [exact HU1|].
  unfold FindClass, jni, bind, emit, ret. cbn. rewrite Henv. cbn.
  rewrite list_lookup_insert_eq by (eapply lookup_lt_Some; eauto). cbn.
  assert (HU2 : unconstructed self cls
            {| methods := methods h;
               proxies := <[self := set_j_cls (rt_FindClass rt name)
                                       (set_j_env (rt_GetJNIEnv rt) o)]>
                            (<[self := set_j_env (rt_GetJNIEnv rt) o]> (proxies h)) |}).
  { eapply unconstructed_update; [auto|exact HU1|].
    apply list_lookup_insert_eq. eapply lookup_lt_Some; eauto. }
  destruct (is_null (rt_FindClass rt name)); exact HU2.
Qed.

Lemma resolve_class_keeps :
  establishes (fun h => unconstructed self cls h /\ F h)
              (resolve_class rt self)
              (fun h => unconstructed self cls h /\ F h).
Proof.
  intros h [HU HF]. split; [now apply resolve_class_unconstructed|].
  eapply F_methods; [apply keeps_methods_resolve_class|exact HF].
Qed.

(** Resolving a method for a proxy without instance handle binds it with a
    NULL copy, whatever the lookup answers. *)
Lemma resolve_method_keeps a name :
  establishes (fun h => unconstructed self cls h /\ F h)
              (resolve_method rt a self name)
              (fun h => unconstructed self cls h /\ F h).
Proof.
  intros h [HU HF].
  destruct (resolve_method_heap rt a self name h)
    as [->|(m & c & m' & Hm & Hc & -> & Hjc & _ & _ & Hself)]; [auto|].
  destruct HU as (o & Ho & Hnull & Hty). assert (c = o) by congruence. subst c.
  split.
  - exists o. cbn. auto.
  - eapply F_insert; eauto. congruence.
Qed.

Lemma resolve_members_keeps l :
  establishes (fun h => unconstructed self cls h /\ F h)
              (resolve_members rt self l)
              (fun h => unconstructed self cls h /\ F h).
Proof.
  induction l as [|[name [a|]] l IH]; cbn [resolve_members].
  - intros h H. exact H.
  - eapply establishes_bind; [apply resolve_method_keeps|intros u; apply IH|auto].
  - exact IH.
Qed.

Lemma resolve_methods_keeps :
  establishes (fun h => unconstructed self cls h /\ F h)
              (resolve_methods rt self)
              (fun h => unconstructed self cls h /\ F h).
Proof.
  unfold resolve_methods, cdef_void. apply establishes_dropping.
  eapply establishes_bind;
    [apply establishes_load_proxy|intros o; apply resolve_members_keeps|auto].
Qed.

Lemma init_keeps args :
  establishes (fun h => unconstructed self cls h /\ F h) (__init__ rt self args) F.
Proof.
  unfold __init__.
  eapply establishes_bind; [apply resolve_class_keeps| |intros h [_ H]; exact H].
  intros u1.
  eapply establishes_bind; [apply resolve_methods_keeps| |intros h [_ H]; exact H].
  intros u2 h [_ HF].
  eapply F_methods; [apply keeps_methods_call_constructor|exact HF].
Qed.

Lemma JavaClass_new_keeps args h :
  self = length (proxies h) -> F h -> F (heap_of (JavaClass_new rt cls args h)).
Proof.
  intros Hself HF. unfold JavaClass_new. rewrite heap_of_bind.
  cbn [alloc_proxy]. rewrite heap_of_then_ret. rewrite <- Hself.
  apply init_keeps. split.
  - eexists. cbn. split; [apply list_lookup_middle; auto|split; reflexivity].
  - eapply F_methods; [|exact HF]. reflexivity.
Qed.

End NullCopies.

Lemma JavaClass_new_self (rt : Runtime) cls args h self h' t :
  JavaClass_new rt cls args h = (Return self, h', t) -> self = length (proxies h).
Proof.
  unfold JavaClass_new. intros H.
  apply bind_Return in H as (a & h1 & t1 & t2 & Ha & H & _).
  injection Ha as <- _ _.
  apply bind_Return in H as (u & h2 & t3 & t4 & _ & H & _).
  now injection H as <- _ _.
Qed.

(** The lookups [resolve_methods] is expected to log depend on the method
    objects only through their declarations, which resolution keeps. *)
Lemma lookups_same_declarations rt (ms ms' : list JavaMethod.t) cls l :
  (forall a : nat, declaration <$> ms' !! a = declaration <$> ms !! a) ->
  lookups rt ms' cls l = lookups rt ms cls l
  /\ all_found rt ms' cls l = all_found rt ms cls l.
Proof.
  intros H. induction l as [|[name [a|]] l [IH1 IH2]]; cbn; auto.
  specialize (H a). destruct (ms' !! a) as [m'|], (ms !! a) as [m|];
    cbn in H; try discriminate; auto.
  injection H as Hs Hd. rewrite Hs, Hd, IH1, IH2. auto.
Qed.

Lemma declarations_after_resolve (ms : list JavaMethod.t) (a : nat) m m' :
  ms !! a = Some m -> declaration m' = declaration m ->
  forall b : nat, declaration <$> (<[a := m']> ms) !! b = declaration <$> ms !! b.
Proof.
  intros Hm Hd b. destruct (decide (b = a)) as [->|Hne].
  - rewrite list_lookup_insert_eq by (eapply lookup_lt_Some; eauto).
    rewrite Hm. cbn. now rewrite Hd.
  - now rewrite list_lookup_insert_ne by auto.
Qed.

Section MemberResolution.

Variable rt : Runtime.

(** The loop over the members: the lookups it makes, and how it ends. *)
Lemma resolve_members_run self o l :
  JavaClass.j_env o <> NULL ->
  forall h,
  proxies h !! self = Some o ->
  members_declared (methods h) l ->
  trace_of (resolve_members rt self l h) = lookups rt (methods h) (JavaClass.j_cls o) l
  /\ outcome_of (resolve_members rt self l h)
     = (if all_found rt (methods h) (JavaClass.j_cls o) l
        then Return tt else Raise AssertionError).
Proof.
  intros Henv. induction l as [|[name [a|]] l IH]; intros h Ho Hdecl.
  - split; reflexivity.
  - assert (Ha : a < length (methods h)) by (eapply Hdecl; left; reflexivity).
    destruct (lookup_lt_is_Some_2 _ _ Ha) as [m Hm].
    cbn [resolve_members lookups all_found]. rewrite Hm.
    pose proof (resolve_method_run rt a self name h m o Hm Ho Henv) as R.
    cbn zeta in R.
    destruct (is_null (lookup_result rt (JavaMethod.is_static m) (JavaClass.j_cls o)
                         name (JavaMethod.definition m))) eqn:Hid.
    + rewrite (bind_Raise_eq _ _ _ _ _ _ R). split; reflexivity.
    + rewrite (bind_Return_eq _ _ _ _ _ _ R). cbn [negb andb].
      match type of R with _ = (_, ?h1, _) => specialize (IH h1) end.
      destruct IH as [IHt IHo]; [exact Ho| |].
      { intros n b Hin. cbn. rewrite length_insert. eapply Hdecl. right. exact Hin. }
      cbn [methods] in IHt, IHo.
      destruct (lookups_same_declarations rt (methods h)
                  (<[a := set_j_method
                            (lookup_result rt (JavaMethod.is_static m) (JavaClass.j_cls o)
                               name (JavaMethod.definition m))
                            (bind_to self o m)]> (methods h))
                  (JavaClass.j_cls o) l) as [E1 E2].
      { now apply (declarations_after_resolve _ _ m). }
      rewrite E1 in IHt. rewrite E2 in IHo.
      unfold after. cbn. now rewrite IHt, IHo.
  - cbn [resolve_members lookups all_found]. apply IH; [exact Ho|].
    intros n b Hin. eapply Hdecl. right. exact Hin.
Qed.

(** A method object bound to the proxy stays bound to it through the rest
    of the loop. *)
Lemma resolve_members_stay_bound self o a l :
  establishes (fun h => proxies h !! self = Some o /\ bound_to_proxy self o h a)
              (resolve_members rt self l)
              (fun h => proxies h !! self = Some o /\ bound_to_proxy self o h a).
Proof.
  induction l as [|[name [b|]] l IH]; cbn [resolve_members].
  - intros h H. exact H.
  - eapply establishes_bind; [|intros u; apply IH|auto].
    intros h [Ho (jm & Hjm & Hb)].
    destruct (resolve_method_heap rt b self name h)
      as [->|(m & c & m' & Hm & Hc & -> & Hjc & Henv & Hcls & Hself)];
      [split; [exact Ho|exists jm; auto]|].
    assert (c = o) by congruence. subst c. cbn. split; [exact Ho|].
    unfold bound_to_proxy. cbn.
    destruct (decide (a = b)) as [->|Hne].
    + exists m'. rewrite list_lookup_insert_eq by (eapply lookup_lt_Some; eauto). auto.
    + exists jm. rewrite list_lookup_insert_ne by auto. auto.
  - exact IH.
Qed.

(** When every method is found, the loop has bound every method member to
    the proxy, with the handles the proxy holds during the loop. *)
Lemma resolve_members_reached self o l :
  JavaClass.j_env o <> NULL ->
  forall h,
  proxies h !! self = Some o ->
  members_declared (methods h) l ->
  all_found rt (methods h) (JavaClass.j_cls o) l = true ->
  forall n a, In (n, attr_method a) l ->
    bound_to_proxy self o (heap_of (resolve_members rt self l h)) a.
Proof.
  intros Henv. induction l as [|[name [b|]] l IH]; intros h Ho Hdecl Hall n a Hin.
  - destruct Hin.
  - assert (Hb : b < length (methods h)) by (eapply Hdecl; left; reflexivity).
    destruct (lookup_lt_is_Some_2 _ _ Hb) as [m Hm].
    cbn [resolve_members all_found] in *. rewrite Hm in Hall.
    apply andb_true_iff in Hall as [Hid Hall]. apply negb_true_iff in Hid.
    pose proof (resolve_method_run rt b self name h m o Hm Ho Henv) as R.
    cbn zeta in R. rewrite Hid in R.
    rewrite heap_of_bind, R.
    match type of R with _ = (_, ?x, _) => set (h1 := x) in * end.
    assert (Hdecl1 : members_declared (methods h1) l).
    { intros n' b' Hin'. subst h1. cbn. rewrite length_insert.
      eapply Hdecl. right. exact Hin'. }
    assert (Hall1 : all_found rt (methods h1) (JavaClass.j_cls o) l = true).
    { destruct (lookups_same_declarations rt (methods h) (methods h1)
                  (JavaClass.j_cls o) l) as [_ E]; [|now rewrite E].
      subst h1. cbn. now apply (declarations_after_resolve _ _ m). }
    destruct Hin as [Hin|Hin].
    + injection Hin as _ <-.
      apply (resolve_members_stay_bound self o b l h1). split; [exact Ho|].
      exists (set_j_method
                (lookup_result rt (JavaMethod.is_static m) (JavaClass.j_cls o) name
                   (JavaMethod.definition m))
                (bind_to self o m)).
      subst h1. cbn. rewrite list_lookup_insert_eq by exact Hb. auto.
    + exact (IH h1 Ho Hdecl1 Hall1 n a Hin).
  - cbn [resolve_members all_found] in *. destruct Hin as [Hin|Hin]; [discriminate|].
    refine (IH h Ho _ Hall n a Hin). intros n' b' Hin'. eapply Hdecl. right. exact Hin'.
Qed.

End MemberResolution.

(** *** Instantiation, step by step *)

Section Instantiation.

Variable rt : Runtime.

(** What [resolve_class] does to a proxy, case by case.  It returns in
    every case: the caller cannot tell a resolved class from a failure. *)
Lemma resolve_class_run self h o :
  proxies h !! self = Some o ->
  resolve_class rt self h =
  match __javaclass__ (JavaClass.ob_type o) with
  | None => (Return tt, h, [])
  | Some name =>
      let env := rt_GetJNIEnv rt in
      if is_null env then
        (Return tt,
         {| methods := methods h; proxies := <[self := set_j_env env o]> (proxies h) |},
         [Ev.SDL_ANDROID_GetJNIEnv])
      else
        (Return tt,
         {| methods := methods h;
            proxies := <[self := set_j_cls (rt_FindClass rt name) (set_j_env env o)]>
                         (proxies h) |},
         [Ev.SDL_ANDROID_GetJNIEnv; Ev.Jni (Ev.FindClass name)])
  end.
Proof.
  intros Ho. assert (Hlt : self < length (proxies h)) by (eapply lookup_lt_Some; eauto).
  unfold resolve_class, cdef_void, dropping, bind, load_proxy. rewrite Ho.
  destruct (__javaclass__ (JavaClass.ob_type o)) as [name|]; [|reflexivity].
  unfold SDL_ANDROID_GetJNIEnv, update_proxy, bind, emit, ret, load_proxy, store_proxy.
  cbn. rewrite Ho. cbn.
  destruct (is_null (rt_GetJNIEnv rt)) eqn:Henv; [reflexivity|].
  unfold FindClass, jni, bind, emit, ret. cbn. rewrite Henv. cbn.
  rewrite list_lookup_insert_eq by exact Hlt. cbn. rewrite list_insert_insert_eq.
  destruct (is_null (rt_FindClass rt name)); reflexivity.
Qed.

(** [resolve_methods] on a proxy past class resolution: it returns, found
    or not. *)
Lemma resolve_methods_run self h o :
  proxies h !! self = Some o ->
  JavaClass.j_env o <> NULL ->
  members_declared (methods h) (members (JavaClass.ob_type o)) ->
  resolve_methods rt self h
  = (Return tt,
     heap_of (resolve_members rt self (members (JavaClass.ob_type o)) h),
     lookups rt (methods h) (JavaClass.j_cls o) (members (JavaClass.ob_type o))).
Proof.
  intros Ho Henv Hdecl. unfold resolve_methods, cdef_void.
  destruct (resolve_members_run rt self o _ Henv h Ho Hdecl) as [Ht Hout].
  unfold dropping. rewrite (bind_Return_eq _ _ h o h []) by now apply load_proxy_run.
  rewrite after_nil.
  destruct (resolve_members rt self (members (JavaClass.ob_type o)) h)
    as [[out h1] t1]. cbn in *. subst t1.
  destruct (all_found _ _ _ _); now subst out.
Qed.

(** The proxy [JavaClass_new] starts from, and the heap that holds it. *)
Lemma JavaClass_new_unfold cls args h :
  JavaClass_new rt cls args h =
  bind (__init__ rt (length (proxies h)) args)
       (fun _ => ret (length (proxies h)))
       {| methods := methods h;
          proxies := proxies h ++
            [{| JavaClass.ob_type := cls; JavaClass.j_env := NULL;
                JavaClass.j_cls := NULL; JavaClass.j_self := NULL;
                JavaClass.definition := None |}] |}.
Proof.
  unfold JavaClass_new. rewrite (bind_Return_eq _ _ h (length (proxies h))
    {| methods := methods h;
       proxies := proxies h ++
         [{| JavaClass.ob_type := cls; JavaClass.j_env := NULL;
             JavaClass.j_cls := NULL; JavaClass.j_self := NULL;
             JavaClass.definition := None |}] |} []) by reflexivity.
  apply after_nil.
Qed.

(** An instantiation whose class path is declared, on a runtime that has
    an environment: the environment and the class are asked for, the
    methods are looked up, and the constructor call follows, on the proxy
    as class resolution left it, whether the class and the methods were
    found or not. *)
Lemma JavaClass_new_run cls args h name :
  __javaclass__ cls = Some name ->
  rt_GetJNIEnv rt <> NULL ->
  members_declared (methods h) (members cls) ->
  let self := length (proxies h) in
  let o := {| JavaClass.ob_type := cls; JavaClass.j_env := rt_GetJNIEnv rt;
              JavaClass.j_cls := rt_FindClass rt name; JavaClass.j_self := NULL;
              JavaClass.definition := None |} in
  let h2 := {| methods := methods h; proxies := proxies h ++ [o] |} in
  JavaClass_new rt cls args h =
  after ([Ev.SDL_ANDROID_GetJNIEnv; Ev.Jni (Ev.FindClass name)]
         ++ lookups rt (methods h) (rt_FindClass rt name) (members cls))
        (bind (call_constructor rt self args) (fun _ => ret self)
              (heap_of (resolve_members rt self (members cls) h2))).
Proof.
  intros Hname Henv Hdecl self o h2. rewrite JavaClass_new_unfold. fold self.
  set (o0 := {| JavaClass.ob_type := cls; JavaClass.j_env := NULL;
                JavaClass.j_cls := NULL; JavaClass.j_self := NULL;
                JavaClass.definition := None |}).
  set (h1 := {| methods := methods h; proxies := proxies h ++ [o0] |}).
  assert (Ho0 : proxies h1 !! self = Some o0) by (apply list_lookup_middle; reflexivity).
  pose proof (resolve_class_run self h1 o0 Ho0) as RC.
  cbn [JavaClass.ob_type o0] in RC. rewrite Hname in RC. cbn zeta in RC.
  rewrite (is_null_false _ Henv) in RC.
  replace {| methods := methods h1;
             proxies := <[self := set_j_cls (rt_FindClass rt name)
                                     (set_j_env (rt_GetJNIEnv rt) o0)]> (proxies h1) |}
    with h2 in RC by (subst h1 h2 self; cbn; now rewrite insert_last).
  assert (Ho : proxies h2 !! self = Some o) by (apply list_lookup_middle; reflexivity).
  pose proof (resolve_methods_run self h2 o Ho Henv Hdecl) as RM.
  cbn [JavaClass.ob_type JavaClass.j_cls o methods h2] in RM.
  unfold __init__. rewrite bind_assoc, (bind_Return_eq _ _ _ _ _ _ RC).
  rewrite bind_assoc, (bind_Return_eq _ _ _ _ _ _ RM).
  now rewrite after_after.
Qed.

End Instantiation.

(** *** Construction *)

Lemma JavaMethod_new_null definition static h :
  self_handles_null h ->
  self_handles_null (heap_of (JavaMethod_new definition static h)).
Proof.
  intros HI. unfold JavaMethod_new, bind, lift, alloc_method.
  destruct (parse_definition definition) as [e|parsed]; [exact HI|].
  cbn. unfold self_handles_null in *. cbn. apply Forall_app. split; [exact HI|].
  repeat constructor.
Qed.

Section Construction.

Variable rt : Runtime.

Lemma exec_null s h :
  self_handles_null h -> self_handles_null (heap_of (exec rt s h)).
Proof.
  intros HI. destruct s as [d static|cls args|jm args]; cbn [exec];
    rewrite heap_of_then_ret.
  - now apply JavaMethod_new_null.
  - apply (JavaClass_new_keeps rt (length (proxies h)) cls self_handles_null);
      [apply self_handles_null_methods| |reflexivity|exact HI].
    intros h0 a m m' ps. apply self_handles_null_insert.
  - eapply self_handles_null_methods; [apply keeps_methods_call|exact HI].
Qed.

Lemma run_null prog h h' :
  self_handles_null h -> run rt prog h = Some h' -> self_handles_null h'.
Proof.
  revert h. induction prog as [|s prog IH]; intros h HI; cbn.
  - now intros [= <-].
  - pose proof (exec_null s h HI) as H.
    destruct (exec rt s h) as [[[[]| |] h1] t1]; cbn in *; try discriminate; eauto.
Qed.

End Construction.

(** *** Invocation on resolved objects does not fault *)

Lemma bind_no_fault {A B} (m : M A) (k : A -> M B) h :
  outcome_of (m h) <> Fault ->
  (forall a h1 t1, m h = (Return a, h1, t1) -> outcome_of (k a h1) <> Fault) ->
  outcome_of (bind m k h) <> Fault.
Proof.
  intros Hm Hk. unfold bind. destruct (m h) as [[[a| |] h1] t1]; cbn in *;
    try discriminate; try contradiction.
  specialize (Hk a h1 t1 eq_refl). now destruct (k a h1) as [[o h2] t2].
Qed.

Lemma try_finally_no_fault {A} (body : M A) (fin : M unit) h :
  outcome_of (body h) <> Fault -> safe fin ->
  outcome_of (try_finally body fin h) <> Fault.
Proof.
  intros Hb Hf. unfold try_finally.
  destruct (body h) as [[[a| |] h1] t1]; cbn in *; try contradiction;
    specialize (Hf h1); destruct (fin h1) as [[[[]| |] h2] t2]; cbn in *;
    try discriminate; contradiction.
Qed.

Lemma safe_free p : safe (free p).
Proof. intros h. discriminate. Qed.

Lemma safe_malloc rt size : safe (malloc rt size).
Proof. intros h. discriminate. Qed.

Section NoFault.

Variable rt : Runtime.

(** A resolved method of a resolved proxy returns or raises. *)
Lemma call_no_fault self args h jm c o :
  methods h !! self = Some jm ->
  JavaMethod.j_env jm <> NULL ->
  JavaMethod.jc jm = Some c ->
  proxies h !! c = Some o ->
  JavaClass.j_env o <> NULL ->
  outcome_of (__call__ rt self args h) <> Fault.
Proof.
  intros Hm Henv Hjc Ho Hoenv. unfold __call__.
  apply bind_no_fault; [unfold load_method; rewrite Hm; discriminate|].
  intros jm' h1 t1 E. unfold load_method in E. rewrite Hm in E.
  injection E as <- <- _.
  destruct (negb _); [discriminate|].
  apply bind_no_fault; [destruct (nonempty args); discriminate|].
  intros p h2 t2 E.
  assert (h2 = h) as -> by (destruct (nonempty args); now injection E as _ <- _).
  apply try_finally_no_fault;
    [|destruct (negb (is_null p)); [apply safe_free|apply safe_ret]].
  apply bind_no_fault.
  - destruct (nonempty args); [|discriminate].
    destruct (is_null p); [discriminate|]. rewrite Hjc.
    apply bind_no_fault; [unfold load_proxy; rewrite Ho; discriminate|].
    intros o' h3 t3 E'. apply load_proxy_Return in E' as [Ho' ->].
    assert (o' = o) as -> by congruence.
    now apply safe_populate_args.
  - intros j_args h3 t3 _. destruct (JavaMethod.is_static jm);
      [now apply safe_call_staticmethod|now apply safe_call_method].
Qed.

(** The constructor call of a proxy that holds an environment dereferences
    nothing null. *)
Lemma call_constructor_no_fault self args h o :
  proxies h !! self = Some o ->
  JavaClass.j_env o <> NULL ->
  outcome_of (call_constructor rt self args h) <> Fault.
Proof.
  intros Ho Henv. unfold call_constructor, cdef_void. apply dropping_no_fault.
  assert (Hlt : self < length (proxies h)) by (eapply lookup_lt_Some; eauto).
  apply bind_no_fault; [unfold load_proxy; rewrite Ho; discriminate|].
  intros o' h1 t1 E. apply load_proxy_Return in E as [Ho' ->].
  assert (o' = o) as -> by congruence.
  apply bind_no_fault.
  { unfold update_proxy, bind, load_proxy. rewrite Ho. discriminate. }
  intros u h2 t2 E. apply update_proxy_Return in E as (o1 & _ & ->).
  apply bind_no_fault; [apply safe_lift|].
  intros parsed h3 t3 E. apply lift_Return in E as ->.
  destruct (negb _); [discriminate|].
  apply bind_no_fault; [destruct (nonempty args); discriminate|].
  intros p h4 t4 E.
  apply buffer_Return in E as ->.
  apply try_finally_no_fault;
    [|destruct (negb (is_null p)); [apply safe_free|apply safe_ret]].
  apply bind_no_fault.
  { destruct (nonempty args); [|discriminate].
    destruct (is_null p); [discriminate|]. now apply safe_populate_args. }
  intros j_args h5 t5 E.
  apply external_Return in E as ->;
    [|repeat external_step; apply external_populate_args].
  apply bind_no_fault; [now apply safe_jni|].
  intros ctor h6 t6 E. apply jni_Return in E as [-> ->].
  destruct (is_null _).
  { destruct (__javaclass__ (JavaClass.ob_type o)); discriminate. }
  apply bind_no_fault; [now apply safe_jni|].
  intros obj h7 t7 E. apply jni_Return in E as [-> ->].
  unfold update_proxy, bind, load_proxy. cbn.
  rewrite list_lookup_insert_eq by exact Hlt. discriminate.
Qed.

End NoFault.

(** ** Invocation with arguments *)

Section Invocation.

Variable rt : Runtime.

(** Marshaling on a proxy with an environment always returns, with the
    heap as it was. *)
Lemma populate_args_returns self ds buf args h :
  JavaClass.j_env self <> NULL ->
  exists b t, populate_args rt self ds buf args h = (Return b, h, t).
Proof.
  intros Henv.
  pose proof (safe_populate_args rt self ds buf args Henv h) as Hsafe.
  pose proof (external_populate_args rt self ds buf args h) as [Hheap _].
  pose proof (dropping_never_raises (populate_args_from rt self 0 ds buf args)
                (written rt self 0 ds buf args h) h) as Hraise.
  fold (populate_args_rest rt self 0 ds buf args h) in Hraise.
  fold (populate_args rt self ds buf args) in Hraise.
  destruct (populate_args rt self ds buf args h) as [[[b|e|] h1] t1]; cbn in *.
  - subst h1. eauto.
  - exfalso. now apply (Hraise e).
  - contradiction.
Qed.

(** Invoking a resolved method with arguments: one buffer is allocated,
    the typed call is made on the buffer as marshaling left it, and the
    buffer is freed last. *)
Lemma call_marshaled self args h jm c o buf h1 tp :
  methods h !! self = Some jm ->
  args <> [] ->
  length args = length (JavaMethod.definition_args jm) ->
  JavaMethod.j_env jm <> NULL ->
  JavaMethod.jc jm = Some c ->
  proxies h !! c = Some o ->
  let d_args := JavaMethod.definition_args jm in
  let size := (sizeof_jvalue * Z.of_nat (length d_args))%Z in
  let p := rt_malloc rt size in
  let typed_call :=
    if JavaMethod.is_static jm then call_staticmethod rt jm buf h
    else call_method rt jm buf h in
  p <> NULL ->
  populate_args rt o d_args (fresh_buffer p (length d_args)) args h = (Return buf, h1, tp) ->
  __call__ rt self args h
  = (outcome_of typed_call, h,
     Ev.malloc size p :: tp ++ trace_of typed_call ++ [Ev.free p]).
Proof.
  intros Hm Hargs Hlen Henv Hjc Ho d_args size p typed_call Hp Hpop.
  subst d_args size p typed_call.
  set (size := (sizeof_jvalue * Z.of_nat (length (JavaMethod.definition_args jm)))%Z) in *.
  set (p := rt_malloc rt size) in *.
  assert (h1 = h) as ->.
  { pose proof (external_populate_args rt o (JavaMethod.definition_args jm)
                  (fresh_buffer p (length (JavaMethod.definition_args jm))) args h)
      as [Hheap _].
    now rewrite Hpop in Hheap. }
  set (r := if JavaMethod.is_static jm then call_staticmethod rt jm buf h
            else call_method rt jm buf h).
  assert (Hr : outcome_of r <> Fault /\ heap_of r = h).
  { subst r. destruct (JavaMethod.is_static jm).
    - split; [now apply safe_call_staticmethod|apply external_call_staticmethod].
    - split; [now apply safe_call_method|apply external_call_method]. }
  destruct Hr as [Hsafe Hh].
  unfold __call__.
  rewrite (bind_Return_eq _ _ h jm h []) by now apply load_method_run.
  rewrite after_nil, (length_eqb_refl _ _ Hlen), (nonempty_true _ Hargs).
  rewrite (bind_Return_eq (malloc rt size) _ h p h [Ev.malloc size p] eq_refl).
  rewrite (is_null_false _ Hp), Hjc. cbn [negb].
  rewrite (try_finally_eq _ (free p) h (outcome_of r) h (tp ++ trace_of r) h [Ev.free p]);
    [|
     |exact Hsafe|reflexivity].
  - unfold after. cbn. now rewrite <- app_assoc.
  - rewrite (bind_Return_eq _ _ h buf h tp).
    + unfold after.
      replace ((if JavaMethod.is_static jm then call_staticmethod rt jm buf
                else call_method rt jm buf) h) with r
        by (subst r; now destruct (JavaMethod.is_static jm)).
      now rewrite Hh.
    + rewrite (bind_Return_eq _ _ h o h []) by now apply load_proxy_run.
      now rewrite after_nil.
Qed.

End Invocation.

(** ** Arrays *)

(** C7, on the code: as return descriptor an array raises
    NotImplementedError on both call paths, before any foreign call.  As
    argument descriptor it does not stop the operation.  Once the
    arguments before it have marshaled, the statement meant to raise calls
    the constant [NotImplemented]: the loop is left with the TypeError of
    that call, which [populate_args] drops.  The function returns with the
    cell of the array argument, and the cells after it, as they were, and
    the invocation goes on: the typed call is made on that buffer. *)
Theorem array_descriptor_paths (rt : Runtime) self ds1 rest ds2 buf args py_arg h b1 h1 t1
    jm rest' j_args :
  args !! length ds1 = Some py_arg ->
  populate_args_from rt self 0 ds1 buf args h = (Return b1, h1, t1) ->
  JavaMethod.definition_return jm = String "[" rest' ->
  let ds := ds1 ++ String "[" rest :: ds2 in
  (populate_args_from rt self 0 ds buf args h
   = (Raise (TypeError "'NotImplementedType' object is not callable"), h1, t1)
   /\ populate_args rt self ds buf args h = (Return b1, h1, t1))
  /\ (forall a m c,
        methods h !! a = Some m ->
        JavaMethod.definition_args m = ds ->
        length args = length ds ->
        JavaMethod.j_env m <> NULL ->
        JavaMethod.jc m = Some c ->
        proxies h !! c = Some self ->
        let size := (sizeof_jvalue * Z.of_nat (length ds))%Z in
        let p := rt_malloc rt size in
        let typed_call :=
          if JavaMethod.is_static m then call_staticmethod rt m b1 h
          else call_method rt m b1 h in
        p <> NULL ->
        buf = fresh_buffer p (length ds) ->
        __call__ rt a args h
        = (outcome_of typed_call, h,
           Ev.malloc size p :: t1 ++ trace_of typed_call ++ [Ev.free p]))
  /\ call_method rt jm j_args h
     = (Raise (NotImplementedError "Array arguments not implemented"), h, [])
  /\ call_staticmethod rt jm j_args h
     = (Raise (NotImplementedError "Array arguments not implemented"), h, []).
Proof.
  intros Hv Hpre Hr ds.
  assert (D : populate_args_from rt self 0 ds buf args h
              = (Raise (TypeError "'NotImplementedType' object is not callable"), h1, t1)
              /\ populate_args rt self ds buf args h = (Return b1, h1, t1)).
  { rewrite <- (app_nil_r t1).
    apply (populate_args_dropped rt self ds1 _ ds2 buf args h b1 h1 t1 _ h1 [] Hpre).
    exact (populate_arg_array rt self _ rest b1 args py_arg h1 Hv). }
  split; [exact D|]. split; [|split].
  - intros a m c Hm Hds Hlen Henv Hjc Hc size p typed_call Hp Hbuf.
    subst size p typed_call buf. rewrite <- Hds in *.
    apply (call_marshaled rt a args h m c self b1 h1 t1 Hm); auto.
    + intros ->. rewrite Hds in Hlen. subst ds. rewrite length_app in Hlen.
      cbn in Hlen. lia.
    + exact (proj2 D).
  - eapply call_method_array; eauto.
  - eapply call_staticmethod_array; eauto.
Qed.

Lemma array_descriptor_paths_witness :
  populate_args_from sample_runtime (sample_proxy Hardware) 0 (["I"] ++ "[I" :: [])
    (fresh_buffer 4096%Z 2) [PyInt 3; PyInt 5] array_heap
  = (Raise (TypeError "'NotImplementedType' object is not callable"), array_heap, [])
  /\ populate_args sample_runtime (sample_proxy Hardware) (["I"] ++ "[I" :: [])
       (fresh_buffer 4096%Z 2) [PyInt 3; PyInt 5] array_heap
     = (Return {| addr := 4096%Z; cells := [cell_i 3; cell_uninit] |}, array_heap, [])
  /\ __call__ sample_runtime 0 [PyInt 3; PyInt 5] array_heap
     = (Return PyNone, array_heap,
        [Ev.malloc 16 4096%Z;
         Ev.Jni (Ev.CallMethodA TVoid NULL 256%Z
                   {| addr := 4096%Z; cells := [cell_i 3; cell_uninit] |});
         Ev.free 4096%Z])
  /\ call_method sample_runtime (sample_method false "[I" []) NULL_buffer array_heap
     = (Raise (NotImplementedError "Array arguments not implemented"), array_heap, []).
Proof.
  destruct (array_descriptor_paths sample_runtime (sample_proxy Hardware)
              ["I"] "I" [] (fresh_buffer 4096%Z 2) [PyInt 3; PyInt 5]
              (PyInt 5) array_heap _ _ _ (sample_method false "[I" []) "I" NULL_buffer
              eq_refl eq_refl eq_refl) as ([L P] & C & M & _).
  split; [exact L|]. split; [exact P|]. split; [|exact M].
  apply (C 0 _ 0 eq_refl eq_refl eq_refl); [discriminate|reflexivity|reflexivity
                                            |discriminate|reflexivity].
Defined.

(** ** The instance handle and its copies *)

(** C10, as stated, fails on the word permanently: [__init__] is an
    ordinary method, and calling it again on the constructed proxy
    resolves the methods again; they then copy the handle the proxy holds
    by now.  [Vibrator("hi")] leaves [cancel] with a NULL copy; after
    [__init__("hi")] on that proxy the copy is the handle 512. *)
Lemma reinitialisation_copies_the_handle :
  outcome_of (JavaClass_new sample_runtime Vibrator [PyStr "hi"] Vibrator_declared)
    = Return 0
  /\ heap_of (JavaClass_new sample_runtime Vibrator [PyStr "hi"] Vibrator_declared)
    = Vibrator_instantiated
  /\ bound_with_null_self 0 Vibrator_instantiated 0
  /\ outcome_of (__init__ sample_runtime 0 [PyStr "hi"] Vibrator_instantiated)
    = Return tt
  /\ heap_of (__init__ sample_runtime 0 [PyStr "hi"] Vibrator_instantiated)
    = Vibrator_reinitialised
  /\ ~ bound_with_null_self 0 Vibrator_reinitialised 0
  /\ trace_of (__call__ sample_runtime 0 [] Vibrator_reinitialised)
    = [Ev.Jni (Ev.CallMethodA TVoid 512%Z 256%Z NULL_buffer)].
Proof.
  repeat split; try reflexivity.
  - exists (resolved cancel NULL). repeat split.
  - intros (jm & Hjm & _ & Hnull). injection Hjm as <-. discriminate Hnull.
Qed.

(** C10, amended: a method object's copy of the instance handle is the
    value the proxy holds when the method is resolved.  An instantiation
    resolves the methods before it calls the constructor: every method
    object it has touched is bound to the new proxy with a NULL copy, and
    these are all the method members of the class when the class and the
    methods are found.  The constructor call and the method invocations
    leave the copies alone.  So every method object holds NULL in every
    heap reached by a client that declares methods, instantiates proxy
    types and invokes methods. *)
Theorem bound_methods_keep_null_self (rt : Runtime) :
  (forall a jc name h m c,
     methods h !! a = Some m -> proxies h !! jc = Some c ->
     exists m', methods (heap_of (resolve_method rt a jc name h)) !! a = Some m'
                /\ JavaMethod.jc m' = Some jc
                /\ JavaMethod.j_self m' = JavaClass.j_self c)
  /\ (forall cls args h self h' t,
        JavaClass_new rt cls args h = (Return self, h', t) ->
        rebound_with_null_self self h h'
        /\ forall name,
             __javaclass__ cls = Some name -> rt_GetJNIEnv rt <> NULL ->
             members_declared (methods h) (members cls) ->
             all_found rt (methods h) (rt_FindClass rt name) (members cls) = true ->
             forall n a, In (n, attr_method a) (members cls) ->
                         bound_with_null_self self h' a)
  /\ (forall self args h,
        methods (heap_of (call_constructor rt self args h)) = methods h)
  /\ (forall self args h, methods (heap_of (__call__ rt self args h)) = methods h)
  /\ (forall prog h, run rt prog empty_heap = Some h -> self_handles_null h).
Proof.
  split; [|split; [|split; [|split]]].
  - intros a jc name h m c Hm Hc.
    destruct (resolve_method_bound rt a jc name h m c Hm Hc)
      as (m' & -> & Hjc & _ & _ & Hself).
    exists m'. cbn. rewrite list_lookup_insert_eq by (eapply lookup_lt_Some; eauto).
    auto.
  - intros cls args h self h' t Hnew.
    pose proof (JavaClass_new_self rt cls args h self h' t Hnew) as Hself.
    assert (Hh : h' = heap_of (JavaClass_new rt cls args h)) by now rewrite Hnew.
    split.
    + rewrite Hh.
      apply (JavaClass_new_keeps rt self cls (rebound_with_null_self self h));
        [intros h1 h2; apply rebound_methods
        |intros h1 a m m' ps; apply rebound_insert
        |exact Hself
        |intros a; now left].
    + intros name Hname Henv Hdecl Hall n a Hin.
      rewrite (JavaClass_new_run rt cls args h name Hname Henv Hdecl) in Hh.
      cbn zeta in Hh. rewrite heap_of_after, heap_of_then_ret, <- Hself in Hh.
      set (o := {| JavaClass.ob_type := cls; JavaClass.j_env := rt_GetJNIEnv rt;
                   JavaClass.j_cls := rt_FindClass rt name; JavaClass.j_self := NULL;
                   JavaClass.definition := None |}) in Hh.
      set (h2 := {| methods := methods h; proxies := proxies h ++ [o] |}) in Hh.
      assert (Ho : proxies h2 !! self = Some o).
      { subst h2. rewrite Hself. apply list_lookup_middle. reflexivity. }
      destruct (resolve_members_reached rt self o (members cls) Henv h2 Ho Hdecl Hall
                  n a Hin) as (jm & Hjm & Hjc & _ & _ & Hnull).
      exists jm. rewrite Hh, keeps_methods_call_constructor. auto.
  - intros self args h. apply keeps_methods_call_constructor.
  - intros self args h. apply keeps_methods_call.
  - intros prog h. apply run_null. constructor.
Qed.

Lemma bound_methods_keep_null_self_witness :
  run sample_runtime
      [DeclareMethod "()V" false; DeclareMethod "(J;)V" false;
       Instantiate Vibrator [PyStr "hi"]] empty_heap
    = Some Vibrator_instantiated
  /\ self_handles_null Vibrator_instantiated
  /\ bound_with_null_self 0 Vibrator_instantiated 0
  /\ bound_with_null_self 0 Vibrator_instantiated 1
  /\ constructed sample_runtime 0 Vibrator_instantiated.
Proof.
  destruct (bound_methods_keep_null_self sample_runtime) as (_ & B & _ & _ & A).
  split; [reflexivity|]. split.
  - apply (A [DeclareMethod "()V" false; DeclareMethod "(J;)V" false;
              Instantiate Vibrator [PyStr "hi"]]). reflexivity.
  - destruct (B Vibrator [PyStr "hi"] Vibrator_declared 0 Vibrator_instantiated
                [Ev.SDL_ANDROID_GetJNIEnv;
                 Ev.Jni (Ev.FindClass "org/test/Vibrator");
                 Ev.Jni (Ev.GetMethodID 128%Z "cancel" "()V");
                 Ev.Jni (Ev.GetMethodID 128%Z "vibrate" "(J;)V");
                 Ev.malloc 8 4096%Z;
                 Ev.Jni (Ev.NewStringUTF "hi");
                 Ev.Jni (Ev.GetMethodID 128%Z "<init>" "(Ljava/lang/String;)V");
                 Ev.Jni (Ev.NewObjectA 128%Z 256%Z
                           {| addr := 4096%Z; cells := [cell_l 1024%Z] |});
                 Ev.free 4096%Z] eq_refl) as [_ D].
    assert (Hdecl : members_declared (methods Vibrator_declared) (members Vibrator)).
    { intros name a [H|[H|[H|[]]]]; try discriminate H; injection H as _ <-; cbn; lia. }
    specialize (D "org/test/Vibrator" eq_refl ltac:(discriminate) Hdecl eq_refl).
    split; [apply (D "cancel"); cbn; auto|].
    split; [apply (D "vibrate"); cbn; auto|].
    exists {| JavaClass.ob_type := Vibrator; JavaClass.j_env := 64%Z;
              JavaClass.j_cls := 128%Z; JavaClass.j_self := 512%Z;
              JavaClass.definition := Some "(Ljava/lang/String;)V" |},
      256%Z, {| addr := 4096%Z; cells := [cell_l 1024%Z] |}.
    split; reflexivity.
Defined.

(** ** Sample runs *)

Example parse_void : parse_definition "()V" = inr ("V", []).
Proof. reflexivity. Qed.

Example parse_string_arg :
  parse_definition "(Ljava/lang/String;)Ljava/lang/String;"
  = inr ("Ljava/lang/String;", ["Ljava/lang/String"]).
Proof. reflexivity. Qed.

Example parse_two : parse_definition "(I;Z)I" = inr ("I", ["I"; "Z"]).
Proof. reflexivity. Qed.

Example parse_undelimited : parse_definition "(IZ)I" = inr ("I", ["IZ"]).
Proof. reflexivity. Qed.

Example parse_no_parenthesis :
  parse_definition "IV" = inl (ValueError "need more than 1 value to unpack").
Proof. reflexivity. Qed.

Example parse_two_parentheses :
  parse_definition "(I))V" = inl (ValueError "too many values to unpack").
Proof. reflexivity. Qed.

Example declare_getDPI :
  JavaMethod_new "()I" true empty_heap = (Return 0, Hardware_heap, []).
Proof. reflexivity. Qed.

(** [Hardware().getDPI()]: the static call goes to [CallStaticIntMethodA]
    on the class handle. *)
Example getDPI_call :
  __call__ sample_runtime 0 [] Hardware_constructed
  = (Return (PyInt 160), Hardware_constructed,
     [Ev.Jni (Ev.CallStaticMethodA TInt 128%Z 257%Z NULL_buffer)]).
Proof. reflexivity. Qed.

(** An instance method called on a constructed proxy: the receiver handed
    to the JNI is the method's NULL copy, not the proxy's handle (512). *)
Example instance_call_receiver :
  trace_of (__call__ sample_runtime 0 [PyStr "hi"; PyInt 3] sample_heap)
  = [Ev.malloc 16 4096%Z;
     Ev.Jni (Ev.NewStringUTF "hi");
     Ev.Jni (Ev.CallMethodA TObject NULL 256%Z
               {| addr := 4096%Z; cells := [cell_l 1024%Z; cell_i 3] |});
     Ev.free 4096%Z].
Proof. reflexivity. Qed.

(** A char result above 255 loses its high byte in the [<char>] cast. *)
Example char_result_truncated :
  call_method sample_runtime (sample_method false "C" []) NULL_buffer empty_heap
  = (Return (PyInt 65), empty_heap,
     [Ev.Jni (Ev.CallMethodA TChar NULL 256%Z NULL_buffer)])
  /\ rt_CallMethodA sample_runtime TChar NULL 256%Z NULL_buffer = 321%Z.
Proof. split; reflexivity. Qed.

(** * Further properties *)

(** ** The parser, from tokens to signature and back *)

(** X1: a signature written from any list of plain tokens, each followed
    by the delimiter, parses back to exactly those tokens and its return
    descriptor. *)
Theorem parse_written_signature (toks : list string) (r : string) :
  Forall plain_token toks -> Py.contains ")" r = false ->
  parse_definition ("(" ++ descriptors toks ++ ")" ++ r) = inr (r, toks).
Proof.
  intros Ht Hr.
  assert (H1 : Forall (fun t => Py.contains ";" t = false) toks)
    by (eapply Forall_impl; [exact Ht|]; now intros t [? ?]).
  assert (H2 : Forall (fun t => Py.contains ")" t = false) toks)
    by (eapply Forall_impl; [exact Ht|]; now intros t [? ?]).
  rewrite parse_definition_wellformed;
    [|now apply contains_descriptors|exact Hr].
  now rewrite split_args_descriptors.
Qed.

Lemma parse_written_signature_witness :
  Forall plain_token ["I"; "Ljava/lang/String"; ""] /\ Py.contains ")" "Z" = false
  /\ parse_definition "(I;Ljava/lang/String;;)Z" = inr ("Z", ["I"; "Ljava/lang/String"; ""]).
Proof.
  assert (H : Forall plain_token ["I"; "Ljava/lang/String"; ""])
    by (repeat constructor).
  split; [exact H|]. split; [reflexivity|].
  exact (parse_written_signature ["I"; "Ljava/lang/String"; ""] "Z" H eq_refl).
Defined.

(** X2: whatever the parser returns is clean: no token holds a delimiter
    or a closing parenthesis, and the return descriptor holds no closing
    parenthesis. *)
Theorem parsed_tokens_are_plain definition ret toks :
  parse_definition definition = inr (ret, toks) ->
  Forall plain_token toks /\ Py.contains ")" ret = false.
Proof.
  intros H. apply parse_definition_inr in H as (args & Hs & ->).
  pose proof (split_tokens_no_sep ")" (Py.tail definition)) as Hp.
  rewrite Hs in Hp. inversion Hp as [|? ? Ha Hp']; subst.
  inversion Hp' as [|? ? Hr _]; subst. split; [|exact Hr].
  apply Forall_split_args.
  pose proof (split_tokens_no_sep ";" args) as H1.
  pose proof (split_without_char ")" ";" args Ha) as H2.
  apply Forall_forall. intros t Ht. split.
  - now apply (proj1 (Forall_forall _ _) H1).
  - now apply (proj1 (Forall_forall _ _) H2).
Qed.

Lemma parsed_tokens_are_plain_witness :
  parse_definition "(I;Ljava/lang/String;)Z" = inr ("Z", ["I"; "Ljava/lang/String"])
  /\ Forall plain_token ["I"; "Ljava/lang/String"] /\ Py.contains ")" "Z" = false.
Proof.
  split; [reflexivity|].
  exact (parsed_tokens_are_plain "(I;Ljava/lang/String;)Z" "Z"
           ["I"; "Ljava/lang/String"] eq_refl).
Defined.

(** X3: the number of arguments a parsed signature declares is the number
    of delimiters in its argument portion, plus one when the portion is not
    empty and does not end with a delimiter. *)
Theorem parsed_arity definition ret toks :
  parse_definition definition = inr (ret, toks) ->
  exists args, Py.split ")" (Py.tail definition) = [args; ret]
               /\ length toks = declared_arity args.
Proof.
  intros H. apply parse_definition_inr in H as (args & Hs & ->).
  exists args. split; [exact Hs|apply length_split_args].
Qed.

Lemma parsed_arity_witness :
  parse_definition "(II)V" = inr ("V", ["II"])
  /\ exists args, Py.split ")" (Py.tail "(II)V") = [args; "V"]
                  /\ length ["II"] = declared_arity args.
Proof.
  split; [reflexivity|]. exact (parsed_arity "(II)V" "V" ["II"] eq_refl).
Defined.

(** ** Class resolution *)

(** X4: class resolution cannot report its failures.  When the proxy type
    declares no class path, when the runtime has no environment and when
    the class is not found, [resolve_class] returns as it does when the
    class is found: it has made the calls up to the failure and stored
    what they returned, and the JavaException it raised is dropped.
    [JavaClass.__init__] then goes on with method resolution and the
    constructor call, on the proxy as class resolution left it. *)
Theorem class_resolution_errors_are_dropped (rt : Runtime) self h o :
  proxies h !! self = Some o ->
  (__javaclass__ (JavaClass.ob_type o) = None ->
   resolve_class rt self h = (Return tt, h, []))
  /\ (forall name,
        __javaclass__ (JavaClass.ob_type o) = Some name -> rt_GetJNIEnv rt = NULL ->
        resolve_class rt self h
        = (Return tt,
           {| methods := methods h; proxies := <[self := set_j_env NULL o]> (proxies h) |},
           [Ev.SDL_ANDROID_GetJNIEnv]))
  /\ (forall name,
        __javaclass__ (JavaClass.ob_type o) = Some name -> rt_GetJNIEnv rt <> NULL ->
        rt_FindClass rt name = NULL ->
        resolve_class rt self h
        = (Return tt,
           {| methods := methods h;
              proxies := <[self := set_j_cls NULL (set_j_env (rt_GetJNIEnv rt) o)]>
                           (proxies h) |},
           [Ev.SDL_ANDROID_GetJNIEnv; Ev.Jni (Ev.FindClass name)]))
  /\ (forall args,
        __init__ rt self args h
        = after (trace_of (resolve_class rt self h))
                (bind (resolve_methods rt self) (fun _ => call_constructor rt self args)
                      (heap_of (resolve_class rt self h)))).
Proof.
  intros Ho. pose proof (resolve_class_run rt self h o Ho) as R.
  split; [|split; [|split]].
  - intros Hc. now rewrite Hc in R.
  - intros name Hc Henv. rewrite Hc in R. cbn zeta in R. rewrite Henv in R.
    exact R.
  - intros name Hc Henv Hcls. rewrite Hc in R. cbn zeta in R.
    rewrite (is_null_false _ Henv), Hcls in R. exact R.
  - intros args. unfold __init__.
    assert (E : resolve_class rt self h
                = (Return tt, heap_of (resolve_class rt self h),
                   trace_of (resolve_class rt self h))).
    { rewrite R. destruct (__javaclass__ (JavaClass.ob_type o)); [|reflexivity].
      cbn zeta. now destruct (is_null (rt_GetJNIEnv rt)). }
    now rewrite (bind_Return_eq _ _ _ _ _ _ E).
Qed.

Lemma class_resolution_errors_are_dropped_witness :
  resolve_class sample_runtime 0
    {| methods := [getDPI]; proxies := [sample_proxy Undeclared] |}
  = (Return tt, {| methods := [getDPI]; proxies := [sample_proxy Undeclared] |}, [])
  /\ __javaclass__ Undeclared = None.
Proof.
  split; [|reflexivity].
  destruct (class_resolution_errors_are_dropped sample_runtime 0
              {| methods := [getDPI]; proxies := [sample_proxy Undeclared] |}
              (sample_proxy Undeclared) eq_refl) as [H _].
  exact (H eq_refl).
Defined.

(** ** Method resolution, member by member *)

(** X5: on a proxy past class resolution, [resolve_methods] looks up the
    method members of the class in [dir] order, each through the entry
    point of its static flag, skips every other member, and stops at the
    first method the runtime does not find: the methods after it are never
    looked up.  The loop then ends with the AssertionError of
    [resolve_method], which [resolve_methods] drops: it returns, found or
    not. *)
Theorem resolve_methods_in_order (rt : Runtime) self h o :
  proxies h !! self = Some o ->
  JavaClass.j_env o <> NULL ->
  members_declared (methods h) (members (JavaClass.ob_type o)) ->
  trace_of (resolve_methods rt self h)
    = lookups rt (methods h) (JavaClass.j_cls o) (members (JavaClass.ob_type o))
  /\ outcome_of (resolve_methods rt self h) = Return tt
  /\ outcome_of (resolve_members rt self (members (JavaClass.ob_type o)) h)
     = (if all_found rt (methods h) (JavaClass.j_cls o) (members (JavaClass.ob_type o))
        then Return tt else Raise AssertionError).
Proof.
  intros Ho Henv Hdecl.
  rewrite (resolve_methods_run rt self h o Ho Henv Hdecl).
  split; [reflexivity|]. split; [reflexivity|].
  now apply resolve_members_run.
Qed.

Lemma resolve_methods_in_order_witness :
  trace_of (resolve_methods sample_runtime_no_method 0 Vibrator_heap)
    = [Ev.Jni (Ev.GetMethodID 128%Z "cancel" "()V")]
  /\ outcome_of (resolve_methods sample_runtime_no_method 0 Vibrator_heap) = Return tt
  /\ outcome_of (resolve_members sample_runtime_no_method 0 (members Vibrator)
                   Vibrator_heap)
     = Raise AssertionError.
Proof.
  apply (resolve_methods_in_order sample_runtime_no_method 0 Vibrator_heap _ eq_refl).
  - discriminate.
  - intros name a [H|[H|[H|[]]]]; try discriminate H; injection H as _ <-; cbn; lia.
Defined.

(** ** The constructor call *)

Section ConstructorCall.

Variable rt : Runtime.

(** X6: a constructor without arguments allocates nothing: the runtime is
    asked for [<init>] with the constructor signature; when it is found,
    [NewObjectA] gets the NULL buffer and its result becomes the proxy's
    instance handle; when it is not, [NewObjectA] is not called, the proxy
    keeps its handle and the JavaException that names the class path is
    dropped: the call returns all the same. *)
Theorem construct_without_arguments self h o d_ret :
  proxies h !! self = Some o ->
  JavaClass.j_env o <> NULL ->
  parse_definition (constructor_definition (JavaClass.ob_type o)) = inr (d_ret, []) ->
  let def := constructor_definition (JavaClass.ob_type o) in
  let cls := JavaClass.j_cls o in
  let ctor := rt_GetMethodID rt cls "<init>" def in
  call_constructor rt self [] h =
  if is_null ctor then
    (Return tt,
     {| methods := methods h; proxies := <[self := set_definition def o]> (proxies h) |},
     [Ev.Jni (Ev.GetMethodID cls "<init>" def)])
  else
    (Return tt,
     {| methods := methods h;
        proxies := <[self := set_j_self (rt_NewObjectA rt cls ctor NULL_buffer)
                               (set_definition def o)]> (proxies h) |},
     [Ev.Jni (Ev.GetMethodID cls "<init>" def);
      Ev.Jni (Ev.NewObjectA cls ctor NULL_buffer)]).
Proof.
  intros Ho Henv Hparse def cls ctor. subst def cls ctor.
  assert (Hlt : self < length (proxies h)) by (eapply lookup_lt_Some; eauto).
  unfold call_constructor, cdef_void, dropping, update_proxy, bind, load_proxy,
    store_proxy.
  rewrite Ho. cbn. rewrite Ho. cbn. rewrite Hparse. cbn.
  unfold try_finally, GetMethodID, NewObjectA, jni, bind, emit, ret. cbn.
  rewrite (is_null_false _ Henv). cbn.
  destruct (is_null (rt_GetMethodID rt _ _ _)); cbn.
  - now destruct (__javaclass__ (JavaClass.ob_type o)).
  - rewrite list_lookup_insert_eq by exact Hlt. cbn.
    now rewrite list_insert_insert_eq.
Qed.

End ConstructorCall.

Lemma construct_without_arguments_witness :
  call_constructor sample_runtime_no_method 0 []
    {| methods := [getDPI]; proxies := [sample_proxy Hardware] |}
  = (Return tt,
     {| methods := [getDPI];
        proxies := [{| JavaClass.ob_type := Hardware; JavaClass.j_env := 64%Z;
                       JavaClass.j_cls := 128%Z; JavaClass.j_self := NULL;
                       JavaClass.definition := Some "()V" |}] |},
     [Ev.Jni (Ev.GetMethodID 128%Z "<init>" "()V")]).
Proof.
  exact (construct_without_arguments sample_runtime_no_method 0
           {| methods := [getDPI]; proxies := [sample_proxy Hardware] |}
           (sample_proxy Hardware) "V"
           eq_refl ltac:(discriminate) eq_refl).
Defined.

(** ** Allocation failure *)

(** X7: when [malloc] returns NULL, nothing is marshaled, called or freed
    after the failed allocation and the heap's objects are as they were.
    The invocation of a method raises MemoryError; the constructor call
    raises it too, but cannot hand it to its caller and returns. *)
Theorem allocation_failure (rt : Runtime) (args : list object) (h : heap) :
  args <> [] ->
  (forall self jm,
     methods h !! self = Some jm ->
     length args = length (JavaMethod.definition_args jm) ->
     let size := (sizeof_jvalue * Z.of_nat (length (JavaMethod.definition_args jm)))%Z in
     rt_malloc rt size = NULL ->
     __call__ rt self args h
     = (Raise (MemoryError "Unable to allocate memory for java args"), h,
        [Ev.malloc size NULL]))
  /\ (forall self o d_ret d_args,
        proxies h !! self = Some o ->
        parse_definition (constructor_definition (JavaClass.ob_type o))
          = inr (d_ret, d_args) ->
        length args = length d_args ->
        let size := (sizeof_jvalue * Z.of_nat (length d_args))%Z in
        rt_malloc rt size = NULL ->
        call_constructor rt self args h
        = (Return tt,
           {| methods := methods h;
              proxies := <[self := set_definition
                                     (constructor_definition (JavaClass.ob_type o)) o]>
                           (proxies h) |},
           [Ev.malloc size NULL])).
Proof.
  intros Hargs. split.
  - intros self jm Hm Hlen size Hnull. subst size.
    unfold __call__, bind, load_method. rewrite Hm. cbn.
    rewrite (length_eqb_refl _ _ Hlen), (nonempty_true _ Hargs).
    unfold malloc, try_finally, bind, emit, ret, raise. cbn. rewrite Hnull. reflexivity.
  - intros self o d_ret d_args Ho Hp Hlen size Hnull. subst size.
    unfold call_constructor, cdef_void, dropping, update_proxy, bind, load_proxy,
      store_proxy.
    rewrite Ho. cbn. rewrite Ho. cbn. rewrite Hp. cbn.
    rewrite (length_eqb_refl _ _ Hlen), (nonempty_true _ Hargs).
    unfold malloc, try_finally, bind, emit, ret, raise. cbn. rewrite Hnull. reflexivity.
Qed.

Lemma allocation_failure_witness :
  [PyStr "hi"; PyInt 3] <> []
  /\ __call__ sample_runtime_no_memory 0 [PyStr "hi"; PyInt 3] sample_heap
     = (Raise (MemoryError "Unable to allocate memory for java args"), sample_heap,
        [Ev.malloc 16 NULL])
  /\ call_constructor sample_runtime_no_memory 0 [PyStr "hi"] Vibrator_heap
     = (Return tt,
        {| methods := methods Vibrator_heap;
           proxies := [{| JavaClass.ob_type := Vibrator; JavaClass.j_env := 64%Z;
                          JavaClass.j_cls := 128%Z; JavaClass.j_self := NULL;
                          JavaClass.definition := Some "(Ljava/lang/String;)V" |}] |},
        [Ev.malloc 8 NULL]).
Proof.
  split; [discriminate|].
  destruct (allocation_failure sample_runtime_no_memory [PyStr "hi"; PyInt 3] sample_heap)
    as [H _]; [discriminate|].
  destruct (allocation_failure sample_runtime_no_memory [PyStr "hi"] Vibrator_heap)
    as [_ K]; [discriminate|].
  split.
  - exact (H 0 _ eq_refl eq_refl eq_refl).
  - exact (K 0 _ "V" ["Ljava/lang/String"] eq_refl eq_refl eq_refl eq_refl).
Defined.

(** ** Invocation *)

(** X8: a method without arguments is invoked without allocating: the
    invocation is the typed call itself, on the NULL buffer. *)
Theorem call_without_arguments (rt : Runtime) self h jm :
  methods h !! self = Some jm ->
  JavaMethod.definition_args jm = [] ->
  __call__ rt self [] h =
  if JavaMethod.is_static jm then call_staticmethod rt jm NULL_buffer h
  else call_method rt jm NULL_buffer h.
Proof.
  intros Hm Hargs. unfold __call__.
  rewrite (bind_Return_eq _ _ h jm h []) by (unfold load_method; now rewrite Hm).
  rewrite after_nil, Hargs. cbn [length Nat.eqb negb nonempty].
  rewrite (bind_Return_eq _ _ h NULL h []) by reflexivity.
  rewrite after_nil. change (negb (is_null NULL)) with false. cbv iota.
  rewrite try_finally_ret.
  rewrite (bind_Return_eq (ret NULL_buffer) _ h NULL_buffer h [] eq_refl).
  rewrite after_nil. now destruct (JavaMethod.is_static jm).
Qed.

Lemma call_without_arguments_witness :
  __call__ sample_runtime 0 [] Hardware_constructed
  = call_staticmethod sample_runtime
      {| JavaMethod.j_method := 257%Z; JavaMethod.jc := Some 0;
         JavaMethod.j_env := 64%Z; JavaMethod.j_cls := 128%Z;
         JavaMethod.j_self := NULL;
         JavaMethod.definition := "()I";
         JavaMethod.is_static := true;
         JavaMethod.definition_return := "I";
         JavaMethod.definition_args := [] |}
      NULL_buffer Hardware_constructed.
Proof.
  exact (call_without_arguments sample_runtime 0 Hardware_constructed _ eq_refl eq_refl).
Defined.

(** *** Invocation leaves the heap alone *)

Lemma keeps_heap_bind {A B} (m : M A) (k : A -> M B) :
  keeps_heap m -> (forall a, keeps_heap (k a)) -> keeps_heap (bind m k).
Proof.
  intros Hm Hk h. unfold bind. specialize (Hm h).
  destruct (m h) as [[[a| |] h1] t1]; cbn in *; auto. subst h1.
  specialize (Hk a h). now destruct (k a h) as [[o h2] t2].
Qed.

Lemma keeps_heap_try_finally {A} (body : M A) (fin : M unit) :
  keeps_heap body -> keeps_heap fin -> keeps_heap (try_finally body fin).
Proof.
  intros Hb Hf h. unfold try_finally. specialize (Hb h).
  destruct (body h) as [[[a| |] h1] t1]; cbn in *; auto; subst h1;
    specialize (Hf h); now destruct (fin h) as [[[[]| |] h2] t2].
Qed.

Lemma keeps_heap_external {A} (m : M A) : external m -> keeps_heap m.
Proof. intros H h. apply H. Qed.

Lemma keeps_heap_load_method a : keeps_heap (load_method a).
Proof. intros h. unfold load_method. now destruct (methods h !! a). Qed.

Lemma keeps_heap_plain {A} (r : outcome A) (t : list event) :
  keeps_heap (fun h => (r, h, t)).
Proof. intros h. reflexivity. Qed.

(** X9: invoking a method changes no object of the heap, whatever the
    arguments and however the invocation ends. *)
Theorem call_keeps_heap (rt : Runtime) self args h :
  heap_of (__call__ rt self args h) = h.
Proof.
  revert h. change (keeps_heap (__call__ rt self args)). unfold __call__.
  apply keeps_heap_bind; [apply keeps_heap_load_method|]. intros jm.
  destruct (negb _); [apply (keeps_heap_plain (Raise _) [])|].
  apply keeps_heap_bind.
  { destruct (nonempty args); [|apply (keeps_heap_plain (Return NULL) [])].
    intros h. reflexivity. }
  intros p. apply keeps_heap_try_finally.
  - apply keeps_heap_external. repeat external_step;
      auto using external_populate_args, external_call_method,
        external_call_staticmethod.
  - destruct (negb (is_null p)); intros h; reflexivity.
Qed.

(** *** A method that was never resolved *)

Lemma never_returns_bind {A B} (m : M A) (k : A -> M B) :
  never_returns m -> never_returns (bind m k).
Proof.
  intros Hm h b. unfold bind. specialize (Hm h).
  destruct (m h) as [[[a| |] h1] t1]; cbn in *; try discriminate.
  now specialize (Hm a).
Qed.

Lemma never_returns_bind_r {A B} (m : M A) (k : A -> M B) :
  (forall a, never_returns (k a)) -> never_returns (bind m k).
Proof.
  intros Hk h b. unfold bind.
  destruct (m h) as [[[a| |] h1] t1]; cbn in *; try discriminate.
  specialize (Hk a h1 b). now destruct (k a h1) as [[o h2] t2].
Qed.

Lemma never_returns_try_finally {A} (body : M A) (fin : M unit) :
  never_returns body -> never_returns (try_finally body fin).
Proof.
  intros Hb h a E.
  destruct (try_finally body fin h) as [[o h'] t] eqn:Et. cbn in E. subst o.
  apply try_finally_Return in Et as (h1 & t1 & t2 & Hbody & _).
  apply (Hb h a). now rewrite Hbody.
Qed.

Lemma never_returns_raise {A} e : never_returns (@raise A e).
Proof. intros h a. discriminate. Qed.

Lemma never_returns_fault {A} : never_returns (@fault A).
Proof. intros h a. discriminate. Qed.

Lemma never_returns_jni_null {A} c (r : A) : never_returns (jni NULL c r).
Proof. intros h a. discriminate. Qed.

Lemma never_returns_entry_point_null {A} (r : A) : never_returns (entry_point NULL r).
Proof. intros h a. discriminate. Qed.

Ltac never_step :=
  match goal with
  | |- never_returns (bind (jni NULL _ _) _) => apply never_returns_bind, never_returns_jni_null
  | |- never_returns (bind (entry_point NULL _) _) =>
      apply never_returns_bind, never_returns_entry_point_null
  | |- never_returns (raise _) => apply never_returns_raise
  | |- never_returns (if ?b then _ else _) => destruct b
  end.

Section Unresolved.

Variable rt : Runtime.

Lemma call_method_unresolved self j_args :
  JavaMethod.j_env self = NULL -> never_returns (call_method rt self j_args).
Proof.
  intros Henv. unfold call_method. rewrite Henv.
  apply never_returns_bind_r. intros r.
  unfold CallVoidMethodA, CallBooleanMethodA, CallByteMethodA, CallCharMethodA,
    CallShortMethodA, CallIntMethodA, CallLongMethodA, CallFloatMethodA,
    CallDoubleMethodA, CallObjectMethodA, CallTypeMethodA.
  repeat never_step.
Qed.

Lemma call_staticmethod_unresolved self j_args :
  JavaMethod.j_env self = NULL -> never_returns (call_staticmethod rt self j_args).
Proof.
  intros Henv. unfold call_staticmethod. rewrite Henv.
  apply never_returns_bind_r. intros r.
  unfold CallStaticVoidMethodA, CallStaticBooleanMethodA, CallStaticCharMethodA,
    CallStaticShortMethodA, CallStaticIntMethodA, CallStaticLongMethodA,
    CallStaticDoubleMethodA, CallStaticObjectMethodA, CallStaticTypeMethodA.
  repeat never_step.
Qed.

(** X10: a method object that no instantiation has resolved cannot be
    invoked: whatever the arguments, the invocation hands no value back. *)
Theorem unresolved_method_never_returns self args h jm :
  methods h !! self = Some jm ->
  JavaMethod.j_env jm = NULL ->
  JavaMethod.jc jm = None ->
  forall v, outcome_of (__call__ rt self args h) <> Return v.
Proof.
  intros Hm Henv Hjc v. unfold __call__.
  rewrite (bind_Return_eq _ _ h jm h []) by (unfold load_method; now rewrite Hm).
  rewrite after_nil. clear Hm. revert h v.
  match goal with
  | |- forall h v, outcome_of (?X h) <> Return v => change (never_returns X)
  end.
  destruct (negb _); [apply never_returns_raise|].
  apply never_returns_bind_r. intros p. apply never_returns_try_finally.
  destruct (nonempty args).
  - apply never_returns_bind. destruct (is_null p); [apply never_returns_raise|].
    rewrite Hjc. apply never_returns_fault.
  - apply never_returns_bind_r. intros j_args.
    destruct (JavaMethod.is_static jm);
      [now apply call_staticmethod_unresolved|now apply call_method_unresolved].
Qed.

End Unresolved.

Lemma unresolved_method_never_returns_witness :
  outcome_of (__call__ sample_runtime 0 [] Hardware_heap) = Fault
  /\ forall v, outcome_of (__call__ sample_runtime 0 [] Hardware_heap) <> Return v.
Proof.
  split; [reflexivity|].
  exact (unresolved_method_never_returns sample_runtime 0 [] Hardware_heap getDPI
           eq_refl eq_refl eq_refl).
Defined.

(** ** The constructor call with arguments *)

(** X11: a constructor call with arguments, on a proxy with an
    environment and a signature of the same arity: one buffer is allocated,
    [populate_args] marshals into it, [<init>] is looked up with the
    constructor signature, the object is created from the buffer as
    marshaling left it when the constructor is found, and the buffer is
    freed last.  The call returns in every case: an error of marshaling
    does not stop it, and a constructor that is not found only leaves the
    proxy without a new instance handle. *)
Theorem constructor_call_with_arguments (rt : Runtime) self args h o d_ret d_args :
  proxies h !! self = Some o ->
  JavaClass.j_env o <> NULL ->
  let def := constructor_definition (JavaClass.ob_type o) in
  parse_definition def = inr (d_ret, d_args) ->
  args <> [] ->
  length args = length d_args ->
  let cls := JavaClass.j_cls o in
  let ctor := rt_GetMethodID rt cls "<init>" def in
  let size := (sizeof_jvalue * Z.of_nat (length d_args))%Z in
  let p := rt_malloc rt size in
  let h1 := {| methods := methods h;
               proxies := <[self := set_definition def o]> (proxies h) |} in
  p <> NULL ->
  exists buf tp,
    populate_args rt o d_args (fresh_buffer p (length d_args)) args h1
    = (Return buf, h1, tp)
    /\ call_constructor rt self args h
       = (Return tt,
          (if is_null ctor then h1
           else {| methods := methods h;
                   proxies := <[self := set_j_self (rt_NewObjectA rt cls ctor buf)
                                          (set_definition def o)]> (proxies h) |}),
          Ev.malloc size p :: tp ++ Ev.Jni (Ev.GetMethodID cls "<init>" def)
            :: (if is_null ctor then [] else [Ev.Jni (Ev.NewObjectA cls ctor buf)])
            ++ [Ev.free p]).
Proof.
  intros Ho Henv def Hparse Hargs Hlen cls ctor size p h1 Hp.
  assert (Hlt : self < length (proxies h)) by (eapply lookup_lt_Some; eauto).
  destruct (populate_args_returns rt o d_args (fresh_buffer p (length d_args)) args h1
              Henv) as (buf & tp & Hpop).
  exists buf, tp. split; [exact Hpop|].
  unfold call_constructor, cdef_void, dropping.
  rewrite (bind_Return_eq _ _ h o h []) by now apply load_proxy_run.
  rewrite after_nil. fold def.
  rewrite (bind_Return_eq _ _ h tt h1 []) by now apply update_proxy_run.
  rewrite after_nil.
  rewrite (bind_Return_eq (lift (parse_definition def)) _ h1 (d_ret, d_args) h1 [])
    by now rewrite Hparse.
  rewrite after_nil. cbn [snd].
  rewrite (length_eqb_refl _ _ Hlen), (nonempty_true _ Hargs). cbn [negb].
  fold size.
  rewrite (bind_Return_eq (malloc rt size) _ h1 p h1 [Ev.malloc size p] eq_refl).
  rewrite (is_null_false _ Hp). cbn [negb].
  unfold try_finally. rewrite (bind_Return_eq _ _ _ _ _ _ Hpop).
  unfold GetMethodID, NewObjectA, jni, update_proxy, load_proxy, store_proxy, free,
    after, bind, emit, ret.
  rewrite (is_null_false _ Henv). cbn. fold cls ctor.
  destruct (is_null ctor).
  - destruct (__javaclass__ (JavaClass.ob_type o)); cbn; now rewrite <- app_assoc.
  - cbn. rewrite list_lookup_insert_eq by exact Hlt. cbn.
    rewrite list_insert_insert_eq. now rewrite <- !app_assoc.
Qed.

Lemma constructor_call_with_arguments_witness :
  call_constructor sample_runtime 0 [PyStr "hi"] Vibrator_heap
  = (Return tt, Vibrator_constructed,
     [Ev.malloc 8 4096%Z;
      Ev.Jni (Ev.NewStringUTF "hi");
      Ev.Jni (Ev.GetMethodID 128%Z "<init>" "(Ljava/lang/String;)V");
      Ev.Jni (Ev.NewObjectA 128%Z 256%Z {| addr := 4096%Z; cells := [cell_l 1024%Z] |});
      Ev.free 4096%Z]).
Proof.
  destruct (constructor_call_with_arguments sample_runtime 0 [PyStr "hi"] Vibrator_heap
              _ "V" ["Ljava/lang/String"] eq_refl ltac:(discriminate) eq_refl
              ltac:(discriminate) eq_refl ltac:(discriminate))
    as (buf & tp & Hpop & Hrun).
  injection Hpop as <- <-. exact Hrun.
Defined.

(** ** Marshaling, argument by argument *)

Section MarshalingSteps.

Variable rt : Runtime.

Ltac primitive_case H a :=
  unfold bind at 1 in H; cbn [lift] in H;
  match type of H with
  | context [lift ?r] => destruct r as [e|v]
  end; cbn in H; [discriminate|];
  injection H as <- <- <-;
  repeat split; cbn; rewrite ?length_insert; try reflexivity;
  destruct a; reflexivity.

(** What a step of the loop that returns has done. *)
Lemma populate_arg_Return self i d buf args h b h' t :
  populate_arg rt self i d buf args h = (Return b, h', t) ->
  exists a, args !! i = Some a
    /\ h' = h
    /\ addr b = addr buf
    /\ length (cells b) = length (cells buf)
    /\ t = string_constructions
             (match a with
              | PyStr s => if d =? "Ljava/lang/String" then [s] else []
              | _ => []
              end).
Proof.
  intros H. unfold populate_arg, getitem in H.
  destruct (args !! i) as [a|] eqn:Ha; [|discriminate].
  exists a. split; [reflexivity|].
  rewrite (bind_Return_eq (ret a) _ h a h [] eq_refl), after_nil in H.
  destruct (String.eqb_spec d "Z") as [->|_]; [primitive_case H a|].
  destruct (String.eqb_spec d "B") as [->|_]; [primitive_case H a|].
  destruct (String.eqb_spec d "C") as [->|_]; [primitive_case H a|].
  destruct (String.eqb_spec d "S") as [->|_]; [primitive_case H a|].
  destruct (String.eqb_spec d "I") as [->|_]; [primitive_case H a|].
  destruct (String.eqb_spec d "J") as [->|_]; [primitive_case H a|].
  destruct (String.eqb_spec d "F") as [->|_]; [primitive_case H a|].
  destruct (String.eqb_spec d "D") as [->|_]; [primitive_case H a|].
  destruct d as [|c rest]; [discriminate|].
  rewrite (bind_Return_eq (getitem0 (String c rest)) _ h (String c "") h [] eq_refl),
    after_nil in H.
  destruct (String.eqb_spec (String c "") "L") as [E|HL].
  - injection E as ->.
    destruct (String.eqb_spec (String "L" rest) "Ljava/lang/String") as [E|_].
    + destruct a; try discriminate.
      * injection H as <- <- <-. repeat split; cbn; now rewrite ?length_insert.
      * unfold NewStringUTF, jni, bind, emit, ret in H.
        destruct (is_null (JavaClass.j_env self)); [discriminate|].
        cbn in H. injection H as <- <- <-.
        repeat split; cbn; now rewrite ?length_insert.
    + destruct a; try discriminate.
      injection H as <- <- <-. repeat split; cbn; now rewrite ?length_insert.
  - destruct (String.eqb (String c "") "["); [discriminate|].
    injection H as <- <- <-. repeat split.
    assert (Hd : (String c rest =? "Ljava/lang/String") = false).
    { cbn. destruct (Ascii.eqb_spec c "L") as [->|]; [contradiction|reflexivity]. }
    rewrite Hd. now destruct a.
Qed.

Lemma text_arguments_step d ds (a : object) args :
  string_constructions
    (match a with
     | PyStr s => if d =? "Ljava/lang/String" then [s] else []
     | _ => []
     end) ++ string_constructions (text_arguments ds args)
  = string_constructions (text_arguments (d :: ds) (a :: args)).
Proof. destruct a; try reflexivity. cbn. now destruct (d =? "Ljava/lang/String"). Qed.

Lemma populate_args_from_Return self ds :
  forall i buf args h b h' t,
  populate_args_from rt self i ds buf args h = (Return b, h', t) ->
  h' = h
  /\ addr b = addr buf
  /\ length (cells b) = length (cells buf)
  /\ t = string_constructions (text_arguments ds (drop i args)).
Proof.
  induction ds as [|d ds IH]; intros i buf args h b h' t H.
  - injection H as <- <- <-. repeat split.
  - cbn [populate_args_from] in H.
    apply bind_Return in H as (b1 & h1 & t1 & t2 & H1 & H2 & ->).
    apply populate_arg_Return in H1 as (a & Ha & -> & Haddr & Hlen & ->).
    apply IH in H2 as (-> & Haddr2 & Hlen2 & ->).
    repeat split; try congruence.
    rewrite (drop_S _ _ _ Ha). apply text_arguments_step.
Qed.

Ltac primitive_shape :=
  unfold bind at 1;
  match goal with |- context [lift ?r] => destruct r end; cbn; eauto.

(** A step of the loop writes at its own index only, and has called
    nothing when it raises. *)
Lemma populate_arg_shape self i d buf args h :
  match populate_arg rt self i d buf args h with
  | (Return b, _, _) => b = buf \/ exists v, b = store_cell buf i v
  | (Raise _, h', t) => h' = h /\ t = []
  | (Fault, _, _) => True
  end.
Proof.
  unfold populate_arg, getitem.
  destruct (args !! i) as [a|]; [|cbn; auto].
  rewrite (bind_Return_eq (ret a) _ h a h [] eq_refl), after_nil.
  destruct (d =? "Z"); [primitive_shape|].
  destruct (d =? "B"); [primitive_shape|].
  destruct (d =? "C"); [primitive_shape|].
  destruct (d =? "S"); [primitive_shape|].
  destruct (d =? "I"); [primitive_shape|].
  destruct (d =? "J"); [primitive_shape|].
  destruct (d =? "F"); [primitive_shape|].
  destruct (d =? "D"); [primitive_shape|].
  destruct d as [|c rest]; [cbn; auto|].
  rewrite (bind_Return_eq (getitem0 (String c rest)) _ h (String c "") h [] eq_refl),
    after_nil.
  destruct (String c "" =? "L").
  - destruct (String c rest =? "Ljava/lang/String"); destruct a; cbn; eauto.
    unfold NewStringUTF, jni, bind, emit, ret.
    destruct (is_null (JavaClass.j_env self)); cbn; eauto.
  - destruct (String c "" =? "["); cbn; eauto.
Qed.

Lemma populate_arg_cells self i d buf args h b h' t :
  populate_arg rt self i d buf args h = (Return b, h', t) ->
  b = buf \/ exists v, b = store_cell buf i v.
Proof. intros H. pose proof (populate_arg_shape self i d buf args h) as S. now rewrite H in S. Qed.

Lemma populate_arg_Raise self i d buf args h e h' t :
  populate_arg rt self i d buf args h = (Raise e, h', t) -> h' = h /\ t = [].
Proof. intros H. pose proof (populate_arg_shape self i d buf args h) as S. now rewrite H in S. Qed.

Lemma populate_args_from_cells self ds :
  forall i buf args h b h' t,
  populate_args_from rt self i ds buf args h = (Return b, h', t) ->
  forall j, j < i \/ i + length ds <= j -> cells b !! j = cells buf !! j.
Proof.
  induction ds as [|d ds IH]; intros i buf args h b h' t H j Hj.
  - now injection H as <- _ _.
  - cbn [populate_args_from] in H.
    apply bind_Return in H as (b1 & h1 & t1 & t2 & H1 & H2 & _).
    rewrite (IH _ _ _ _ _ _ _ H2 j) by (cbn [length] in Hj; lia).
    apply populate_arg_cells in H1 as [->|[v ->]]; [reflexivity|].
    cbn. apply list_lookup_insert_ne. cbn [length] in Hj. lia.
Qed.

(** When the function returns, the loop has run through a prefix of the
    descriptors, and the prefix ends where a step raised. *)
Lemma populate_args_rest_Return self ds :
  forall i buf args h b h' t,
  populate_args_rest rt self i ds buf args h = (Return b, h', t) ->
  exists n, n <= length ds
    /\ populate_args_from rt self i (take n ds) buf args h = (Return b, h', t)
    /\ (n < length ds ->
        exists d e, ds !! n = Some d
          /\ outcome_of (populate_arg rt self (i + n) d b args h') = Raise e).
Proof.
  induction ds as [|d ds IH]; intros i buf args h b h' t H.
  - exists 0. split; [reflexivity|]. split; [exact H|]. cbn. lia.
  - rewrite populate_args_rest_step in H.
    destruct (populate_arg rt self i d buf args h) as [[[b0|e|] h0] t0] eqn:E.
    + destruct (populate_args_rest rt self (S i) ds b0 args h0) as [[o1 h1] t1] eqn:R.
      unfold after in H. cbn in H. injection H as -> -> <-.
      apply IH in R as (n & Hn & Hrun & Hstop).
      exists (S n). split; [cbn; lia|]. split.
      * cbn [take populate_args_from].
        rewrite (bind_Return_eq _ _ _ _ _ _ E), Hrun. reflexivity.
      * intros Hlt. destruct Hstop as (d' & e & Hd & He); [cbn in Hlt; lia|].
        exists d', e. split; [exact Hd|]. now rewrite Nat.add_succ_r.
    + destruct (populate_arg_Raise _ _ _ _ _ _ _ _ _ E) as [-> ->].
      injection H as <- <- <-. exists 0. split; [cbn; lia|]. split; [reflexivity|].
      intros _. exists d, e. split; [reflexivity|].
      rewrite Nat.add_0_r. now rewrite E.
    + discriminate.
Qed.

End MarshalingSteps.

(** X12: when [populate_args] returns, the loop has run through a prefix
    of the descriptors, and that prefix is either all of them or ends
    where a step raised (the error is dropped).  For the prefix it has
    called [NewStringUTF] once for each text value passed for a string
    descriptor, in argument order, and nothing else; the cells from the end
    of the prefix on are as they were; the heap is as it was, and the
    buffer has the address and the number of cells it had. *)
Theorem populate_args_returned (rt : Runtime) self ds buf args h b h' t :
  populate_args rt self ds buf args h = (Return b, h', t) ->
  h' = h
  /\ addr b = addr buf
  /\ length (cells b) = length (cells buf)
  /\ exists n, n <= length ds
       /\ populate_args_from rt self 0 (take n ds) buf args h = (Return b, h, t)
       /\ t = string_constructions (text_arguments (take n ds) args)
       /\ (forall j, n <= j -> cells b !! j = cells buf !! j)
       /\ (n < length ds ->
           exists d e, ds !! n = Some d
             /\ outcome_of (populate_arg rt self n d b args h) = Raise e).
Proof.
  unfold populate_args. intros H.
  apply populate_args_rest_Return in H as (n & Hn & Hrun & Hstop).
  pose proof (populate_args_from_Return rt _ _ _ _ _ _ _ _ _ Hrun) as (-> & Ha & Hl & Ht).
  rewrite drop_0 in Ht.
  split; [reflexivity|]. split; [exact Ha|]. split; [exact Hl|].
  exists n. split; [exact Hn|]. split; [exact Hrun|]. split; [exact Ht|].
  split; [|exact Hstop].
  intros j Hj. apply (populate_args_from_cells rt _ _ _ _ _ _ _ _ _ Hrun).
  right. rewrite length_take. lia.
Qed.

Lemma populate_args_returned_witness :
  populate_args sample_runtime (sample_proxy Hardware)
    ["Ljava/lang/String"; "I"; "Ljava/lang/String"; "Ljava/lang/String"]
    (fresh_buffer 4096%Z 4) [PyStr "a"; PyInt 3; PyInt 5; PyStr "b"] empty_heap
  = (Return {| addr := 4096%Z;
               cells := [cell_l 1024%Z; cell_i 3; cell_uninit; cell_uninit] |},
     empty_heap, [Ev.Jni (Ev.NewStringUTF "a")])
  /\ exists n, n <= 4
       /\ [Ev.Jni (Ev.NewStringUTF "a")]
          = string_constructions
              (text_arguments
                 (take n ["Ljava/lang/String"; "I"; "Ljava/lang/String";
                          "Ljava/lang/String"])
                 [PyStr "a"; PyInt 3; PyInt 5; PyStr "b"]).
Proof.
  split; [reflexivity|].
  destruct (populate_args_returned sample_runtime (sample_proxy Hardware)
              ["Ljava/lang/String"; "I"; "Ljava/lang/String"; "Ljava/lang/String"]
              (fresh_buffer 4096%Z 4) [PyStr "a"; PyInt 3; PyInt 5; PyStr "b"]
              empty_heap _ _ _ eq_refl) as (_ & _ & _ & n & Hn & _ & Ht & _).
  exists n. split; [exact Hn|exact Ht].
Defined.

Section Descriptors.

Variable rt : Runtime.

Lemma populate_arg_unknown self index c rest j_args args py_arg h :
  args !! index = Some py_arg ->
  is_primitive_tag (String c rest) = false ->
  c <> "L"%char -> c <> "["%char ->
  populate_arg rt self index (String c rest) j_args args h = (Return j_args, h, []).
Proof.
  intros Hv Hp HL HA. unfold is_primitive_tag in Hp.
  repeat (apply orb_false_iff in Hp as [Hp ?]).
  unfold populate_arg.
  rewrite (bind_Return_eq (getitem args index) _ h py_arg h [])
    by (unfold getitem; now rewrite Hv).
  rewrite after_nil.
  repeat match goal with
         | H : (String c rest =? _) = false |- _ => rewrite H; clear H
         end.
  rewrite (bind_Return_eq (getitem0 (String c rest)) _ h (String c "") h [] eq_refl),
    after_nil.
  assert (E1 : (String c "" =? "L") = false).
  { cbn. destruct (Ascii.eqb_spec c "L"); [contradiction|reflexivity]. }
  assert (E2 : (String c "" =? "[") = false).
  { cbn. destruct (Ascii.eqb_spec c "["); [contradiction|reflexivity]. }
  now rewrite E1, E2.
Qed.

Lemma populate_arg_object self index rest j_args args py_arg h :
  args !! index = Some py_arg ->
  (String "L" rest =? "Ljava/lang/String") = false ->
  populate_arg rt self index (String "L" rest) j_args args h =
  match py_arg with
  | PyJavaObject obj => (Return (store_cell j_args index (cell_l obj)), h, [])
  | _ => (Raise (JavaException ("JavaObject needed for argument " ++ format_nat index)),
          h, [])
  end.
Proof.
  intros Hv Hs. unfold populate_arg.
  rewrite (bind_Return_eq (getitem args index) _ h py_arg h [])
    by (unfold getitem; now rewrite Hv).
  rewrite after_nil.
  change (String "L" rest =? "Z") with false. change (String "L" rest =? "B") with false.
  change (String "L" rest =? "C") with false. change (String "L" rest =? "S") with false.
  change (String "L" rest =? "I") with false. change (String "L" rest =? "J") with false.
  change (String "L" rest =? "F") with false. change (String "L" rest =? "D") with false.
  cbv iota.
  rewrite (bind_Return_eq (getitem0 (String "L" rest)) _ h "L" h [] eq_refl), after_nil.
  change ("L" =? "L") with true. cbv iota. rewrite Hs.
  now destruct py_arg.
Qed.

End Descriptors.

(** X13: a descriptor token that is no primitive letter and starts with
    neither [L] nor an opening bracket (such as the token [II] that the
    delimiter-based parser makes of two ints written without delimiter)
    is passed over: once the arguments before it have marshaled, nothing is
    checked, nothing is called, its cell is left as it was, and marshaling
    goes on with the next descriptor. *)
Theorem unknown_descriptor_is_skipped (rt : Runtime) self ds1 c rest ds2 buf args py_arg
    h b1 h1 t1 :
  args !! length ds1 = Some py_arg ->
  populate_args_from rt self 0 ds1 buf args h = (Return b1, h1, t1) ->
  is_primitive_tag (String c rest) = false ->
  c <> "L"%char -> c <> "["%char ->
  populate_args_from rt self 0 (ds1 ++ String c rest :: ds2) buf args h
  = after t1 (populate_args_from rt self (S (length ds1)) ds2 b1 args h1)
  /\ populate_args rt self (ds1 ++ String c rest :: ds2) buf args h
     = after t1 (populate_args_rest rt self (S (length ds1)) ds2 b1 args h1).
Proof.
  intros Hv Hpre Hp HL HA.
  pose proof (populate_arg_unknown rt self (length ds1) c rest b1 args py_arg h1
                Hv Hp HL HA) as R.
  split.
  - rewrite (populate_args_at _ _ _ _ _ _ _ _ _ _ _ Hpre).
    rewrite (bind_Return_eq _ _ _ _ _ _ R). now rewrite after_nil.
  - unfold populate_args. rewrite (populate_args_rest_app _ _ _ _ _ _ _ _ _ _ _ Hpre).
    cbn [Nat.add]. rewrite populate_args_rest_step, R. now rewrite after_nil.
Qed.

Lemma unknown_descriptor_is_skipped_witness :
  parse_definition "(II)V" = inr ("V", ["II"])
  /\ populate_args_from sample_runtime (sample_proxy Hardware) 0 ([] ++ ["II"])
       (fresh_buffer 4096%Z 1) [PyInt 7] empty_heap
     = (Return {| addr := 4096%Z; cells := [cell_uninit] |}, empty_heap, [])
  /\ populate_args sample_runtime (sample_proxy Hardware) ([] ++ ["II"])
       (fresh_buffer 4096%Z 1) [PyInt 7] empty_heap
     = (Return {| addr := 4096%Z; cells := [cell_uninit] |}, empty_heap, []).
Proof.
  split; [reflexivity|].
  exact (unknown_descriptor_is_skipped sample_runtime (sample_proxy Hardware) []
           "I" "I" [] (fresh_buffer 4096%Z 1) [PyInt 7] (PyInt 7) empty_heap _ _ _
           eq_refl eq_refl eq_refl ltac:(discriminate) ltac:(discriminate)).
Defined.

(** X14: at an object descriptor other than the string descriptor, once
    the arguments before it have marshaled, a [JavaObject] puts the
    reference it holds in the cell without any call and marshaling goes
    on.  Every other value, [None] included, leaves the loop with the
    JavaException that names the argument's index; [populate_args] drops
    it and returns, with that cell and the cells after it as they were. *)
Theorem populate_args_object (rt : Runtime) self ds1 rest ds2 buf args py_arg h b1 h1 t1 :
  args !! length ds1 = Some py_arg ->
  populate_args_from rt self 0 ds1 buf args h = (Return b1, h1, t1) ->
  (String "L" rest =? "Ljava/lang/String") = false ->
  let k := length ds1 in
  let ds := ds1 ++ String "L" rest :: ds2 in
  match py_arg with
  | PyJavaObject obj =>
      populate_args rt self ds buf args h
      = after t1 (populate_args_rest rt self (S k) ds2 (store_cell b1 k (cell_l obj))
                    args h1)
  | _ =>
      populate_args_from rt self 0 ds buf args h
      = (Raise (JavaException ("JavaObject needed for argument " ++ format_nat k)), h1, t1)
      /\ populate_args rt self ds buf args h = (Return b1, h1, t1)
  end.
Proof.
  intros Hv Hpre Hs k ds. subst k ds.
  pose proof (populate_arg_object rt self (length ds1) rest b1 args py_arg h1 Hv Hs) as R.
  destruct py_arg;
    try (rewrite <- (app_nil_r t1);
         exact (populate_args_dropped rt self ds1 _ ds2 buf args h b1 h1 t1 _ h1 []
                  Hpre R)).
  unfold populate_args. rewrite (populate_args_rest_app _ _ _ _ _ _ _ _ _ _ _ Hpre).
  cbn [Nat.add]. rewrite populate_args_rest_step, R. now rewrite after_nil.
Qed.

Lemma populate_args_object_witness :
  (populate_args_from sample_runtime (sample_proxy Hardware) 0
     (["I"] ++ "Landroid/view/View" :: ["I"])
     (fresh_buffer 4096%Z 3) [PyInt 3; PyNone; PyInt 7] empty_heap
   = (Raise (JavaException "JavaObject needed for argument 1"), empty_heap, [])
   /\ populate_args sample_runtime (sample_proxy Hardware)
        (["I"] ++ "Landroid/view/View" :: ["I"])
        (fresh_buffer 4096%Z 3) [PyInt 3; PyNone; PyInt 7] empty_heap
      = (Return {| addr := 4096%Z; cells := [cell_i 3; cell_uninit; cell_uninit] |},
         empty_heap, []))
  /\ populate_args sample_runtime (sample_proxy Hardware)
       (["I"] ++ "Landroid/view/View" :: ["I"])
       (fresh_buffer 4096%Z 3) [PyInt 3; PyJavaObject 2048%Z; PyInt 7] empty_heap
     = (Return {| addr := 4096%Z; cells := [cell_i 3; cell_l 2048%Z; cell_i 7] |},
        empty_heap, []).
Proof.
  split.
  - exact (populate_args_object sample_runtime (sample_proxy Hardware) ["I"]
             "android/view/View" ["I"] (fresh_buffer 4096%Z 3) [PyInt 3; PyNone; PyInt 7]
             PyNone empty_heap _ _ _ eq_refl eq_refl eq_refl).
  - exact (populate_args_object sample_runtime (sample_proxy Hardware) ["I"]
             "android/view/View" ["I"] (fresh_buffer 4096%Z 3)
             [PyInt 3; PyJavaObject 2048%Z; PyInt 7] (PyJavaObject 2048%Z)
             empty_heap _ _ _ eq_refl eq_refl eq_refl).
Defined.

(** ** Result decoding, tag by tag *)

Lemma pow2_double (b : Z) : (0 < b)%Z -> (2 ^ b = 2 * 2 ^ (b - 1))%Z.
Proof.
  intros H. replace b with (Z.succ (b - 1)) at 1 by lia.
  rewrite Z.pow_succ_r by lia. reflexivity.
Qed.

Lemma wrap_signed_small (bits z : Z) :
  (0 < bits)%Z -> (- 2 ^ (bits - 1) <= z < 2 ^ (bits - 1))%Z -> wrap_signed bits z = z.
Proof.
  intros Hb Hz. unfold wrap_signed. rewrite (pow2_double bits Hb).
  rewrite Z.mod_small by lia. lia.
Qed.

Lemma wrap_unsigned_byte (z : Z) :
  (-128 <= z < 128)%Z ->
  wrap_unsigned 8 z = (if z <? 0 then z + 256 else z)%Z.
Proof.
  intros Hz. unfold wrap_unsigned. change (2 ^ 8)%Z with 256%Z.
  destruct (Z.ltb_spec z 0).
  - rewrite <- (Z.mod_small (z + 256) 256) by lia.
    replace (z + 256)%Z with (z + 1 * 256)%Z by lia. now rewrite Z.mod_add by lia.
  - apply Z.mod_small. lia.
Qed.

Section Decoded.

Variable rt : Runtime.

Lemma call_method_invalid self j_args c rest h :
  JavaMethod.definition_return self = String c rest ->
  entry_type (String c "") = None ->
  c <> "["%char ->
  call_method rt self j_args h = (Raise (Exception "Invalid return definition?"), h, [])
  /\ call_staticmethod rt self j_args h
     = (Raise (Exception "Invalid return definition?"), h, []).
Proof.
  intros Hr Ht HA. unfold entry_type in Ht.
  repeat match type of Ht with
         | (if ?b then _ else _) = None => destruct b eqn:?; [discriminate|]
         end.
  assert (E : (String c "" =? "[") = false).
  { cbn. destruct (Ascii.eqb_spec c "["); [contradiction|reflexivity]. }
  unfold call_method, call_staticmethod. rewrite Hr.
  rewrite !(bind_Return_eq (getitem0 (String c rest)) _ h (String c "") h [] eq_refl),
    !after_nil.
  repeat match goal with
         | H : (String c "" =? _) = false |- _ => rewrite !H; clear H
         end.
  split; reflexivity.
Qed.

Lemma call_method_int_run self j_args rest h :
  JavaMethod.definition_return self = String "I" rest ->
  JavaMethod.j_env self <> NULL ->
  outcome_of (call_method rt self j_args h)
  = Return (PyInt (cast_int (wrap_signed 32
      (rt_CallMethodA rt TInt (JavaMethod.j_self self) (JavaMethod.j_method self) j_args)))).
Proof.
  intros Hr Henv. unfold call_method. rewrite Hr.
  unfold_jni. unfold_monad. rewrite (is_null_false _ Henv). reflexivity.
Qed.

Lemma call_staticmethod_int_run self j_args rest h :
  JavaMethod.definition_return self = String "I" rest ->
  JavaMethod.j_env self <> NULL ->
  outcome_of (call_staticmethod rt self j_args h)
  = Return (PyInt (cast_int (wrap_signed 32
      (rt_CallStaticMethodA rt TInt (JavaMethod.j_cls self) (JavaMethod.j_method self)
         j_args)))).
Proof.
  intros Hr Henv. unfold call_staticmethod. rewrite Hr.
  unfold_jni. unfold_monad. rewrite (is_null_false _ Henv). reflexivity.
Qed.

Lemma call_method_short_run self j_args rest h :
  JavaMethod.definition_return self = String "S" rest ->
  JavaMethod.j_env self <> NULL ->
  outcome_of (call_method rt self j_args h)
  = Return (PyInt (cast_short (wrap_signed 16
      (rt_CallMethodA rt TShort (JavaMethod.j_self self) (JavaMethod.j_method self)
         j_args)))).
Proof.
  intros Hr Henv. unfold call_method. rewrite Hr.
  unfold_jni. unfold_monad. rewrite (is_null_false _ Henv). reflexivity.
Qed.

Lemma call_method_byte_run self j_args rest h :
  JavaMethod.definition_return self = String "B" rest ->
  JavaMethod.j_env self <> NULL ->
  outcome_of (call_method rt self j_args h)
  = Return (PyInt (cast_char rt (wrap_signed 8
      (rt_CallMethodA rt TByte (JavaMethod.j_self self) (JavaMethod.j_method self)
         j_args)))).
Proof.
  intros Hr Henv. unfold call_method. rewrite Hr.
  unfold_jni. unfold_monad. rewrite (is_null_false _ Henv). reflexivity.
Qed.

Lemma call_method_long_run self j_args rest h :
  JavaMethod.definition_return self = String "J" rest ->
  JavaMethod.j_env self <> NULL ->
  outcome_of (call_method rt self j_args h)
  = Return (PyInt (cast_long rt (wrap_signed 64
      (rt_CallMethodA rt TLong (JavaMethod.j_self self) (JavaMethod.j_method self)
         j_args)))).
Proof.
  intros Hr Henv. unfold call_method. rewrite Hr.
  unfold_jni. unfold_monad. rewrite (is_null_false _ Henv). reflexivity.
Qed.

End Decoded.

(** X15: a return descriptor is checked only when the method is invoked.
    An empty one raises IndexError; one whose first character is none of
    the ten tags nor an opening bracket raises the Exception for an invalid
    return definition; in both cases on both call paths, before any
    foreign call, resolved or not. *)
Theorem invalid_return_descriptor (rt : Runtime) self j_args h :
  (JavaMethod.definition_return self = "" ->
   call_method rt self j_args h
     = (Raise (IndexError "string index out of range"), h, [])
   /\ call_staticmethod rt self j_args h
     = (Raise (IndexError "string index out of range"), h, []))
  /\ (forall c rest,
        JavaMethod.definition_return self = String c rest ->
        entry_type (String c "") = None -> c <> "["%char ->
        call_method rt self j_args h
          = (Raise (Exception "Invalid return definition?"), h, [])
        /\ call_staticmethod rt self j_args h
          = (Raise (Exception "Invalid return definition?"), h, [])).
Proof.
  split.
  - intros Hr. unfold call_method, call_staticmethod. rewrite Hr. split; reflexivity.
  - intros c rest. apply call_method_invalid.
Qed.

Lemma invalid_return_descriptor_witness :
  parse_definition "()Q" = inr ("Q", [])
  /\ call_method sample_runtime (sample_method false "Q" []) NULL_buffer empty_heap
     = (Raise (Exception "Invalid return definition?"), empty_heap, []).
Proof.
  split; [reflexivity|].
  destruct (invalid_return_descriptor sample_runtime (sample_method false "Q" [])
              NULL_buffer empty_heap) as [_ H].
  apply (H "Q"%char ""); [reflexivity|reflexivity|discriminate].
Defined.

Ltac in_range :=
  first [ lia
        | change (2 ^ (32 - 1))%Z with 2147483648%Z; lia
        | change (2 ^ (16 - 1))%Z with 32768%Z; lia
        | change (2 ^ (8 - 1))%Z with 128%Z; lia
        | change (64 - 1)%Z with 63%Z; lia ].

Ltac pass_through :=
  match goal with
  | |- context [wrap_signed ?b (wrap_signed ?b ?z)] =>
      rewrite !(wrap_signed_small b z) by in_range
  end.

(** X16: an int result, and a short result, that the runtime returns
    within the range of its type comes back as the Python integer of the
    same value, from an instance call and (for int) from a static call. *)
Theorem int_and_short_results_pass_through (rt : Runtime) self j_args rest h :
  JavaMethod.j_env self <> NULL ->
  (JavaMethod.definition_return self = String "I" rest ->
   let v := rt_CallMethodA rt TInt (JavaMethod.j_self self) (JavaMethod.j_method self)
              j_args in
   (-2147483648 <= v < 2147483648)%Z ->
   outcome_of (call_method rt self j_args h) = Return (PyInt v))
  /\ (JavaMethod.definition_return self = String "I" rest ->
      let v := rt_CallStaticMethodA rt TInt (JavaMethod.j_cls self)
                 (JavaMethod.j_method self) j_args in
      (-2147483648 <= v < 2147483648)%Z ->
      outcome_of (call_staticmethod rt self j_args h) = Return (PyInt v))
  /\ (JavaMethod.definition_return self = String "S" rest ->
      let v := rt_CallMethodA rt TShort (JavaMethod.j_self self)
                 (JavaMethod.j_method self) j_args in
      (-32768 <= v < 32768)%Z ->
      outcome_of (call_method rt self j_args h) = Return (PyInt v)).
Proof.
  intros Henv. repeat split; intros Hr v Hv; subst v.
  - rewrite (call_method_int_run rt self j_args rest h Hr Henv).
    unfold cast_int. now pass_through.
  - rewrite (call_staticmethod_int_run rt self j_args rest h Hr Henv).
    unfold cast_int. now pass_through.
  - rewrite (call_method_short_run rt self j_args rest h Hr Henv).
    unfold cast_short. now pass_through.
Qed.

Lemma int_and_short_results_pass_through_witness :
  outcome_of (call_method sample_runtime (sample_method false "I" []) NULL_buffer empty_heap)
  = Return (PyInt 160).
Proof.
  destruct (int_and_short_results_pass_through sample_runtime
              (sample_method false "I" []) NULL_buffer "" empty_heap) as [H _];
    [discriminate|].
  apply H; [reflexivity|]. cbn. lia.
Defined.

(** X17: two results depend on the C platform.  A byte result within
    [-128, 127] comes back unchanged where plain [char] is signed, and
    with 256 added to the negative values where it is unsigned.  A long
    result within 64 bits comes back unchanged where C [long] has 64 bits,
    and cut to its low 32 bits (as a signed value) where it has 32. *)
Theorem byte_and_long_results_by_platform (rt : Runtime) self j_args rest h :
  JavaMethod.j_env self <> NULL ->
  (JavaMethod.definition_return self = String "B" rest ->
   let v := rt_CallMethodA rt TByte (JavaMethod.j_self self) (JavaMethod.j_method self)
              j_args in
   (-128 <= v < 128)%Z ->
   outcome_of (call_method rt self j_args h)
   = Return (PyInt (if char_is_signed rt then v
                    else if (v <? 0)%Z then (v + 256)%Z else v)))
  /\ (JavaMethod.definition_return self = String "J" rest ->
      let v := rt_CallMethodA rt TLong (JavaMethod.j_self self)
                 (JavaMethod.j_method self) j_args in
      (- 2 ^ 63 <= v < 2 ^ 63)%Z ->
      (long_bits rt = 64%Z ->
       outcome_of (call_method rt self j_args h) = Return (PyInt v))
      /\ (long_bits rt = 32%Z ->
          outcome_of (call_method rt self j_args h)
          = Return (PyInt (wrap_signed 32 v)))).
Proof.
  intros Henv. split; intros Hr v Hv; subst v.
  - rewrite (call_method_byte_run rt self j_args rest h Hr Henv).
    unfold cast_char. destruct (char_is_signed rt).
    + now pass_through.
    + rewrite (wrap_signed_small 8) by in_range. now rewrite wrap_unsigned_byte.
  - rewrite (call_method_long_run rt self j_args rest h Hr Henv).
    unfold cast_long. split; intros ->.
    + now pass_through.
    + now rewrite (wrap_signed_small 64) by in_range.
Qed.

Lemma byte_and_long_results_by_platform_witness :
  outcome_of (call_method sample_runtime (sample_method false "J" []) NULL_buffer empty_heap)
  = Return (PyInt 705032704)
  /\ rt_CallMethodA sample_runtime TLong NULL 256%Z NULL_buffer = 5000000000%Z.
Proof.
  split; [|reflexivity].
  destruct (byte_and_long_results_by_platform sample_runtime
              (sample_method false "J" []) NULL_buffer "" empty_heap) as [_ H];
    [discriminate|].
  destruct (H eq_refl) as [_ H32]; [cbn; lia|].
  exact (H32 eq_refl).
Defined.

(** ** What an instantiation that returns has built *)

Lemma heap_of_try_finally {A} (body : M A) (fin : M unit) h :
  (forall h', heap_of (fin h') = h') ->
  heap_of (try_finally body fin h) = heap_of (body h).
Proof.
  intros Hfin. unfold try_finally.
  destruct (body h) as [[[a|e|] h1] t1]; [| |reflexivity];
    specialize (Hfin h1); destruct (fin h1) as [[[[]|e'|] h2] t2]; exact Hfin.
Qed.

Section InstantiationReturned.

Variable rt : Runtime.

(** Method resolution leaves the proxies alone; a method object it has
    touched is bound to the proxy and holds the proxy's handles. *)
Lemma resolve_methods_heap self o h0 :
  proxies h0 !! self = Some o ->
  let I := fun h => proxies h = proxies h0
                    /\ forall a, methods h !! a = methods h0 !! a
                                 \/ bound_to_proxy self o h a in
  establishes I (resolve_methods rt self) I.
Proof.
  intros Ho I.
  assert (Hstep : forall a name, establishes I (resolve_method rt a self name) I).
  { intros a name h [Hp Hm].
    destruct (resolve_method_heap rt a self name h)
      as [->|(m & c & m' & Hma & Hc & -> & Hjc & He & Hcl & Hs)]; [now split|].
    assert (c = o) by congruence. subst c.
    assert (Hlt : a < length (methods h)) by (eapply lookup_lt_Some; eauto).
    split; [exact Hp|]. intros a'. cbn [methods].
    destruct (decide (a' = a)) as [->|Hne].
    - right. exists m'. cbn [methods]. now rewrite list_lookup_insert_eq.
    - rewrite list_lookup_insert_ne by auto.
      destruct (Hm a') as [E|(jm & Hjm & B)]; [now left|].
      right. exists jm. cbn [methods]. now rewrite list_lookup_insert_ne by auto. }
  assert (Hloop : forall l, establishes I (resolve_members rt self l) I).
  { induction l as [|[name [a|]] l IH]; cbn [resolve_members].
    - intros h H. exact H.
    - eapply establishes_bind; [apply Hstep|intros u; apply IH|auto].
    - exact IH. }
  unfold resolve_methods, cdef_void. apply establishes_dropping.
  eapply establishes_bind; [apply establishes_load_proxy|intros o'; apply Hloop|auto].
Qed.

(** The constructor call records the signature in the proxy; the one
    other thing it can change is the proxy's instance handle. *)
Lemma call_constructor_heap self args h o :
  proxies h !! self = Some o ->
  let def := constructor_definition (JavaClass.ob_type o) in
  exists o',
    heap_of (call_constructor rt self args h)
    = {| methods := methods h; proxies := <[self := o']> (proxies h) |}
    /\ (o' = set_definition def o
        \/ exists ctor buf,
             o' = set_j_self (rt_NewObjectA rt (JavaClass.j_cls o) ctor buf)
                    (set_definition def o)).
Proof.
  intros Ho def.
  assert (Hlt : self < length (proxies h)) by (eapply lookup_lt_Some; eauto).
  set (h1 := {| methods := methods h;
                proxies := <[self := set_definition def o]> (proxies h) |}).
  unfold call_constructor, cdef_void. rewrite dropping_heap.
  rewrite (bind_Return_eq _ _ h o h []) by now apply load_proxy_run.
  rewrite after_nil. fold def.
  rewrite (bind_Return_eq _ _ h tt h1 []) by now apply update_proxy_run.
  rewrite after_nil, heap_of_bind.
  destruct (parse_definition def) as [e|[d_ret d_args]]; cbn [lift];
    [exists (set_definition def o); auto|].
  unfold ret at 1. cbn [snd].
  destruct (negb (length args =? length d_args)%nat);
    [exists (set_definition def o); auto|].
  rewrite heap_of_bind.
  set (p := if nonempty args then rt_malloc rt (sizeof_jvalue * Z.of_nat (length d_args))
            else NULL).
  assert (Hp : exists t, (if nonempty args
                then malloc rt (sizeof_jvalue * Z.of_nat (length d_args))
                else ret NULL) h1 = (Return p, h1, t)).
  { subst p. destruct (nonempty args); eexists; reflexivity. }
  destruct Hp as [tp ->].
  rewrite heap_of_try_finally by (intros h'; now destruct (negb (is_null p))).
  rewrite heap_of_bind.
  set (m := if nonempty args then _ else ret NULL_buffer).
  assert (Hm : heap_of (m h1) = h1).
  { subst m. destruct (nonempty args); [|reflexivity].
    destruct (is_null p); [reflexivity|apply external_populate_args]. }
  destruct (m h1) as [[[buf|e|] hm] tm]; cbn in Hm; subst hm;
    [|exists (set_definition def o); auto..].
  unfold GetMethodID, NewObjectA, jni.
  destruct (is_null (JavaClass.j_env o)); [exists (set_definition def o); auto|].
  unfold bind at 1, emit, ret. cbn.
  destruct (is_null (rt_GetMethodID rt (JavaClass.j_cls o) "<init>" def)).
  { exists (set_definition def o).
    split; [|auto]. now destruct (__javaclass__ (JavaClass.ob_type o)). }
  unfold update_proxy, load_proxy, store_proxy, bind. cbn.
  rewrite list_lookup_insert_eq by exact Hlt. cbn. rewrite list_insert_insert_eq.
  eexists. split; [reflexivity|]. right. eauto.
Qed.

End InstantiationReturned.

(** X18: an instantiation that returns has added one proxy object at the
    end of the heap and changed no proxy that was there.  The new proxy
    remembers the constructor signature and holds the environment the
    runtime gave and the class handle the runtime answered for the declared
    class path, whatever they are: NULL for a class that is not found, and
    for both when no class path is declared.  Its instance handle is NULL
    or what [NewObjectA] returned.  Every method object is as it was, or
    refers to the new proxy and holds copies of its two handles. *)
Theorem instantiation_returned (rt : Runtime) cls args h self h' t :
  JavaClass_new rt cls args h = (Return self, h', t) ->
  self = length (proxies h)
  /\ exists o,
       proxies h' = proxies h ++ [o]
       /\ JavaClass.ob_type o = cls
       /\ JavaClass.definition o = Some (constructor_definition cls)
       /\ JavaClass.j_env o
          = match __javaclass__ cls with
            | Some _ => rt_GetJNIEnv rt
            | None => NULL
            end
       /\ JavaClass.j_cls o
          = match __javaclass__ cls with
            | Some name => if is_null (rt_GetJNIEnv rt) then NULL else rt_FindClass rt name
            | None => NULL
            end
       /\ (JavaClass.j_self o = NULL
           \/ exists ctor buf,
                JavaClass.j_self o = rt_NewObjectA rt (JavaClass.j_cls o) ctor buf)
       /\ forall a, methods h' !! a = methods h !! a
                    \/ carries_handles self o (methods h') a.
Proof.
  intros H. rewrite JavaClass_new_unfold in H.
  apply bind_Return in H as (u & h1 & t1 & t2 & Hinit & Hret & _).
  injection Hret as <- <- _. split; [reflexivity|].
  set (o0 := {| JavaClass.ob_type := cls; JavaClass.j_env := NULL;
                JavaClass.j_cls := NULL; JavaClass.j_self := NULL;
                JavaClass.definition := None |}) in *.
  set (h0 := {| methods := methods h; proxies := proxies h ++ [o0] |}) in *.
  unfold __init__ in Hinit.
  apply bind_Return in Hinit as (u1 & hA & tA & ? & HA & Hinit & _).
  apply bind_Return in Hinit as (u2 & hB & tB & ? & HB & HC & _).
  set (o1 := {| JavaClass.ob_type := cls;
                JavaClass.j_env := match __javaclass__ cls with
                                   | Some _ => rt_GetJNIEnv rt
                                   | None => NULL
                                   end;
                JavaClass.j_cls := match __javaclass__ cls with
                                   | Some name => if is_null (rt_GetJNIEnv rt) then NULL
                                                  else rt_FindClass rt name
                                   | None => NULL
                                   end;
                JavaClass.j_self := NULL; JavaClass.definition := None |}).
  assert (EA : hA = {| methods := methods h; proxies := proxies h ++ [o1] |}).
  { pose proof (resolve_class_run rt (length (proxies h)) h0 o0
                  (list_lookup_middle _ _ _ _ eq_refl)) as RC.
    rewrite HA in RC. subst o1. cbn [JavaClass.ob_type o0] in RC.
    destruct (__javaclass__ cls) as [name|].
    - cbn zeta in RC. destruct (is_null (rt_GetJNIEnv rt)); injection RC as _ -> _;
        cbn [methods proxies h0]; now rewrite insert_last.
    - now injection RC as _ -> _. }
  assert (Ho1 : proxies hA !! length (proxies h) = Some o1)
    by (rewrite EA; now apply list_lookup_middle).
  pose proof (resolve_methods_heap rt _ o1 hA Ho1 hA) as RM. cbn zeta in RM.
  rewrite HB in RM. cbn [heap_of fst snd] in RM.
  destruct RM as [HpB HmB]; [split; [reflexivity|now left]|].
  assert (HoB : proxies hB !! length (proxies h) = Some o1) by now rewrite HpB.
  destruct (call_constructor_heap rt _ args hB o1 HoB) as (o' & Hh1 & Ho').
  rewrite HC in Hh1. cbn [heap_of fst snd] in Hh1. subst h1.
  exists o'. cbn [methods proxies]. rewrite HpB, EA. cbn [proxies methods].
  rewrite insert_last. split; [reflexivity|].
  assert (Hmethods : forall a, methods hB !! a = methods h !! a
                               \/ carries_handles (length (proxies h)) o1 (methods hB) a).
  { intros a. destruct (HmB a) as [E|(jm & Hjm & Hjc & He & Hc & _)].
    - left. now rewrite E, EA.
    - right. exists jm. auto. }
  destruct Ho' as [->|(ctor & buf & ->)]; cbn;
    (split; [reflexivity|]); (split; [reflexivity|]); (split; [reflexivity|]);
    (split; [reflexivity|]); (split; [|exact Hmethods]); [now left|right; eauto].
Qed.

Lemma instantiation_returned_witness :
  JavaClass_new sample_runtime_no_class Hardware [] Hardware_heap
  = (Return 0,
     {| methods := [{| JavaMethod.j_method := 257%Z; JavaMethod.jc := Some 0;
                       JavaMethod.j_env := 64%Z; JavaMethod.j_cls := NULL;
                       JavaMethod.j_self := NULL;
                       JavaMethod.definition := "()I";
                       JavaMethod.is_static := true;
                       JavaMethod.definition_return := "I";
                       JavaMethod.definition_args := [] |}];
        proxies := [{| JavaClass.ob_type := Hardware; JavaClass.j_env := 64%Z;
                       JavaClass.j_cls := NULL; JavaClass.j_self := 512%Z;
                       JavaClass.definition := Some "()V" |}] |},
     [Ev.SDL_ANDROID_GetJNIEnv;
      Ev.Jni (Ev.FindClass "org/test/Hardware");
      Ev.Jni (Ev.GetStaticMethodID NULL "getDPI" "()I");
      Ev.Jni (Ev.GetMethodID NULL "<init>" "()V");
      Ev.Jni (Ev.NewObjectA NULL 256%Z NULL_buffer)])
  /\ 0 = length (proxies Hardware_heap).
Proof.
  split; [reflexivity|].
  exact (proj1 (instantiation_returned sample_runtime_no_class Hardware [] Hardware_heap 0
                  _ _ eq_refl)).
Defined.

(** ** Invocation with arguments *)

(** X19: invoking a resolved method with arguments, through a proxy with
    an environment, allocates one buffer, marshals into it, makes the typed
    call and frees the buffer last.  Marshaling always returns, so the
    typed call is always made, on the buffer as marshaling left it, and its
    outcome is the invocation's.  The heap is as before. *)
Theorem call_with_arguments (rt : Runtime) self args h jm c o :
  methods h !! self = Some jm ->
  args <> [] ->
  length args = length (JavaMethod.definition_args jm) ->
  JavaMethod.j_env jm <> NULL ->
  JavaMethod.jc jm = Some c ->
  proxies h !! c = Some o ->
  JavaClass.j_env o <> NULL ->
  let d_args := JavaMethod.definition_args jm in
  let size := (sizeof_jvalue * Z.of_nat (length d_args))%Z in
  let p := rt_malloc rt size in
  let typed_call buf :=
    if JavaMethod.is_static jm then call_staticmethod rt jm buf h
    else call_method rt jm buf h in
  p <> NULL ->
  exists buf tp,
    populate_args rt o d_args (fresh_buffer p (length d_args)) args h = (Return buf, h, tp)
    /\ __call__ rt self args h
       = (outcome_of (typed_call buf), h,
          Ev.malloc size p :: tp ++ trace_of (typed_call buf) ++ [Ev.free p]).
Proof.
  intros Hm Hargs Hlen Henv Hjc Ho Hoenv d_args size p typed_call Hp.
  destruct (populate_args_returns rt o d_args (fresh_buffer p (length d_args)) args h
              Hoenv) as (buf & tp & Hpop).
  exists buf, tp. split; [exact Hpop|].
  exact (call_marshaled rt self args h jm c o buf h tp Hm Hargs Hlen Henv Hjc Ho Hp Hpop).
Qed.

Lemma call_with_arguments_witness :
  __call__ sample_runtime 0 [PyInt 5; PyInt 3] sample_heap
  = (Return (PyJavaObject 2048%Z), sample_heap,
     [Ev.malloc 16 4096%Z;
      Ev.Jni (Ev.CallMethodA TObject NULL 256%Z
                {| addr := 4096%Z; cells := [cell_uninit; cell_uninit] |});
      Ev.free 4096%Z]).
Proof.
  destruct (call_with_arguments sample_runtime 0 [PyInt 5; PyInt 3] sample_heap _ 0 _
              eq_refl ltac:(discriminate) eq_refl ltac:(discriminate) eq_refl eq_refl
              ltac:(discriminate) ltac:(discriminate))
    as (buf & tp & Hpop & Hrun).
  injection Hpop as <- <-. exact Hrun.
Defined.

(** ** Errors of instantiation *)



(** X21: when the proxy type declares no class path or the runtime has no
    environment, class resolution returns all the same and leaves the
    proxy without environment; instantiation then dereferences that NULL
    environment at the first method member it resolves. *)
Theorem instantiation_without_environment (rt : Runtime) cls args h :
  __javaclass__ cls = None \/ rt_GetJNIEnv rt = NULL ->
  members_declared (methods h) (members cls) ->
  (exists name a, In (name, attr_method a) (members cls)) ->
  outcome_of (JavaClass_new rt cls args h) = Fault
  /\ trace_of (JavaClass_new rt cls args h)
     = match __javaclass__ cls with
       | Some _ => [Ev.SDL_ANDROID_GetJNIEnv]
       | None => []
       end.
Proof.
  intros Hno Hdecl Hmember. rewrite JavaClass_new_unfold.
  set (self := length (proxies h)).
  set (o0 := {| JavaClass.ob_type := cls; JavaClass.j_env := NULL;
                JavaClass.j_cls := NULL; JavaClass.j_self := NULL;
                JavaClass.definition := None |}).
  set (h0 := {| methods := methods h; proxies := proxies h ++ [o0] |}).
  assert (Ho0 : proxies h0 !! self = Some o0) by (apply list_lookup_middle; reflexivity).
  assert (RC : exists o1 tc,
             resolve_class rt self h0
             = (Return tt, {| methods := methods h; proxies := proxies h ++ [o1] |}, tc)
             /\ JavaClass.j_env o1 = NULL /\ JavaClass.ob_type o1 = cls
             /\ tc = match __javaclass__ cls with
                     | Some _ => [Ev.SDL_ANDROID_GetJNIEnv]
                     | None => []
                     end).
  { rewrite (resolve_class_run rt self h0 o0 Ho0). cbn [JavaClass.ob_type o0].
    destruct (__javaclass__ cls) as [name|].
    - destruct Hno as [Hno|Hno]; [discriminate|]. cbn zeta. rewrite Hno. cbn.
      eexists _, _. split; [subst self; now rewrite insert_last|]. auto.
    - exists o0, []. auto. }
  destruct RC as (o1 & tc & RC & Henv & Hty & ->).
  set (h1 := {| methods := methods h; proxies := proxies h ++ [o1] |}) in *.
  assert (Ho1 : proxies h1 !! self = Some o1) by (apply list_lookup_middle; reflexivity).
  assert (RM : forall l, (exists name a, In (name, attr_method a) l) ->
                         members_declared (methods h) l ->
                         exists hf, resolve_members rt self l h1 = (Fault, hf, [])).
  { induction l as [|[name [a|]] l IH]; intros (n & a' & Hin) Hd.
    - destruct Hin.
    - cbn [resolve_members].
      destruct (lookup_lt_is_Some_2 (methods h) a) as [m Hm];
        [apply (Hd name a); now left|].
      unfold resolve_method, update_method, load_method, store_method, load_proxy, bind.
      rewrite Ho1. cbn. rewrite Hm. cbn.
      rewrite list_lookup_insert_eq by (eapply lookup_lt_Some; eauto). cbn.
      unfold GetStaticMethodID, GetMethodID, jni. rewrite Henv. cbn.
      destruct (JavaMethod.is_static m); eexists; reflexivity.
    - cbn [resolve_members]. apply IH.
      + destruct Hin as [Hin|Hin]; [discriminate|eauto].
      + intros n' a'' Hin'. apply (Hd n' a''). now right. }
  destruct (RM (members cls) Hmember Hdecl) as [hf Hf].
  unfold __init__. rewrite bind_assoc, (bind_Return_eq _ _ _ _ _ _ RC).
  assert (E : resolve_methods rt self h1 = (Fault, hf, [])).
  { unfold resolve_methods, cdef_void, dropping.
    rewrite (bind_Return_eq _ _ h1 o1 h1 []) by now apply load_proxy_run.
    now rewrite after_nil, Hty, Hf. }
  assert (E2 : bind (bind (resolve_methods rt self)
                          (fun _ => call_constructor rt self args))
                    (fun _ => ret self) h1 = (Fault, hf, []))
    by (unfold bind; now rewrite E).
  rewrite E2. unfold after. cbn. now rewrite app_nil_r.
Qed.

Lemma instantiation_without_environment_witness :
  outcome_of (JavaClass_new sample_runtime Undeclared [] Hardware_heap) = Fault
  /\ trace_of (JavaClass_new sample_runtime Undeclared [] Hardware_heap) = []
  /\ outcome_of (JavaClass_new sample_runtime_no_environment Hardware [] Hardware_heap)
     = Fault
  /\ trace_of (JavaClass_new sample_runtime_no_environment Hardware [] Hardware_heap)
     = [Ev.SDL_ANDROID_GetJNIEnv].
Proof.
  destruct (instantiation_without_environment sample_runtime Undeclared [] Hardware_heap)
    as [O T].
  - now left.
  - intros name a [H|[]]. injection H as _ <-. cbn. lia.
  - exists "getDPI", 0. now left.
  - destruct (instantiation_without_environment sample_runtime_no_environment Hardware []
                Hardware_heap) as [O' T'].
    + now right.
    + intros name a [H|[H|[]]]; [discriminate|]. injection H as _ <-. cbn. lia.
    + exists "getDPI", 0. right. now left.
    + exact (conj O (conj T (conj O' T'))).
Defined.
